(** * TCGA-Histology-Hub: the slide download pipeline, embedded and verified

    The development follows [download_tcga_slides_by_type_and_projects.py]
    (the instrumented pipeline, with retry and patient filtering) and
    [gdc-WSI-downloader.py] (the plain pipeline).  Python functions become
    Rocq functions of the same name; code that touches the file system, the
    network or the log threads an explicit [world]; code that can raise
    returns a [result]. *)

From Stdlib Require Import ZArith List String Ascii Bool Lia Permutation DecimalString DecimalPos Sorted.
From Stdlib.Strings Require Import Byte.
From stdpp Require Import gmap strings.
Import ListNotations.

Local Open Scope string_scope.
Local Open Scope list_scope.

(** ** Exceptions and results *)

(** The exception classes the pipeline can meet.  The four constructors
    [ConnectionError], [Timeout], [HTTPError] and [ChunkedEncodingError] are
    the subclasses of [requests.exceptions.RequestException]; the four
    [*Error] constructors on paths are subclasses of [OSError]. *)
Inductive exn : Type :=
| IndexError
| KeyError (key : string)
| ValueError (msg : string)
| JSONDecodeError
| FileNotFoundError (path : string)
| FileExistsError (path : string)
| IsADirectoryError (path : string)
| NotADirectoryError (path : string)
| ConnectionError
| Timeout
| HTTPError (status : nat)
| ChunkedEncodingError
| RetryError (last : exn)
| TypeError (msg : string)
| OverflowError.

Inductive result (A : Type) : Type :=
| Ok (a : A)
| Raise (e : exn).
Arguments Ok {A} a.
Arguments Raise {A} e.

(** ** Data model: the records of a catalog response *)

(** One element of a hit's ["cases"] list. *)
Record case_entry : Type := mk_case { submitter_id : option string }.

(** A hit of the [/files] query.  Every field is a dictionary key that may be
    missing ([None]); present values have the type the catalog gives them. *)
Record file_record : Type := mk_file {
  file_id : option string;
  file_name : option string;
  md5sum : option string;
  case_id : option string;
  file_size : option Z;
  data_format : option string;
  experimental_strategy : option string;
  cases : option (list case_entry)
}.

(** [defaultdict(list)]: keys in insertion order, each with its list. *)
Definition patient_groups : Type := list (string * list file_record).

(** ** Grouping stage *)

Module Grouping.

(** Python truth value of a string and of an optional list. *)
Definition truthy_str (s : string) : bool := negb (s =? "").

Definition truthy_ids (patient_ids : option (list string)) : bool :=
  match patient_ids with
  | None => false
  | Some [] => false
  | Some (_ :: _) => true
  end.

(** [x in patient_ids] *)
Fixpoint str_in (x : string) (l : list string) : bool :=
  match l with
  | [] => false
  | y :: l' => (y =? x) || str_in x l'
  end.

Definition ids_contain (patient_ids : option (list string)) (x : string) : bool :=
  match patient_ids with
  | None => false
  | Some l => str_in x l
  end.

(** [file.get("cases", [{}])[0]] *)
Definition first_case (file : file_record) : result case_entry :=
  match cases file with
  | None => Ok (mk_case None)
  | Some [] => Raise IndexError
  | Some (c :: _) => Ok c
  end.

(** Lines 92-94: [case_id], [submitter_id], [identifier].  The subscript is
    evaluated before the [or], whatever [case_id] holds. *)
Definition resolve_identifier (file : file_record) : result string :=
  let case_id := case_id file in
  match first_case file with
  | Raise e => Raise e
  | Ok c =>
      let submitter_id :=
        match submitter_id c with Some s => s | None => "Unknown" end in
      Ok (match case_id with
          | Some s => if truthy_str s then s else submitter_id
          | None => submitter_id
          end)
  end.

(** The two slide-type guards of the loop: [true] when neither [continue]
    fires. *)
Definition passes_type (download_type : string) (file : file_record) : bool :=
  let experimental_strategy :=
    match experimental_strategy file with Some s => s | None => "" end in
  negb ((download_type =? "tissue") && negb (experimental_strategy =? "Tissue Slide"))
  && negb ((download_type =? "diagnostic") && negb (experimental_strategy =? "Diagnostic Slide")).

(** [patient_slides[identifier].append(file)] *)
Fixpoint dd_append (d : patient_groups) (identifier : string) (file : file_record)
  : patient_groups :=
  match d with
  | [] => [(identifier, [file])]
  | (k, slides) :: d' =>
      if k =? identifier then (k, slides ++ [file]) :: d'
      else (k, slides) :: dd_append d' identifier file
  end.

(** The [for file in files] loop, with the dictionary built so far. *)
Fixpoint group_loop (files : list file_record) (download_type : string)
    (patient_ids : option (list string)) (patient_slides : patient_groups)
  : result patient_groups :=
  match files with
  | [] => Ok patient_slides
  | file :: rest =>
      let experimental_strategy :=
        match experimental_strategy file with Some s => s | None => "" end in
      if (download_type =? "tissue") && negb (experimental_strategy =? "Tissue Slide")
      then group_loop rest download_type patient_ids patient_slides
      else if (download_type =? "diagnostic")
              && negb (experimental_strategy =? "Diagnostic Slide")
      then group_loop rest download_type patient_ids patient_slides
      else
        match resolve_identifier file with
        | Raise e => Raise e
        | Ok identifier =>
            if truthy_ids patient_ids && negb (ids_contain patient_ids identifier)
            then group_loop rest download_type patient_ids patient_slides
            else group_loop rest download_type patient_ids
                   (dd_append patient_slides identifier file)
        end
  end.

Definition group_by_patient (files : list file_record) (download_type : string)
    (patient_ids : option (list string)) : result patient_groups :=
  group_loop files download_type patient_ids [].

(** [gdc-WSI-downloader.py] has the same loop without the allow-list. *)
Fixpoint group_loop_plain (files : list file_record) (download_type : string)
    (patient_slides : patient_groups) : result patient_groups :=
  match files with
  | [] => Ok patient_slides
  | file :: rest =>
      let experimental_strategy :=
        match experimental_strategy file with Some s => s | None => "" end in
      if (download_type =? "tissue") && negb (experimental_strategy =? "Tissue Slide")
      then group_loop_plain rest download_type patient_slides
      else if (download_type =? "diagnostic")
              && negb (experimental_strategy =? "Diagnostic Slide")
      then group_loop_plain rest download_type patient_slides
      else
        match resolve_identifier file with
        | Raise e => Raise e
        | Ok identifier =>
            group_loop_plain rest download_type
              (dd_append patient_slides identifier file)
        end
  end.

Definition group_by_patient_plain (files : list file_record) (download_type : string)
  : result patient_groups :=
  group_loop_plain files download_type [].

(** *** Vocabulary of the specification *)

(** The slide-type filter of the grouping contract. *)
Inductive slide_filter : Type := Tissue | Diagnostic | Both.

Definition filter_name (flt : slide_filter) : string :=
  match flt with
  | Tissue => "tissue"
  | Diagnostic => "diagnostic"
  | Both => "both"
  end.

(** A record's experimental strategy matches the filter. *)
Definition strategy_matches (flt : slide_filter) (file : file_record) : Prop :=
  match flt with
  | Tissue => experimental_strategy file = Some "Tissue Slide"
  | Diagnostic => experimental_strategy file = Some "Diagnostic Slide"
  | Both => True
  end.

(** The gate of the loop as one predicate: the record reaches the [append]. *)
Definition admits (download_type : string) (patient_ids : option (list string))
    (file : file_record) : bool :=
  passes_type download_type file
  && match resolve_identifier file with
     | Raise _ => false
     | Ok identifier =>
         negb (truthy_ids patient_ids && negb (ids_contain patient_ids identifier))
     end.

(** The record is admitted and its identifier is [k]. *)
Definition belongs (download_type : string) (patient_ids : option (list string))
    (k : string) (file : file_record) : bool :=
  admits download_type patient_ids file
  && match resolve_identifier file with
     | Raise _ => false
     | Ok identifier => identifier =? k
     end.

(** The list stored under [k], the empty list when [k] is not a key. *)
Fixpoint group_of (d : patient_groups) (k : string) : list file_record :=
  match d with
  | [] => []
  | (k', slides) :: d' => if k' =? k then slides else group_of d' k
  end.

(** The dictionary [d] holds exactly the admitted records of [done], each
    under its identifier: distinct keys, every list the admitted records of
    its key in catalog order and none empty, and all lists together the
    admitted records, each once. *)
Definition grouped_by (download_type : string) (patient_ids : option (list string))
    (d : patient_groups) (done : list file_record) : Prop :=
  NoDup (map fst d)
  /\ (forall k, group_of d k = List.filter (belongs download_type patient_ids k) done)
  /\ (forall k l, In (k, l) d -> l <> [])
  /\ Permutation (concat (map snd d))
       (List.filter (admits download_type patient_ids) done).

(** The resolution rule in the words of the specification: the case
    identifier when present, otherwise the first associated submitter
    identifier, otherwise ["Unknown"]. *)
Definition identifier_spec (file : file_record) : string :=
  match case_id file with
  | Some c => c
  | None =>
      match cases file with
      | Some (c :: _) =>
          match submitter_id c with Some s => s | None => "Unknown" end
      | _ => "Unknown"
      end
  end.

(** The record has no usable case identifier and no submitter identifier in
    its first case. *)
Definition lacks_both (file : file_record) : Prop :=
  (case_id file = None \/ case_id file = Some "")
  /\ (cases file = None
      \/ exists c cs, cases file = Some (c :: cs) /\ submitter_id c = None).

(** A record on which line 93 cannot raise: ["cases"] is missing or has a
    first element. *)
Definition cases_nonempty (file : file_record) : Prop :=
  cases file <> Some [].

End Grouping.

(** *** Sample catalog records *)

Module Samples.

Definition tissue_P1 : file_record :=
  mk_file (Some "f-001") (Some "P1-TS1.svs") (Some "9e107d9d372bb6826bd81d3542a419d6")
          (Some "P1") (Some 1048576%Z) (Some "SVS") (Some "Tissue Slide")
          (Some [mk_case (Some "TCGA-A1-0001")]).

Definition diagnostic_P1 : file_record :=
  mk_file (Some "f-002") (Some "P1-DX1.svs") (Some "e4d909c290d0fb1ca068ffaddf22cbd0")
          (Some "P1") (Some 2097152%Z) (Some "SVS") (Some "Diagnostic Slide")
          (Some [mk_case (Some "TCGA-A1-0001")]).

Definition tissue_P2 : file_record :=
  mk_file (Some "f-003") (Some "P2-TS1.tiff") (Some "d41d8cd98f00b204e9800998ecf8427e")
          (Some "P2") (Some 524288%Z) (Some "TIFF") (Some "Tissue Slide")
          (Some [mk_case (Some "TCGA-A2-0002")]).

(** No ["case_id"], a submitter identifier. *)
Definition by_submitter : file_record :=
  mk_file (Some "f-004") (Some "S3-DX1.svs") (Some "0cc175b9c0f1b6a831c399e269772661")
          None (Some 100%Z) (Some "SVS") (Some "Diagnostic Slide")
          (Some [mk_case (Some "TCGA-A3-0003")]).

(** Neither ["case_id"] nor ["cases"]. *)
Definition orphan : file_record :=
  mk_file (Some "f-005") (Some "X-TS1.svs") (Some "92eb5ffee6ae2fec3ad71c777531578f")
          None (Some 7%Z) (Some "SVS") (Some "Tissue Slide") None.

(** Neither ["case_id"] nor a submitter identifier in the first case. *)
Definition orphan' : file_record :=
  mk_file (Some "f-006") (Some "Y-DX1.svs") (Some "4a8a08f09d37b73795649038408b5f33")
          None None None (Some "Diagnostic Slide") (Some [mk_case None]).

(** An empty ["cases"] list, no ["case_id"]. *)
Definition empty_cases : file_record :=
  mk_file (Some "f-007") (Some "Z-TS1.svs") (Some "8277e0910d750195b448797616e091ad")
          None (Some 9%Z) (Some "SVS") (Some "Tissue Slide") (Some []).

(** An empty string as ["case_id"]. *)
Definition blank_case_id : file_record :=
  mk_file (Some "f-008") (Some "B-TS1.svs") (Some "e1671797c52e15f763380b45e841ec32")
          (Some "") (Some 11%Z) (Some "SVS") (Some "Tissue Slide")
          (Some [mk_case (Some "TCGA-A4-0004")]).

End Samples.

(** ** The world: file system, network, log and clock *)

(** What a file holds: raw bytes (a slide image), a JSON document written by
    [json.dump], or the rows handed to a [csv.writer]. *)
Inductive content : Type :=
| Raw (data : list byte)
| JsonDoc (slides : list file_record)
| CsvDoc (rows : list (list string)).

Inductive node : Type :=
| Dir
| File (c : content).

(** The JSON documents the catalog can answer with. *)
Inductive json_doc : Type :=
| ProjectHits (ids : list string)
| FileHits (hits : list file_record)
| OtherJson.

(** A [requests.Response]: its status, the chunks [iter_content] yields, the
    exception that cuts the stream after them (if any), and the document
    [json()] decodes ([None] when the body is not JSON). *)
Record response : Type := mk_response {
  status_code : nat;
  chunks : list (list byte);
  cut : option exn;
  json_body : option json_doc
}.

(** What the remote end does with one request: the connection fails with a
    [RequestException], or a response arrives. *)
Inductive reply : Type :=
| Refused (e : exn)
| Answer (r : response).

(** The requests the pipeline issues. *)
Inductive request : Type :=
| ProjectsQuery
| ManifestQuery (project_id : string)
| DataFetch (file_id : string).

(** Where a message goes: [print], or a [logger] call of that level.  The
    console and the log file [tcga_download_log.txt] are the [log] of the
    world, not entries of its file system. *)
Inductive level : Type := PRINT | INFO | WARNING | ERROR.

Record world : Type := mk_world {
  fs : gmap string node;          (* path -> node *)
  net : list reply;               (* what the remote end will do, request by request *)
  requests : list request;        (* requests issued so far, oldest first *)
  log : list (level * string);    (* log records and printed lines, oldest first *)
  slept : list Z                  (* the [time.sleep] calls, in seconds *)
}.

(** Computations that read and change the world and may raise. *)
Definition M (A : Type) : Type := world -> result A * world.

Definition ret {A} (a : A) : M A := fun w => (Ok a, w).

Definition raise {A} (e : exn) : M A := fun w => (Raise e, w).

Definition bind {A B} (m : M A) (k : A -> M B) : M B :=
  fun w =>
    match m w with
    | (Ok a, w') => k a w'
    | (Raise e, w') => (Raise e, w')
    end.

(** [try: m except Exception as e: h e] *)
Definition try_except {A} (m : M A) (h : exn -> M A) : M A :=
  fun w =>
    match m w with
    | (Ok a, w') => (Ok a, w')
    | (Raise e, w') => h e w'
    end.

Declare Scope world_scope.
Delimit Scope world_scope with world.
Notation "'let*' x ':=' m 'in' k" := (bind m (fun x => k))
  (at level 10, x name, m at level 100, k at level 200) : world_scope.
Notation "m ;; k" := (bind m (fun _ => k))
  (at level 100, k at level 200, right associativity) : world_scope.
Local Open Scope world_scope.

(** [for x in l: body x] *)
Fixpoint for_each {A} (l : list A) (body : A -> M unit) : M unit :=
  match l with
  | [] => ret tt
  | x :: l' => body x ;; for_each l' body
  end.

Definition set_fs (f : gmap string node) (w : world) : world :=
  mk_world f (net w) (requests w) (log w) (slept w).

Definition emit (lv : level) (msg : string) : M unit :=
  fun w => (Ok tt, mk_world (fs w) (net w) (requests w) (log w ++ [(lv, msg)]) (slept w)).

Definition sleep (seconds : Z) : M unit :=
  fun w => (Ok tt, mk_world (fs w) (net w) (requests w) (log w) (slept w ++ [seconds])).

(** *** Paths

    Paths are compared as written: doubled slashes, ["."], [".."] and
    symbolic links are not resolved, and an empty last component is a name
    like any other.  This is the file system as the program sees it when the
    components it joins are entry names: non-empty, without a slash, neither
    ["."] nor [".."].  The project ids, identifiers and file names of a
    catalog response are such names; what is stated below about the content
    of the file system at paths a call does not name is stated for them. *)

Definition starts_with_slash (s : string) : bool :=
  match s with
  | String c _ => Ascii.eqb c "/"
  | EmptyString => false
  end.

Fixpoint ends_with_slash (s : string) : bool :=
  match s with
  | EmptyString => false
  | String c EmptyString => Ascii.eqb c "/"
  | String _ s' => ends_with_slash s'
  end.

(** [os.path.join(a, b)] on POSIX. *)
Definition path_join (a b : string) : string :=
  if starts_with_slash b then b
  else if (a =? "") || ends_with_slash a then a ++ b
  else a ++ "/" ++ b.

(** The part of [s] before its last slash, [None] when it has no slash. *)
Fixpoint before_last_slash (s : string) : option string :=
  match s with
  | EmptyString => None
  | String c s' =>
      match before_last_slash s' with
      | Some d => Some (String c d)
      | None => if Ascii.eqb c "/" then Some "" else None
      end
  end.

(** The directory an entry lives in; [""] is the working directory. *)
Definition parent (p : string) : string :=
  match before_last_slash p with
  | Some "" => "/"
  | Some d => d
  | None => ""
  end.

(** The path and its ancestors, outermost first. *)
Fixpoint lineage_from (pre s : string) : list string :=
  match s with
  | EmptyString => [pre]
  | String c s' =>
      if Ascii.eqb c "/" && negb (pre =? "")
      then pre :: lineage_from (pre ++ "/") s'
      else lineage_from (pre ++ String c "") s'
  end.

Definition lineage (p : string) : list string := lineage_from "" p.

(** *** File system calls

    The working directory [""] and the root ["/"] always exist. *)

Definition is_dir (f : gmap string node) (p : string) : bool :=
  (p =? "") || (p =? "/") ||
  match f !! p with Some Dir => true | _ => false end.

(** Why an entry cannot be created in the parent of [p], if it cannot. *)
Definition parent_fault (f : gmap string node) (p : string) : option exn :=
  if is_dir f (parent p) then None
  else match f !! parent p with
       | Some (File _) => Some (NotADirectoryError p)
       | _ => Some (FileNotFoundError p)
       end.

(** [os.mkdir(p)] *)
Definition os_mkdir (p : string) : M unit :=
  fun w =>
    match fs w !! p with
    | Some _ => (Raise (FileExistsError p), w)
    | None =>
        match parent_fault (fs w) p with
        | Some e => (Raise e, w)
        | None => (Ok tt, set_fs (<[p := Dir]> (fs w)) w)
        end
    end.

(** [Path(p).mkdir(exist_ok=True)]: a missing parent is an error, an
    existing directory is not. *)
Definition mkdir (p : string) : M unit :=
  fun w =>
    match os_mkdir p w with
    | (Ok _, w1) => (Ok tt, w1)
    | (Raise (FileNotFoundError q), w1) => (Raise (FileNotFoundError q), w1)
    | (Raise e, w1) => if is_dir (fs w1) p then (Ok tt, w1) else (Raise e, w1)
    end.

(** [Path(p).mkdir(parents=True, exist_ok=True)], for [p] followed by its
    ancestors, innermost first: when the parent is missing it is created in
    the same way and the directory is made after it. *)
Fixpoint mkdir_chain (chain : list string) : M unit :=
  match chain with
  | [] => ret tt
  | p :: ancestors =>
      fun w =>
        match os_mkdir p w with
        | (Ok _, w1) => (Ok tt, w1)
        | (Raise (FileNotFoundError q), w1) =>
            match ancestors with
            | [] => (Raise (FileNotFoundError q), w1)
            | _ :: _ => (mkdir_chain ancestors ;; mkdir p) w1
            end
        | (Raise e, w1) => if is_dir (fs w1) p then (Ok tt, w1) else (Raise e, w1)
        end
  end.

Definition mkdir_parents (p : string) : M unit :=
  mkdir_chain (rev (lineage p)).

(** [os.path.exists(p)] *)
Definition path_exists (p : string) : M bool :=
  fun w => (Ok (match fs w !! p with Some _ => true | None => false end), w).

(** [open(p, "rb").read()] *)
Definition read_file (p : string) : M content :=
  fun w =>
    match fs w !! p with
    | Some (File c) => (Ok c, w)
    | Some Dir => (Raise (IsADirectoryError p), w)
    | None => (Raise (FileNotFoundError p), w)
    end.

(** [open(p, "w")]: the file is created or truncated, holding [empty]. *)
Definition open_write (p : string) (empty : content) : M unit :=
  fun w =>
    match fs w !! p with
    | Some Dir => (Raise (IsADirectoryError p), w)
    | Some (File _) => (Ok tt, set_fs (<[p := File empty]> (fs w)) w)
    | None =>
        match parent_fault (fs w) p with
        | Some e => (Raise e, w)
        | None => (Ok tt, set_fs (<[p := File empty]> (fs w)) w)
        end
    end.

(** A write to the file opened at [p]: its content becomes [c]. *)
Definition put_content (p : string) (c : content) : M unit :=
  fun w => (Ok tt, set_fs (<[p := File c]> (fs w)) w).

(** [f.write(chunk)] on a file opened in binary mode. *)
Definition write_chunk (p : string) (chunk : list byte) : M unit :=
  fun w =>
    match fs w !! p with
    | Some (File (Raw data)) => (Ok tt, set_fs (<[p := File (Raw (data ++ chunk))]> (fs w)) w)
    | _ => (Ok tt, set_fs (<[p := File (Raw chunk)]> (fs w)) w)
    end.

(** *** Network calls *)

(** [requests.get(...)]: the request is issued and the remote end's next
    reply decides; with nothing left to answer the connection fails. *)
Definition requests_get (rq : request) : M response :=
  fun w =>
    let w' := mk_world (fs w) (tl (net w)) (requests w ++ [rq]) (log w) (slept w) in
    match net w with
    | [] => (Raise ConnectionError, w')
    | Refused e :: _ => (Raise e, w')
    | Answer r :: _ => (Ok r, w')
    end.

(** [response.raise_for_status()] *)
Definition raise_for_status (r : response) : M unit :=
  if (400 <=? status_code r)%nat && (status_code r <? 600)%nat
  then raise (HTTPError (status_code r))
  else ret tt.

(** [retry_if_exception_type((requests.exceptions.RequestException,))] *)
Definition is_request_exception (e : exn) : bool :=
  match e with
  | ConnectionError | Timeout | HTTPError _ | ChunkedEncodingError => true
  | _ => false
  end.

Definition str_nat (n : nat) : string := NilEmpty.string_of_uint (Nat.to_uint n).

Definition GDC_API_ENDPOINT : string := "https://api.gdc.cancer.gov".
Definition BASE_DIR : string := "tcga_data".
Definition METADATA_DIR : string := path_join BASE_DIR "metadata".
Definition SLIDES_DIR : string := path_join BASE_DIR "slides".

Definition request_url (rq : request) : string :=
  match rq with
  | ProjectsQuery => GDC_API_ENDPOINT ++ "/projects"
  | ManifestQuery _ => GDC_API_ENDPOINT ++ "/files"
  | DataFetch file_id => GDC_API_ENDPOINT ++ "/data/" ++ file_id
  end.

(** ** Download engine *)

Module Download.

(** [requests.get(url)] without [stream=True]: the body is read before the
    call returns, so a cut stream fails the call itself. *)
Definition requests_get_full (rq : request) : M response :=
  let* r := requests_get rq in
  match cut r with
  | Some e => raise e
  | None => ret r
  end.

(** *** The retry policy of the decorator (tenacity) *)

(** [stop_after_attempt(max_attempt_number)] *)
Definition stop_after_attempt (max_attempt_number attempt_number : nat) : bool :=
  (max_attempt_number <=? attempt_number)%nat.

(** [wait_exponential(multiplier, min, max)], with base 2. *)
Definition wait_exponential (multiplier min max : Z) (attempt_number : nat) : Z :=
  let exp := (2 ^ (Z.of_nat attempt_number - 1))%Z in
  let result := (multiplier * exp)%Z in
  Z.max (Z.max 0 min) (Z.min result max).

(** [before_sleep]: the warning logged ahead of each wait. *)
Definition before_sleep (attempt_number : nat) : M unit :=
  emit WARNING ("Retrying download (attempt " ++ str_nat attempt_number ++ ")...").

(** The loop of the [@retry] decorator around [fn].  Besides the outcome it
    returns what each attempt did, oldest first.  An attempt that raises
    anything but a [RequestException] ends the loop with that exception; after
    the third failed attempt the loop raises [RetryError]; otherwise it logs,
    sleeps and calls [fn] again.  [fuel] bounds the recursion and is never
    the reason to stop when it is at least 3 at attempt 1. *)
Fixpoint retrying {A} (fuel attempt_number : nat) (fn : M A) (w : world)
  : result A * world * list (result A) :=
  match fn w with
  | (Ok a, w1) => (Ok a, w1, [Ok a])
  | (Raise e, w1) =>
      if negb (is_request_exception e) then (Raise e, w1, [Raise e])
      else if stop_after_attempt 3 attempt_number
      then (Raise (RetryError e), w1, [Raise e])
      else
        match fuel with
        | O => (Raise (RetryError e), w1, [Raise e])
        | S fuel' =>
            let w2 := snd (before_sleep attempt_number w1) in
            let w3 := snd (sleep (wait_exponential 1 4 10 attempt_number) w2) in
            let '(r, w4, attempts) := retrying fuel' (S attempt_number) fn w3 in
            (r, w4, Raise e :: attempts)
        end
  end.

(** The world after the warning and the wait that follow a failed attempt. *)
Definition pause (attempt_number : nat) (w : world) : world :=
  snd (sleep (wait_exponential 1 4 10 attempt_number)
         (snd (before_sleep attempt_number w))).

(** [m] leaves the component [proj] of the world as it found it. *)
Definition keeps {A B} (proj : world -> B) (m : M A) : Prop :=
  forall w, proj (snd (m w)) = proj w.

Section WithDigest.

(** [hashlib.md5(file_content).hexdigest()] of what a file holds. *)
Variable md5 : content -> string.

Definition msg_skipping (file_name project_id identifier : string) : string :=
  "Skipping " ++ file_name ++ " for " ++ project_id ++ ", patient " ++ identifier
  ++ ", already exists with matching MD5 checksum".

Definition msg_mismatch (file_name project_id identifier : string) : string :=
  "Checksum mismatch for " ++ file_name ++ " for " ++ project_id ++ ", patient "
  ++ identifier ++ ", re-downloading".

Definition msg_downloading (file_name project_id identifier : string) : string :=
  "Downloading " ++ file_name ++ " for " ++ project_id ++ ", patient " ++ identifier.

Definition msg_downloaded (file_name project_id identifier : string) : string :=
  "Downloaded " ++ file_name ++ " for " ++ project_id ++ ", patient " ++ identifier.

(** The check of lines 119-127: [true] when the file exists with the expected
    checksum (the function then returns), [false] when it has to be fetched.
    [info] and [warn] are the levels of the two messages. *)
Definition already_downloaded (info warn : level)
    (project_id file_name identifier md5sum output_path : string) : M bool :=
  let* found := path_exists output_path in
  if found then
    let* file_content := read_file output_path in
    let computed_md5 := md5 file_content in
    if computed_md5 =? md5sum
    then emit info (msg_skipping file_name project_id identifier) ;; ret true
    else emit warn (msg_mismatch file_name project_id identifier) ;; ret false
  else ret false.

(** The body of [download_file] in
    [download_tcga_slides_by_type_and_projects.py]: one attempt. *)
Definition download_attempt
    (project_id file_id file_name identifier md5sum project_slides_dir : string)
  : M unit :=
  let patient_dir := path_join project_slides_dir identifier in
  mkdir patient_dir ;;
  let output_path := path_join patient_dir file_name in
  let* skip := already_downloaded INFO WARNING project_id file_name identifier
                 md5sum output_path in
  if skip then ret tt
  else
    emit INFO (msg_downloading file_name project_id identifier) ;;
    let* response := requests_get (DataFetch file_id) in
    raise_for_status response ;;
    open_write output_path (Raw []) ;;
    for_each (chunks response) (write_chunk output_path) ;;
    match cut response with Some e => raise e | None => ret tt end ;;
    emit INFO (msg_downloaded file_name project_id identifier).

(** The decorated [download_file], with the record of its attempts. *)
Definition download_file_attempts
    (project_id file_id file_name identifier md5sum project_slides_dir : string)
    (w : world) : result unit * world * list (result unit) :=
  retrying 3 1
    (download_attempt project_id file_id file_name identifier md5sum
       project_slides_dir) w.

Definition download_file
    (project_id file_id file_name identifier md5sum project_slides_dir : string)
  : M unit :=
  fun w =>
    fst (download_file_attempts project_id file_id file_name identifier md5sum
           project_slides_dir w).

(** [download_file] of [gdc-WSI-downloader.py]: no retry, no streaming, and
    [print] for the log. *)
Definition download_file_plain
    (project_id file_id file_name identifier md5sum project_slides_dir : string)
  : M unit :=
  let patient_dir := path_join project_slides_dir identifier in
  mkdir patient_dir ;;
  let output_path := path_join patient_dir file_name in
  let* skip := already_downloaded PRINT PRINT project_id file_name identifier
                 md5sum output_path in
  if skip then ret tt
  else
    let* response := requests_get_full (DataFetch file_id) in
    raise_for_status response ;;
    open_write output_path (Raw []) ;;
    write_chunk output_path (concat (chunks response)) ;;
    emit PRINT (msg_downloaded file_name project_id identifier).

End WithDigest.

End Download.

(** ** Summary reporter *)

(** What the code takes from the Python runtime it runs on: the MD5 digest,
    and the order in which a [set] of strings is iterated.  CPython fixes
    that order by the hash of the strings, which is keyed by a secret drawn
    at start-up (PYTHONHASHSEED): the argument is the sequence of strings
    added to the set, the value the elements in iteration order. *)
Record runtime : Type := mk_runtime {
  md5 : content -> string;
  set_order : list string -> list string
}.

(** The least a runtime guarantees about a set: each element once. *)
Definition is_set_order (order : list string -> list string) : Prop :=
  forall l, NoDup (order l) /\ (forall x, In x (order l) <-> In x l).

Module Summary.

Definition str_Z (z : Z) : string := NilEmpty.string_of_int (Z.to_int z).

(** [n / d] rounded to the nearest integer, ties to even ([0 <= n], [0 < d]). *)
Definition round_half_even (n d : Z) : Z :=
  let q := (n / d)%Z in
  let r := (n mod d)%Z in
  if (2 * r >? d)%Z || ((2 * r =? d)%Z && Z.odd q) then (q + 1)%Z else q.

(** The float nearest to the integer [n >= 0], as an integer: [n] rounded to
    53 significant bits. *)
Definition to_53_bits (n : Z) : Z :=
  let k := (Z.log2 n - 52)%Z in
  if (k <=? 0)%Z then n else (round_half_even n (2 ^ k) * 2 ^ k)%Z.

(** [total / (1024 * 1024)] for an integer [total].  The float is given by
    its numerator over 2^20; the division is correctly rounded and raises
    when the quotient exceeds the range of a float. *)
Definition true_div_mb (total : Z) : result Z :=
  let m := (Z.sgn total * to_53_bits (Z.abs total))%Z in
  if (2 ^ 1044 <=? Z.abs m)%Z then Raise OverflowError else Ok m.

Definition two_digits (z : Z) : string :=
  if (z <? 10)%Z then "0" ++ str_Z z else str_Z z.

(** [f"{x:.2f}"] for the float [x = m / 2^20]. *)
Definition format_2f (m : Z) : string :=
  let h := round_half_even (Z.abs m * 100) (2 ^ 20) in
  (if (m <? 0)%Z then "-" else "")
  ++ str_Z (h / 100) ++ "." ++ two_digits (h mod 100).

Record project_summary : Type := mk_summary {
  project : string;
  total_patients : nat;
  total_slides : nat;
  tissue_slides : nat;
  diagnostic_slides : nat;
  total_size_mb : Z;            (* the float, as its numerator over 2^20 *)
  file_formats : string
}.

(** [sum(file.get("file_size", 0) for file in slides)] *)
Definition size_bytes (slides : list file_record) : Z :=
  fold_left Z.add
    (map (fun file => match file_size file with Some n => n | None => 0%Z end) slides)
    0%Z.

(** [sum(1 for file in slides if file.get("experimental_strategy") == name)] *)
Definition count_strategy (name : string) (slides : list file_record) : nat :=
  length (List.filter
            (fun file => match experimental_strategy file with
                         | Some s => s =? name
                         | None => false
                         end) slides).

(** [sorted(patient_slides.items())]: by identifier, the keys being distinct. *)
Fixpoint insert_sorted (item : string * list file_record) (l : patient_groups)
  : patient_groups :=
  match l with
  | [] => [item]
  | item' :: l' =>
      if String.leb (fst item) (fst item') then item :: l
      else item' :: insert_sorted item l'
  end.

Definition sorted_items (d : patient_groups) : patient_groups :=
  fold_right insert_sorted [] d.

(** [writer.writerow(row)] on the file opened at [p]. *)
Definition writerow (p : string) (row : list string) : M unit :=
  fun w =>
    match fs w !! p with
    | Some (File (CsvDoc rows)) =>
        (Ok tt, set_fs (<[p := File (CsvDoc (rows ++ [row]))]> (fs w)) w)
    | _ => (Ok tt, set_fs (<[p := File (CsvDoc [row])]> (fs w)) w)
    end.

Definition lift {A} (r : result A) : M A :=
  match r with
  | Ok a => ret a
  | Raise e => raise e
  end.

Definition summary_header : list string :=
  ["Project"; "Total Patients"; "Total Slides"; "Tissue Slides";
   "Diagnostic Slides"; "Total Size (MB)"; "File Formats"].

Definition patient_header : list string :=
  ["Patient ID"; "Number of Slides"; "Tissue Slides"; "Diagnostic Slides";
   "Size (MB)"].

(** The row of one patient in the project report. *)
Definition patient_row (identifier : string) (slides : list file_record)
  : result (list string) :=
  match true_div_mb (size_bytes slides) with
  | Raise e => Raise e
  | Ok patient_size_mb =>
      Ok [identifier; str_nat (length slides);
          str_nat (count_strategy "Tissue Slide" slides);
          str_nat (count_strategy "Diagnostic Slide" slides);
          format_2f patient_size_mb]
  end.

Section WithRuntime.
Variable rt : runtime.

Definition generate_project_summary_csv (project_id : string)
    (patient_slides : patient_groups) : M project_summary :=
  let csv_path := path_join BASE_DIR (project_id ++ "_summary.csv") in
  let all_slides := concat (map snd patient_slides) in
  let total_files := length all_slides in
  let total_size_bytes := size_bytes all_slides in
  let* total_size_mb := lift (true_div_mb total_size_bytes) in
  let formats :=
    set_order rt
      (map (fun file => match data_format file with
                        | Some s => s
                        | None => "Unknown"
                        end) all_slides) in
  let tissue_slides := count_strategy "Tissue Slide" all_slides in
  let diagnostic_slides := count_strategy "Diagnostic Slide" all_slides in
  open_write csv_path (CsvDoc []) ;;
  writerow csv_path summary_header ;;
  writerow csv_path
    [project_id; str_nat (length patient_slides); str_nat total_files;
     str_nat tissue_slides; str_nat diagnostic_slides; format_2f total_size_mb;
     String.concat ", " formats] ;;
  writerow csv_path [] ;;
  writerow csv_path patient_header ;;
  for_each (sorted_items patient_slides)
    (fun item =>
       let* row := lift (patient_row (fst item) (snd item)) in
       writerow csv_path row) ;;
  emit INFO ("Generated project summary CSV for " ++ project_id ++ ": " ++ csv_path) ;;
  emit INFO ("Summary for " ++ project_id ++ ":") ;;
  emit INFO ("Total number of patients: " ++ str_nat (length patient_slides)) ;;
  emit INFO ("Total number of slide images: " ++ str_nat total_files) ;;
  emit INFO ("Tissue slides: " ++ str_nat tissue_slides) ;;
  emit INFO ("Diagnostic slides: " ++ str_nat diagnostic_slides) ;;
  emit INFO ("Total size of slides: " ++ format_2f total_size_mb ++ " MB") ;;
  emit INFO ("File formats: " ++ String.concat ", " formats) ;;
  emit INFO "Note: Slide dimensions (width, height) are not available in GDC metadata. Download SVS files and use OpenSlide to extract dimensions." ;;
  ret (mk_summary project_id (length patient_slides) total_files tissue_slides
         diagnostic_slides total_size_mb (String.concat ", " formats)).

End WithRuntime.

(** The row of one project in the cross-project report. *)
Definition summary_row (summary : project_summary) : list string :=
  [project summary; str_nat (total_patients summary);
   str_nat (total_slides summary); str_nat (tissue_slides summary);
   str_nat (diagnostic_slides summary); format_2f (total_size_mb summary);
   file_formats summary].

Definition all_projects_csv : string :=
  path_join BASE_DIR "all_tcga_projects_summary.csv".

Definition generate_all_projects_summary_csv
    (project_summaries : list project_summary) : M unit :=
  let csv_path := all_projects_csv in
  open_write csv_path (CsvDoc []) ;;
  writerow csv_path summary_header ;;
  for_each project_summaries (fun summary => writerow csv_path (summary_row summary)) ;;
  emit INFO ("Generated all projects summary CSV: " ++ csv_path).

End Summary.

(** ** Orchestrator *)

Module Orchestrator.
Import Summary.

(** *** String methods *)

(** [c.lower()] for an ASCII letter. *)
Definition ascii_lower (c : ascii) : ascii :=
  let n := nat_of_ascii c in
  if (65 <=? n)%nat && (n <=? 90)%nat then ascii_of_nat (n + 32) else c.

Fixpoint str_lower (s : string) : string :=
  match s with
  | EmptyString => EmptyString
  | String c s' => String (ascii_lower c) (str_lower s')
  end.

(** [c.isspace()] for an ASCII character. *)
Definition is_space (c : ascii) : bool :=
  let n := nat_of_ascii c in
  (n =? 32)%nat || ((9 <=? n)%nat && (n <=? 13)%nat)
  || ((28 <=? n)%nat && (n <=? 31)%nat).

Fixpoint lstrip (s : string) : string :=
  match s with
  | String c s' => if is_space c then lstrip s' else s
  | EmptyString => EmptyString
  end.

Fixpoint rstrip (s : string) : string :=
  match s with
  | EmptyString => EmptyString
  | String c s' =>
      match rstrip s' with
      | EmptyString => if is_space c then EmptyString else String c EmptyString
      | t => String c t
      end
  end.

(** [s.strip()] *)
Definition str_strip (s : string) : string := rstrip (lstrip s).

(** [s.split(",")]: the pieces between the commas, [[""]] for [""]. *)
Fixpoint split_comma (s : string) : list string :=
  match s with
  | EmptyString => [EmptyString]
  | String c s' =>
      if Ascii.eqb c "," then EmptyString :: split_comma s'
      else match split_comma s' with
           | piece :: pieces => String c piece :: pieces
           | [] => [String c EmptyString]
           end
  end.

(** [s.endswith(suffix)] *)
Fixpoint ends_with (suffix s : string) : bool :=
  (s =? suffix) ||
  match s with
  | EmptyString => false
  | String _ s' => ends_with suffix s'
  end.

(** [str(e)], the text of an exception.  The text of a [ValueError] is its
    message.  The texts of the libraries' exceptions are stand-ins for what
    they print: an [HTTPError] prints the reason phrase and the URL as well,
    a [RetryError] the future that failed. *)
Fixpoint exn_str (e : exn) : string :=
  match e with
  | IndexError => "list index out of range"
  | KeyError key => "'" ++ key ++ "'"
  | ValueError msg => msg
  | JSONDecodeError => "Expecting value: line 1 column 1 (char 0)"
  | FileNotFoundError path => "[Errno 2] No such file or directory: '" ++ path ++ "'"
  | FileExistsError path => "[Errno 17] File exists: '" ++ path ++ "'"
  | IsADirectoryError path => "[Errno 21] Is a directory: '" ++ path ++ "'"
  | NotADirectoryError path => "[Errno 20] Not a directory: '" ++ path ++ "'"
  | ConnectionError => "Connection aborted."
  | Timeout => "Read timed out."
  | HTTPError status => str_nat status ++ " Error"
  | ChunkedEncodingError => "Connection broken: IncompleteRead"
  | RetryError last => "RetryError[" ++ exn_str last ++ "]"
  | TypeError msg => msg
  | OverflowError => "integer division result too large for a float"
  end.

(** *** Catalog client *)

(** [response.json()] *)
Definition response_json (r : response) : M json_doc :=
  match json_body r with
  | Some doc => ret doc
  | None => raise JSONDecodeError
  end.

(** [[hit["project_id"] for hit in doc["data"]["hits"]]] *)
Definition project_ids (doc : json_doc) : result (list string) :=
  match doc with
  | ProjectHits ids => Ok ids
  | FileHits [] => Ok []
  | FileHits (_ :: _) => Raise (KeyError "project_id")
  | OtherJson => Raise (KeyError "data")
  end.

(** A hit that has none of the keys of a file record. *)
Definition keyless_hit : file_record :=
  mk_file None None None None None None None None.

(** [manifest["data"]["hits"]] *)
Definition manifest_hits (doc : json_doc) : result (list file_record) :=
  match doc with
  | FileHits hits => Ok hits
  | ProjectHits ids => Ok (map (fun _ => keyless_hit) ids)
  | OtherJson => Raise (KeyError "data")
  end.

Definition get_all_projects : M (list string) :=
  emit INFO "Fetching all TCGA projects with slide images from GDC API" ;;
  try_except
    (let* response := Download.requests_get_full ProjectsQuery in
     raise_for_status response ;;
     let* doc := response_json response in
     let* projects := lift (project_ids doc) in
     emit INFO ("Found " ++ str_nat (length projects)
                ++ " TCGA projects with slide images: "
                ++ String.concat ", " projects) ;;
     ret projects)
    (fun e =>
       emit ERROR ("Failed to fetch TCGA projects: " ++ exn_str e) ;;
       raise e).

Definition create_directories (project_id download_type : string)
  : M (string * option string) :=
  let project_metadata_dir := path_join METADATA_DIR project_id in
  mkdir_parents project_metadata_dir ;;
  if negb (download_type =? "none") then
    let project_slides_dir := path_join SLIDES_DIR project_id in
    mkdir_parents project_slides_dir ;;
    ret (project_metadata_dir, Some project_slides_dir)
  else ret (project_metadata_dir, None).

Definition get_manifest (project_id : string) : M json_doc :=
  emit INFO ("Fetching manifest for " ++ project_id) ;;
  let* response := Download.requests_get_full (ManifestQuery project_id) in
  raise_for_status response ;;
  response_json response.

(** *** Metadata persister *)

Definition save_metadata (project_id identifier : string)
    (slides : list file_record) (project_metadata_dir : string) : M unit :=
  let output_path := path_join project_metadata_dir (identifier ++ ".json") in
  open_write output_path (JsonDoc []) ;;
  put_content output_path (JsonDoc slides) ;;
  emit INFO ("Saved metadata for " ++ project_id ++ ", patient " ++ identifier
             ++ " (" ++ str_nat (length slides) ++ " slides)").

(** *** The patient-id table *)

(** [pd.read_csv(path)]: the first row names the columns.  The cells of the
    table stand for the values pandas reads, as text: the empty cell for a
    value it takes for missing, the text [astype(str)] gives for any other.
    How pandas gets them from the characters of the file (its markers of a
    missing value, the typing of a column of numbers) is not modelled. *)
Definition read_csv (path : string) : M (list string * list (list string)) :=
  let* c := read_file path in
  match c with
  | CsvDoc (header :: rows) => ret (header, rows)
  | CsvDoc [] => raise (ValueError "No columns to parse from file")
  | _ => raise (ValueError "Error tokenizing data")
  end.

(** Position of a column. *)
Fixpoint column_index (name : string) (columns : list string) : option nat :=
  match columns with
  | [] => None
  | c :: columns' =>
      if c =? name then Some O
      else match column_index name columns' with
           | Some i => Some (S i)
           | None => None
           end
  end.

(** [df[name].dropna().astype(str).str.strip().tolist()]: a missing or empty
    cell is NaN. *)
Definition column_values (i : nat) (rows : list (list string)) : list string :=
  map str_strip
    (List.filter (fun cell => negb (cell =? ""))
       (map (fun row => nth i row "") rows)).

(** Lines 213-228 of [download_tcga_slides]. *)
Definition load_patient_ids (patient_ids : option string)
  : M (option (list string)) :=
  match patient_ids with
  | Some p =>
      if Grouping.truthy_str p then
        if ends_with ".csv" p then
          try_except
            (let* df := read_csv p in
             match column_index "Patient ID" (fst df) with
             | None =>
                 raise (ValueError ("CSV file " ++ p
                                    ++ " must contain a 'Patient ID' column"))
             | Some i =>
                 let patient_id_list := column_values i (snd df) in
                 emit INFO ("Loaded " ++ str_nat (length patient_id_list)
                            ++ " patient IDs from CSV file: " ++ p) ;;
                 ret (Some patient_id_list)
             end)
            (fun e =>
               raise (ValueError ("Failed to read CSV file " ++ p ++ ": "
                                  ++ exn_str e)))
        else
          let patient_id_list := map str_strip (split_comma p) in
          emit INFO ("Loaded " ++ str_nat (length patient_id_list)
                     ++ " patient IDs from command-line input") ;;
          ret (Some patient_id_list)
      else
        emit INFO "No patient IDs specified, processing all patients" ;;
        ret None
  | None =>
      emit INFO "No patient IDs specified, processing all patients" ;;
      ret None
  end.

(** *** One project *)

(** What the loop did with one project: its directories could not be made,
    the [try] block raised (and the error was logged), or a summary came out. *)
Inductive outcome : Type :=
| NoDirectories (e : exn)
| Failed (e : exn)
| Summarised (s : project_summary).

(** The summaries among the outcomes, in order. *)
Definition summaries (trace : list (string * outcome)) : list project_summary :=
  flat_map (fun po => match snd po with Summarised s => [s] | _ => [] end) trace.

(** [file[key]] *)
Definition subscript (key : string) (value : option string) : M string :=
  match value with
  | Some v => ret v
  | None => raise (KeyError key)
  end.

Section WithRuntime.
Variable rt : runtime.

(** Lines 245-256: the downloads of one patient. *)
Definition download_slides (download_type project_id identifier : string)
    (project_slides_dir : option string) (slides : list file_record) : M unit :=
  for_each slides
    (fun file =>
       let strategy := experimental_strategy file in
       if ((download_type =? "tissue")
           && negb (match strategy with Some s => s =? "Tissue Slide" | None => false end))
          || ((download_type =? "diagnostic")
              && negb (match strategy with Some s => s =? "Diagnostic Slide" | None => false end))
       then ret tt
       else
         let* file_id := subscript "file_id" (file_id file) in
         let* file_name := subscript "file_name" (file_name file) in
         let* md5sum := subscript "md5sum" (md5sum file) in
         try_except
           (match project_slides_dir with
            | Some dir =>
                Download.download_file (md5 rt) project_id file_id file_name
                  identifier md5sum dir
            | None => raise (TypeError "expected str, bytes or os.PathLike object, not NoneType")
            end)
           (fun e =>
              emit ERROR ("Failed to download " ++ file_name ++ " for "
                          ++ project_id ++ ", patient " ++ identifier ++ ": "
                          ++ exn_str e))).

(** Lines 235-258: the body of the [try] of one project. *)
Definition process_project (download_type : string)
    (patient_id_list : option (list string)) (project_id : string)
    (project_metadata_dir : string) (project_slides_dir : option string)
  : M project_summary :=
  let* manifest := get_manifest project_id in
  let* files := lift (manifest_hits manifest) in
  let* patient_slides :=
    lift (Grouping.group_by_patient files
            (if negb (download_type =? "none") then download_type else "both")
            patient_id_list) in
  match patient_slides with
  | [] => emit WARNING ("No matching slides found for " ++ project_id
                        ++ " with specified patient IDs")
  | _ => ret tt
  end ;;
  for_each patient_slides
    (fun item =>
       let identifier := fst item in
       let slides := snd item in
       save_metadata project_id identifier slides project_metadata_dir ;;
       if negb (download_type =? "none")
       then download_slides download_type project_id identifier
              project_slides_dir slides
       else ret tt) ;;
  generate_project_summary_csv rt project_id patient_slides.

(** Lines 230-263: the loop over the projects.  [create_directories] runs
    outside the [try]. *)
Fixpoint project_loop (download_type : string)
    (patient_id_list : option (list string)) (project_list : list string)
    (project_summaries : list project_summary) : M (list project_summary) :=
  match project_list with
  | [] => ret project_summaries
  | project_id :: rest =>
      emit INFO ("Processing " ++ project_id ++ "...") ;;
      let* dirs := create_directories project_id download_type in
      let* project_summaries' :=
        try_except
          (let* project_summary :=
             process_project download_type patient_id_list project_id
               (fst dirs) (snd dirs) in
           ret (project_summaries ++ [project_summary]))
          (fun e =>
             emit ERROR ("Failed to process " ++ project_id ++ ": " ++ exn_str e) ;;
             ret project_summaries) in
      project_loop download_type patient_id_list rest project_summaries'
  end.

(** One project, seen from outside the loop. *)
Definition project_step (download_type : string)
    (patient_id_list : option (list string)) (project_id : string) (w : world)
  : outcome * world :=
  match (emit INFO ("Processing " ++ project_id ++ "...") ;;
         create_directories project_id download_type) w with
  | (Raise e, w1) => (NoDirectories e, w1)
  | (Ok dirs, w1) =>
      match process_project download_type patient_id_list project_id
              (fst dirs) (snd dirs) w1 with
      | (Ok s, w2) => (Summarised s, w2)
      | (Raise e, w2) =>
          (Failed e,
           snd (emit ERROR ("Failed to process " ++ project_id ++ ": "
                            ++ exn_str e) w2))
      end
  end.

(** The projects visited and what became of each; the visit ends at the
    first project whose directories cannot be made. *)
Fixpoint outcomes (download_type : string)
    (patient_id_list : option (list string)) (project_list : list string)
    (w : world) : list (string * outcome) * world :=
  match project_list with
  | [] => ([], w)
  | project_id :: rest =>
      match project_step download_type patient_id_list project_id w with
      | (NoDirectories e, w1) => ([(project_id, NoDirectories e)], w1)
      | (o, w1) =>
          let '(trace, w2) := outcomes download_type patient_id_list rest w1 in
          ((project_id, o) :: trace, w2)
      end
  end.

(** Lines 230-265: the loop, then the cross-project report. *)
Definition process_projects (download_type : string)
    (patient_id_list : option (list string)) (project_list : list string)
  : M unit :=
  let* project_summaries :=
    project_loop download_type patient_id_list project_list [] in
  generate_all_projects_summary_csv project_summaries.

(** Lines 204-210: the projects to process. *)
Definition select_projects (projects : string) (all_projects : list string)
  : M (list string) :=
  if str_lower projects =? "all" then ret all_projects
  else
    let project_list := map str_strip (split_comma projects) in
    let invalid_projects :=
      List.filter (fun p => negb (Grouping.str_in p all_projects)) project_list in
    match invalid_projects with
    | [] => ret project_list
    | _ :: _ =>
        raise (ValueError ("Invalid project(s): "
                           ++ String.concat ", " invalid_projects
                           ++ ". Available projects: "
                           ++ String.concat ", " all_projects))
    end.

Definition download_tcga_slides (download_type projects : string)
    (patient_ids : option string) : M unit :=
  if negb (Grouping.str_in download_type ["tissue"; "diagnostic"; "both"; "none"])
  then raise (ValueError "download_type must be 'tissue', 'diagnostic', 'both', or 'none'")
  else
    let* all_projects := get_all_projects in
    let* project_list := select_projects projects all_projects in
    let* patient_id_list := load_patient_ids patient_ids in
    process_projects download_type patient_id_list project_list.

End WithRuntime.

End Orchestrator.

(** *** Sample worlds for the download engine *)

Module DownloadSamples.

(** A stand-in digest: it tells contents apart by kind and length. *)
Definition sample_md5 (c : content) : string :=
  match c with
  | Raw data => "raw-" ++ str_nat (length data)
  | JsonDoc slides => "json-" ++ str_nat (length slides)
  | CsvDoc rows => "csv-" ++ str_nat (length rows)
  end.

Definition slide_bytes : list byte := [x49; x49; x2a; x00].

Definition slides_dir : string := "tcga_data/slides/TCGA-BRCA".

(** The project directory exists, the patient directory does not yet. *)
Definition fresh_fs : gmap string node :=
  <["tcga_data/slides/TCGA-BRCA" := Dir]>
    (<["tcga_data/slides" := Dir]> (<["tcga_data" := Dir]> ∅)).

(** The slide of patient P1 is on disk already. *)
Definition cached_fs : gmap string node :=
  <["tcga_data/slides/TCGA-BRCA/P1/P1-TS1.svs" := File (Raw slide_bytes)]>
    (<["tcga_data/slides/TCGA-BRCA/P1" := Dir]> fresh_fs).

(** A regular file sits where the patient directory should be. *)
Definition blocked_fs : gmap string node :=
  <["tcga_data/slides/TCGA-BRCA/P1" := File (Raw [])]> fresh_fs.

Definition good_response : response :=
  mk_response 200 [[x49; x49]; [x2a; x00]] None None.

Definition unavailable : response := mk_response 503 [] None None.

Definition cached_world : world :=
  mk_world cached_fs [Answer good_response] [] [] [].

(** Two transient failures, then the slide. *)
Definition flaky_world : world :=
  mk_world fresh_fs [Refused ConnectionError; Answer unavailable; Answer good_response]
    [] [] [].

Definition blocked_world : world :=
  mk_world blocked_fs [Answer good_response] [] [] [].

(** A response with status 200 that carries the first half of the slide
    only, the stream ending without an error. *)
Definition short_response : response :=
  mk_response 200 [[x49; x49]] None None.

(** Two transient failures, then the short response. *)
Definition short_world : world :=
  mk_world fresh_fs [Refused ConnectionError; Answer unavailable; Answer short_response]
    [] [] [].

End DownloadSamples.

(** *** Sample runs of the pipeline *)

Module OrchestratorSamples.
Import Samples DownloadSamples.

(** Two runtimes that iterate a set of strings in different orders: one in
    the order of first insertion, one in the reverse order.  (CPython 3.11
    prints the set of "SVS" and "TIFF" as "SVS, TIFF" with PYTHONHASHSEED=1
    and as "TIFF, SVS" with PYTHONHASHSEED=0.) *)
Definition first_seen (l : list string) : list string :=
  rev (nodup string_dec (rev l)).

Definition last_seen (l : list string) : list string :=
  nodup string_dec (rev l).

Definition runtime_a : runtime := mk_runtime sample_md5 first_seen.
Definition runtime_b : runtime := mk_runtime sample_md5 last_seen.

Definition two_formats : patient_groups :=
  [("P1", [tissue_P1]); ("P2", [tissue_P2])].

(** [tcga_data] exists and is empty. *)
Definition base_fs : gmap string node := <["tcga_data" := Dir]> ∅.

Definition base_world : world := mk_world base_fs [] [] [] [].

Definition projects_reply : reply :=
  Answer (mk_response 200 [] None (Some (ProjectHits ["TCGA-BRCA"; "TCGA-LUAD"]))).

Definition manifest_reply : reply :=
  Answer (mk_response 200 [] None
            (Some (FileHits [tissue_P1; diagnostic_P1; tissue_P2]))).

(** A patient table without the "Patient ID" column. *)
Definition table_fs : gmap string node :=
  <["patients.csv" := File (CsvDoc [["Name"; "Age"]; ["P1"; "61"]])]> base_fs.

Definition table_world : world :=
  mk_world table_fs [projects_reply; manifest_reply] [] [] [].

(** The same table, the catalog unreachable. *)
Definition offline_table_world : world := mk_world table_fs [] [] [] [].

(** The manifest of the first project cannot be fetched, that of the second
    can. *)
Definition one_failing_world : world :=
  mk_world base_fs [Answer unavailable; manifest_reply] [] [] [].

(** A regular file sits where the metadata directory should be. *)
Definition no_metadata_world : world :=
  mk_world (<["tcga_data/metadata" := File (Raw [])]> base_fs)
    [manifest_reply; manifest_reply] [] [] [].

(** A directory sits where the cross-project report should be. *)
Definition no_report_world : world :=
  mk_world (<["tcga_data/all_tcga_projects_summary.csv" := Dir]> base_fs)
    [manifest_reply] [] [] [].

End OrchestratorSamples.

(** ** The plain pipeline

    [gdc-WSI-downloader.py]: the same steps with [print] for the log, a
    fixed list of projects, no allow-list, no retry and no [try]. *)

Module Plain.
Import Summary Orchestrator.

Definition ALL_PROJECTS : list string :=
  ["TCGA-BRCA"; "TCGA-LUAD"; "TCGA-LUSC"; "TCGA-OV"; "TCGA-GBM";
   "TCGA-UCEC"; "TCGA-COAD"; "TCGA-PRAD"; "TCGA-THCA"; "TCGA-HNSC"; "TCGA-LIHC"].

(** The line feed that opens some of the printed lines. *)
Definition newline : string := String "010"%char EmptyString.

Definition get_manifest (project_id : string) : M json_doc :=
  let* response := Download.requests_get_full (ManifestQuery project_id) in
  raise_for_status response ;;
  response_json response.

Definition save_metadata (project_id identifier : string)
    (slides : list file_record) (project_metadata_dir : string) : M unit :=
  let output_path := path_join project_metadata_dir (identifier ++ ".json") in
  open_write output_path (JsonDoc []) ;;
  put_content output_path (JsonDoc slides) ;;
  emit PRINT ("Saved metadata for " ++ project_id ++ ", patient " ++ identifier
              ++ " (" ++ str_nat (length slides) ++ " slides)").

Definition generate_all_projects_summary_csv
    (project_summaries : list project_summary) : M unit :=
  let csv_path := all_projects_csv in
  open_write csv_path (CsvDoc []) ;;
  writerow csv_path summary_header ;;
  for_each project_summaries (fun summary => writerow csv_path (summary_row summary)) ;;
  emit PRINT (newline ++ "Generated all projects summary CSV: " ++ csv_path).

Section WithRuntime.
Variable rt : runtime.

Definition generate_project_summary_csv (project_id : string)
    (patient_slides : patient_groups) : M project_summary :=
  let csv_path := path_join BASE_DIR (project_id ++ "_summary.csv") in
  let all_slides := concat (map snd patient_slides) in
  let total_files := length all_slides in
  let total_size_bytes := size_bytes all_slides in
  let* total_size_mb := lift (true_div_mb total_size_bytes) in
  let formats :=
    set_order rt
      (map (fun file => match data_format file with
                        | Some s => s
                        | None => "Unknown"
                        end) all_slides) in
  let tissue_slides := count_strategy "Tissue Slide" all_slides in
  let diagnostic_slides := count_strategy "Diagnostic Slide" all_slides in
  open_write csv_path (CsvDoc []) ;;
  writerow csv_path summary_header ;;
  writerow csv_path
    [project_id; str_nat (length patient_slides); str_nat total_files;
     str_nat tissue_slides; str_nat diagnostic_slides; format_2f total_size_mb;
     String.concat ", " formats] ;;
  writerow csv_path [] ;;
  writerow csv_path patient_header ;;
  for_each (sorted_items patient_slides)
    (fun item =>
       let* row := lift (patient_row (fst item) (snd item)) in
       writerow csv_path row) ;;
  emit PRINT (newline ++ "Generated project summary CSV for " ++ project_id
              ++ ": " ++ csv_path) ;;
  emit PRINT ("Summary for " ++ project_id ++ ":") ;;
  emit PRINT ("Total number of patients: " ++ str_nat (length patient_slides)) ;;
  emit PRINT ("Total number of slide images: " ++ str_nat total_files) ;;
  emit PRINT ("Tissue slides: " ++ str_nat tissue_slides) ;;
  emit PRINT ("Diagnostic slides: " ++ str_nat diagnostic_slides) ;;
  emit PRINT ("Total size of slides: " ++ format_2f total_size_mb ++ " MB") ;;
  emit PRINT ("File formats: " ++ String.concat ", " formats) ;;
  emit PRINT "Note: Slide dimensions (width, height) are not available in GDC metadata. Download SVS files and use OpenSlide to extract dimensions." ;;
  ret (mk_summary project_id (length patient_slides) total_files tissue_slides
         diagnostic_slides total_size_mb (String.concat ", " formats)).

(** Lines 172-179: the downloads of one patient, none of them guarded. *)
Definition download_slides (download_type project_id identifier : string)
    (project_slides_dir : option string) (slides : list file_record) : M unit :=
  for_each slides
    (fun file =>
       let strategy := experimental_strategy file in
       if ((download_type =? "tissue")
           && negb (match strategy with Some s => s =? "Tissue Slide" | None => false end))
          || ((download_type =? "diagnostic")
              && negb (match strategy with Some s => s =? "Diagnostic Slide" | None => false end))
       then ret tt
       else
         let* file_id := subscript "file_id" (file_id file) in
         let* file_name := subscript "file_name" (file_name file) in
         let* md5sum := subscript "md5sum" (md5sum file) in
         match project_slides_dir with
         | Some dir =>
             Download.download_file_plain (md5 rt) project_id file_id file_name
               identifier md5sum dir
         | None => raise (TypeError "expected str, bytes or os.PathLike object, not NoneType")
         end).

(** Lines 163-182: one project. *)
Definition process_project (download_type project_id : string)
  : M project_summary :=
  emit PRINT (newline ++ "Processing " ++ project_id ++ "...") ;;
  let* dirs := create_directories project_id download_type in
  let project_metadata_dir := fst dirs in
  let project_slides_dir := snd dirs in
  let* manifest := get_manifest project_id in
  let* files := lift (manifest_hits manifest) in
  let* patient_slides :=
    lift (Grouping.group_by_patient_plain files
            (if negb (download_type =? "none") then download_type else "both")) in
  for_each patient_slides
    (fun item =>
       let identifier := fst item in
       let slides := snd item in
       save_metadata project_id identifier slides project_metadata_dir ;;
       if negb (download_type =? "none")
       then download_slides download_type project_id identifier
              project_slides_dir slides
       else ret tt) ;;
  generate_project_summary_csv project_id patient_slides.

(** Lines 161-182: the loop over the projects. *)
Fixpoint project_loop (download_type : string) (project_list : list string)
    (project_summaries : list project_summary) : M (list project_summary) :=
  match project_list with
  | [] => ret project_summaries
  | project_id :: rest =>
      let* project_summary := process_project download_type project_id in
      project_loop download_type rest (project_summaries ++ [project_summary])
  end.

Definition download_tcga_slides (download_type projects : string) : M unit :=
  if negb (Grouping.str_in download_type ["tissue"; "diagnostic"; "both"; "none"])
  then raise (ValueError "download_type must be 'tissue', 'diagnostic', 'both', or 'none'")
  else
    let* project_list := select_projects projects ALL_PROJECTS in
    let* project_summaries := project_loop download_type project_list [] in
    generate_all_projects_summary_csv project_summaries.

End WithRuntime.

End Plain.

(** ** Further vocabulary of the grouping stage *)

Module GroupingOrder.
Import Grouping.

(** The elements of [l], each at its first occurrence. *)
Fixpoint first_occurrences (l : list string) : list string :=
  match l with
  | [] => []
  | x :: l' => x :: List.filter (fun y => negb (y =? x)) (first_occurrences l')
  end.

(** The identifiers of the admitted records, in catalog order. *)
Definition admitted_identifiers (download_type : string)
    (patient_ids : option (list string)) (files : list file_record)
  : list string :=
  flat_map
    (fun file =>
       if admits download_type patient_ids file then
         match resolve_identifier file with
         | Ok k => [k]
         | Raise _ => []
         end
       else [])
    files.

End GroupingOrder.

(** ** Further vocabulary of the summary reporter *)

Module SummarySpec.

(** A record that counts neither as a tissue nor as a diagnostic slide. *)
Definition other_slide (file : file_record) : bool :=
  match experimental_strategy file with
  | Some s => negb (s =? "Tissue Slide") && negb (s =? "Diagnostic Slide")
  | None => true
  end.

(** The items are in ascending order of identifier. *)
Definition by_identifier (a b : string * list file_record) : Prop :=
  String.leb (fst a) (fst b) = true.

(** The text before the first point of [s] and the text after it. *)
Fixpoint at_point (s : string) : option (string * string) :=
  match s with
  | EmptyString => None
  | String c s' =>
      if Ascii.eqb c "." then Some (EmptyString, s')
      else match at_point s' with
           | Some (a, b) => Some (String c a, b)
           | None => None
           end
  end.

(** The number of hundredths a figure [digits.dd] stands for: [Some 150] for
    ["1.50"], [None] for a text of another form. *)
Definition read_2f (s : string) : option Z :=
  match at_point s with
  | Some (a, b) =>
      match NilEmpty.uint_of_string a, NilEmpty.uint_of_string b with
      | Some whole, Some cents =>
          if negb (a =? "") && (String.length b =? 2)%nat
          then Some (100 * Z.of_uint whole + Z.of_uint cents)%Z
          else None
      | _, _ => None
      end
  | None => None
  end.

End SummarySpec.

(** ** Further vocabulary of the download engine *)

Module DownloadSpec.

(** A name without a slash. *)
Fixpoint plain_name (s : string) : bool :=
  match s with
  | EmptyString => true
  | String c s' => negb (Ascii.eqb c "/") && plain_name s'
  end.

(** A non-empty name without a slash: what the catalog gives as project id,
    patient identifier and file name. *)
Definition proper_name (s : string) : bool := negb (s =? "") && plain_name s.

(** The name of an entry of a directory: a proper name that is neither
    ["."] nor [".."], so that joining it to a directory names an entry of
    that directory and nothing else. *)
Definition entry_name (s : string) : bool :=
  proper_name s && negb (s =? ".") && negb (s =? "..").

(** [raise_for_status] raises on this response. *)
Definition bad_status (r : response) : bool :=
  (400 <=? status_code r)%nat && (status_code r <? 600)%nat.



(** The world with [records] added to the log. *)
Definition logged (records : list (level * string)) (w : world) : world :=
  mk_world (fs w) (net w) (requests w) (log w ++ records) (slept w).


(** From [w] to [w'], [k] requests were issued, all of them [rq], each
    consuming a reply, and the file system changed at [paths] only. *)
Definition within (rq : request) (paths : list string) (k : nat)
    (w w' : world) : Prop :=
  requests w' = requests w ++ repeat rq k
  /\ net w' = skipn k (net w)
  /\ forall q, ~ In q paths -> fs w' !! q = fs w !! q.

(** [m] stays within that, with at most [n] requests. *)
Definition spends {A} (rq : request) (paths : list string) (n : nat)
    (m : M A) : Prop :=
  forall w, exists k, (k <= n)%nat /\ within rq paths k w (snd (m w)).

End DownloadSpec.

(** *** Further sample worlds for the download engine *)

Module DownloadEngineSamples.
Import DownloadSamples.





End DownloadEngineSamples.

(** ** Further vocabulary of the orchestrator *)

Module OrchestratorSpec.

(** From [w] to [w'] only directories were added: every entry is still what
    it was, every new entry is a directory, and network, log and clock are
    as they were. *)
Definition grows (w w' : world) : Prop :=
  net w' = net w /\ requests w' = requests w /\ log w' = log w
  /\ slept w' = slept w
  /\ (forall q n, fs w !! q = Some n -> fs w' !! q = Some n)
  /\ (forall q n, fs w !! q = None -> fs w' !! q = Some n -> n = Dir).




(** The request fetches one of the [slides]. *)
Definition fetch_of (slides : list file_record) (rq : request) : Prop :=
  exists file id, In file slides /\ file_id file = Some id /\ rq = DataFetch id.

(** The request is a catalog query, not the fetch of a slide. *)
Definition no_fetch (rq : request) : Prop :=
  match rq with
  | DataFetch _ => False
  | _ => True
  end.

(** All requests [m] issues satisfy [P]. *)
Definition asks {A} (P : request -> Prop) (m : M A) : Prop :=
  forall w, exists extra,
    requests (snd (m w)) = requests w ++ extra /\ Forall P extra.

(** Two worlds that differ in their logs at most. *)
Definition same_but_log (w1 w2 : world) : Prop :=
  fs w1 = fs w2 /\ net w1 = net w2 /\ requests w1 = requests w2
  /\ slept w1 = slept w2.

(** From worlds that differ in their logs at most, [m1] and [m2] give the
    same result and worlds that differ in their logs at most. *)
Definition agree {A} (m1 m2 : M A) : Prop :=
  forall w1 w2,
    same_but_log w1 w2 ->
    fst (m1 w1) = fst (m2 w2) /\ same_but_log (snd (m1 w1)) (snd (m2 w2)).

End OrchestratorSpec.

(* ================================================================== *)
(** * Properties *)
(* ================================================================== *)

Module GroupingFacts.
Import Grouping.

(** *** Resolution of the patient identifier *)

Lemma first_case_ok file :
  cases_nonempty file -> exists c, first_case file = Ok c.
Proof.
  unfold cases_nonempty, first_case.
  destruct (cases file) as [[|c cs]|]; intros H; eauto.
  congruence.
Qed.

Lemma resolve_identifier_raises file e :
  resolve_identifier file = Raise e <-> cases file = Some [] /\ e = IndexError.
Proof.
  unfold resolve_identifier, first_case.
  destruct (cases file) as [[|c cs]|]; split; intros H;
    try discriminate; try (destruct H; discriminate).
  - inversion H. auto.
  - destruct H as [_ ->]. reflexivity.
Qed.

(** *** The dictionary update *)

Lemma dd_append_keys d k f :
  map fst (dd_append d k f) =
  if str_in k (map fst d) then map fst d else map fst d ++ [k].
Proof.
  induction d as [|[k' l] d IH]; simpl; [reflexivity|].
  destruct (k' =? k) eqn:E; simpl; [reflexivity|].
  rewrite IH. destruct (str_in k (map fst d)); reflexivity.
Qed.

Lemma str_in_In x l : str_in x l = true <-> In x l.
Proof.
  induction l as [|y l IH]; simpl.
  - split; [discriminate | tauto].
  - rewrite orb_true_iff, IH, String.eqb_eq. tauto.
Qed.

Lemma dd_append_NoDup d k f :
  NoDup (map fst d) -> NoDup (map fst (dd_append d k f)).
Proof.
  intros H. rewrite dd_append_keys.
  destruct (str_in k (map fst d)) eqn:E; [assumption|].
  apply NoDup_app. split; [assumption|]. split.
  - intros x Hx Hin. apply list_elem_of_In in Hx, Hin.
    destruct Hin as [<-|[]].
    apply str_in_In in Hx. congruence.
  - apply NoDup_singleton.
Qed.

Lemma dd_append_group_of d k f k' :
  group_of (dd_append d k f) k' =
  if k =? k' then group_of d k' ++ [f] else group_of d k'.
Proof.
  induction d as [|[k0 l] d IH]; simpl.
  - destruct (k =? k'); reflexivity.
  - destruct (k0 =? k) eqn:E0; simpl.
    + apply String.eqb_eq in E0. subst k0.
      destruct (k =? k'); reflexivity.
    + rewrite IH. destruct (k0 =? k') eqn:E1; [|reflexivity].
      apply String.eqb_eq in E1. subst k0.
      rewrite String.eqb_sym, E0. reflexivity.
Qed.

Lemma dd_append_concat d k f :
  Permutation (concat (map snd (dd_append d k f))) (concat (map snd d) ++ [f]).
Proof.
  induction d as [|[k0 l] d IH]; simpl; [reflexivity|].
  destruct (k0 =? k); simpl.
  - rewrite <- !app_assoc. apply Permutation_app_head, Permutation_app_comm.
  - rewrite IH, app_assoc. reflexivity.
Qed.


Lemma dd_append_In d k f k' l :
  In (k', l) (dd_append d k f) ->
  In (k', l) d \/ exists l0, l = l0 ++ [f].
Proof.
  induction d as [|[k0 l0] d IH]; simpl.
  - intros [H|[]]. inversion H. right. exists []. reflexivity.
  - destruct (k0 =? k); simpl.
    + intros [H|H]; [inversion H; right; eauto | left; auto].
    + intros [H|H]; [left; auto|].
      destruct (IH H) as [H'|H']; auto.
Qed.

Lemma group_of_In d k l :
  NoDup (map fst d) -> In (k, l) d -> group_of d k = l.
Proof.
  induction d as [|[k0 l0] d IH]; simpl; [tauto|].
  intros Hnd [H|H].
  - inversion H. subst. rewrite String.eqb_refl. reflexivity.
  - apply NoDup_cons in Hnd. destruct Hnd as [Hnot Hnd].
    destruct (k0 =? k) eqn:E.
    + apply String.eqb_eq in E. subst k0. exfalso. apply Hnot.
      apply list_elem_of_In. apply (in_map fst) in H. exact H.
    + auto.
Qed.

(** *** The loop invariant *)
Section Invariant.
Variable download_type : string.
Variable patient_ids : option (list string).

Local Abbreviation grouped := (grouped_by download_type patient_ids).

Lemma grouped_nil : grouped [] [].
Proof.
  unfold grouped. simpl. split; [apply NoDup_nil_2|].
  split; [reflexivity|]. split; [intros k l []|reflexivity].
Qed.

Lemma grouped_skip d done f :
  admits download_type patient_ids f = false ->
  grouped d done -> grouped d (done ++ [f]).
Proof.
  intros Hf (Hnd & Hg & Hne & Hp).
  repeat split; auto.
  - intros k.
    assert (Hb : belongs download_type patient_ids k f = false)
      by (unfold belongs; rewrite Hf; reflexivity).
    rewrite List.filter_app. simpl. rewrite Hb, app_nil_r. apply Hg.
  - rewrite List.filter_app. simpl. rewrite Hf, app_nil_r. exact Hp.
Qed.

Lemma grouped_append d done f k :
  admits download_type patient_ids f = true ->
  resolve_identifier f = Ok k ->
  grouped d done -> grouped (dd_append d k f) (done ++ [f]).
Proof.
  intros Hf Hk (Hnd & Hg & Hne & Hp).
  repeat split.
  - apply dd_append_NoDup, Hnd.
  - intros k'.
    assert (Hb : belongs download_type patient_ids k' f = (k =? k'))
      by (unfold belongs; rewrite Hf, Hk; reflexivity).
    rewrite dd_append_group_of, List.filter_app. simpl.
    rewrite Hb, Hg. destruct (k =? k'); [reflexivity|].
    symmetry. apply app_nil_r.
  - intros k' l Hin. apply dd_append_In in Hin.
    destruct Hin as [Hin|[l0 ->]]; [eapply Hne; eauto|].
    destruct l0; discriminate.
  - rewrite dd_append_concat, List.filter_app. simpl. rewrite Hf.
    apply Permutation_app_tail, Hp.
Qed.

Lemma group_loop_step file rest d :
  group_loop (file :: rest) download_type patient_ids d =
  if passes_type download_type file then
    match resolve_identifier file with
    | Raise e => Raise e
    | Ok k =>
        if admits download_type patient_ids file
        then group_loop rest download_type patient_ids (dd_append d k file)
        else group_loop rest download_type patient_ids d
    end
  else group_loop rest download_type patient_ids d.
Proof.
  simpl. unfold admits, passes_type.
  destruct (_ && negb (_ =? "Tissue Slide")); simpl; [reflexivity|].
  destruct (_ && negb (_ =? "Diagnostic Slide")); simpl; [reflexivity|].
  destruct (resolve_identifier file) as [k|e]; [|reflexivity].
  destruct (truthy_ids patient_ids && negb (ids_contain patient_ids k));
    reflexivity.
Qed.

Lemma group_loop_grouped rest :
  forall d done g,
    grouped d done ->
    group_loop rest download_type patient_ids d = Ok g ->
    grouped g (done ++ rest).
Proof.
  induction rest as [|file rest IH]; intros d done g Hinv Hrun.
  - simpl in Hrun. inversion Hrun. subst. rewrite app_nil_r. exact Hinv.
  - rewrite group_loop_step in Hrun.
    replace (done ++ file :: rest) with ((done ++ [file]) ++ rest)
      by (rewrite <- app_assoc; reflexivity).
    destruct (passes_type download_type file) eqn:Hp.
    + destruct (resolve_identifier file) as [k|e] eqn:Hk; [|discriminate].
      destruct (admits download_type patient_ids file) eqn:Ha.
      * eapply IH; [|exact Hrun]. apply grouped_append; assumption.
      * eapply IH; [|exact Hrun]. apply grouped_skip; assumption.
    + eapply IH; [|exact Hrun]. apply grouped_skip; [|assumption].
      unfold admits. rewrite Hp. reflexivity.
Qed.

(** The loop raises exactly when it meets a record that passes the
    slide-type guards and whose ["cases"] list is empty. *)
Lemma group_loop_raises rest :
  forall d e,
    group_loop rest download_type patient_ids d = Raise e <->
    e = IndexError /\
    exists file, In file rest /\ passes_type download_type file = true
                 /\ cases file = Some [].
Proof.
  induction rest as [|file rest IH]; intros d e.
  - simpl. split; [discriminate|]. intros [_ (f & [] & _)].
  - rewrite group_loop_step.
    destruct (passes_type download_type file) eqn:Hp.
    + destruct (resolve_identifier file) as [k|e'] eqn:Hk.
      * assert (Hc : cases file <> Some []).
        { intros Hc. assert (H : resolve_identifier file = Raise IndexError)
            by (apply resolve_identifier_raises; auto). congruence. }
        destruct (admits download_type patient_ids file); rewrite IH;
          (split; intros [He (f & Hin & Hf)]; split; auto;
           [exists f; split; [right; auto | auto]
           | destruct Hin as [<-|Hin]; [destruct Hf; contradiction|eauto]]).
      * apply resolve_identifier_raises in Hk. destruct Hk as [Hc ->].
        split.
        -- intros H. inversion H. split; auto. exists file. simpl. auto.
        -- intros [-> _]. reflexivity.
    + rewrite IH.
      split; intros [He (f & Hin & Hf)]; split; auto.
      * exists f. split; [right; auto | auto].
      * destruct Hin as [<-|Hin]; [destruct Hf; congruence | eauto].
Qed.

End Invariant.

End GroupingFacts.

Module GroupingClaims.
Import Grouping GroupingFacts Samples.

Lemma group_by_patient_grouped files download_type patient_ids g :
  group_by_patient files download_type patient_ids = Ok g ->
  grouped_by download_type patient_ids g files.
Proof.
  intros H. change files with ([] ++ files).
  eapply group_loop_grouped; [apply grouped_nil | exact H].
Qed.

Lemma group_by_patient_returns files download_type patient_ids :
  Forall cases_nonempty files ->
  exists g, group_by_patient files download_type patient_ids = Ok g.
Proof.
  intros Hall.
  destruct (group_by_patient files download_type patient_ids) as [g|e] eqn:E;
    [eauto|].
  apply group_loop_raises in E. destruct E as [_ (f & Hin & _ & Hc)].
  rewrite Forall_forall in Hall. apply list_elem_of_In, Hall in Hin.
  contradiction.
Qed.

Lemma group_loop_plain_eq files download_type :
  forall d, group_loop_plain files download_type d =
            group_loop files download_type None d.
Proof.
  induction files as [|f files IH]; intros d; simpl; [reflexivity|].
  destruct (_ && negb (_ =? "Tissue Slide")); [apply IH|].
  destruct (_ && negb (_ =? "Diagnostic Slide")); [apply IH|].
  destruct (resolve_identifier f); [apply IH | reflexivity].
Qed.

Lemma group_by_patient_plain_eq files download_type :
  group_by_patient_plain files download_type =
  group_by_patient files download_type None.
Proof. apply group_loop_plain_eq. Qed.

Lemma grouped_member download_type patient_ids g files k l f :
  grouped_by download_type patient_ids g files ->
  In (k, l) g -> In f l ->
  In f files /\ admits download_type patient_ids f = true
  /\ resolve_identifier f = Ok k.
Proof.
  intros (Hnd & Hg & _ & _) Hkl Hf.
  rewrite <- (group_of_In g k l Hnd Hkl), Hg in Hf.
  apply List.filter_In in Hf. destruct Hf as [Hin Hb].
  unfold belongs in Hb. apply andb_true_iff in Hb. destruct Hb as [Ha Hk].
  repeat split; auto.
  destruct (resolve_identifier f) as [k'|]; [|discriminate].
  apply String.eqb_eq in Hk. congruence.
Qed.

Lemma grouped_covers download_type patient_ids g files f :
  grouped_by download_type patient_ids g files ->
  In f files -> admits download_type patient_ids f = true ->
  exists k l, In (k, l) g /\ In f l /\ resolve_identifier f = Ok k.
Proof.
  intros Hgr Hin Ha. pose proof Hgr as (Hnd & Hg & _ & Hp).
  assert (Hc : In f (concat (map snd g))).
  { eapply Permutation_in; [symmetry; exact Hp|].
    apply List.filter_In. auto. }
  apply in_concat in Hc. destruct Hc as (l & Hl & Hfl).
  apply in_map_iff in Hl. destruct Hl as ([k l'] & Heq & Hkl).
  simpl in Heq. subst l'. exists k, l. repeat split; auto.
  eapply grouped_member; eauto.
Qed.



Lemma passes_type_matches flt f :
  passes_type (filter_name flt) f = true -> strategy_matches flt f.
Proof.
  unfold passes_type, strategy_matches.
  destruct flt; simpl; auto;
    destruct (experimental_strategy f) as [s|]; simpl;
    try discriminate;
    rewrite ?andb_true_r; intros H; apply negb_true_iff, negb_false_iff in H;
    apply String.eqb_eq in H; congruence.
Qed.

Lemma admits_allow_list download_type patient_ids f k :
  admits download_type patient_ids f = true ->
  resolve_identifier f = Ok k ->
  forall ids, patient_ids = Some ids -> ids <> [] -> In k ids.
Proof.
  unfold admits. intros Ha Hk ids -> Hne. rewrite Hk in Ha.
  apply andb_true_iff in Ha. destruct Ha as [_ Ha].
  apply negb_true_iff, andb_false_iff in Ha.
  destruct Ha as [Ha|Ha].
  - destruct ids; [contradiction | discriminate].
  - apply negb_false_iff in Ha. simpl in Ha. apply str_in_In. exact Ha.
Qed.

(** C6, as the code has it.  A record found in a group of the output comes
    from the input, its experimental strategy matches the slide-type filter
    (every strategy matches "both"), the key of its group is its resolved
    identifier, and that identifier is a member of the allow-list whenever a
    non-empty allow-list is given.  With a filter "tissue" and a Tissue Slide
    and a Diagnostic Slide record of one patient, in either order, the only
    group holds only the Tissue Slide record. *)
Theorem group_by_patient_admits_only :
  (forall (flt : slide_filter) (files : list file_record)
          (patient_ids : option (list string)) (g : patient_groups)
          (k : string) (l : list file_record) (f : file_record),
      group_by_patient files (filter_name flt) patient_ids = Ok g ->
      In (k, l) g -> In f l ->
      In f files /\ strategy_matches flt f /\ resolve_identifier f = Ok k
      /\ (forall ids, patient_ids = Some ids -> ids <> [] -> In k ids))
  /\ (forall (t d : file_record) (p : string),
      experimental_strategy t = Some "Tissue Slide" ->
      experimental_strategy d = Some "Diagnostic Slide" ->
      resolve_identifier t = Ok p ->
      resolve_identifier d = Ok p ->
      group_by_patient [t; d] "tissue" None = Ok [(p, [t])]
      /\ group_by_patient [d; t] "tissue" None = Ok [(p, [t])]).
Proof.
  split.
  - intros flt files patient_ids g k l f Hrun Hkl Hf.
    apply group_by_patient_grouped in Hrun.
    destruct (grouped_member _ _ _ _ _ _ _ Hrun Hkl Hf) as (Hin & Ha & Hk).
    split; [exact Hin|]. split; [|split; [exact Hk|]].
    + apply passes_type_matches. unfold admits in Ha.
      apply andb_true_iff in Ha. tauto.
    + eapply admits_allow_list; eauto.
  - intros t d p Ht Hd Hpt Hpd.
    unfold group_by_patient. simpl. rewrite Ht, Hd, Hpt. simpl. auto.
Qed.

Lemma group_by_patient_admits_only_witness :
  (In tissue_P1 [tissue_P1; tissue_P2; diagnostic_P1]
   /\ strategy_matches Tissue tissue_P1
   /\ resolve_identifier tissue_P1 = Ok "P1"
   /\ (forall ids, Some ["P1"; "P9"] = Some ids -> ids <> [] -> In "P1" ids))
  /\ (group_by_patient [tissue_P1; diagnostic_P1] "tissue" None
        = Ok [("P1", [tissue_P1])]
      /\ group_by_patient [diagnostic_P1; tissue_P1] "tissue" None
        = Ok [("P1", [tissue_P1])]).
Proof.
  split.
  - apply (proj1 group_by_patient_admits_only Tissue
             [tissue_P1; tissue_P2; diagnostic_P1] (Some ["P1"; "P9"])
             [("P1", [tissue_P1])] "P1" [tissue_P1] tissue_P1).
    + reflexivity.
    + simpl. auto.
    + simpl. auto.
  - apply (proj2 group_by_patient_admits_only tissue_P1 diagnostic_P1 "P1");
      reflexivity.
Defined.

(** C6 as stated fails when the allow-list is given and empty: the record is
    admitted although its identifier is no member of the list. *)
Lemma group_by_patient_empty_allow_list_admits :
  group_by_patient [tissue_P1] "tissue" (Some []) = Ok [("P1", [tissue_P1])]
  /\ resolve_identifier tissue_P1 = Ok "P1"
  /\ ~ In "P1" ([] : list string).
Proof. split; [reflexivity|]. split; [reflexivity|]. intros []. Qed.

Lemma group_loop_unknown files :
  Forall lacks_both files ->
  forall d,
    group_loop files "both" None d =
    Ok (fold_left (fun acc f => dd_append acc "Unknown" f) files d).
Proof.
  induction 1 as [|f files Hf _ IH]; intros d; [reflexivity|].
  rewrite group_loop_step. simpl.
  assert (Hk : resolve_identifier f = Ok "Unknown").
  { destruct Hf as [Hc Hs]. unfold resolve_identifier, first_case.
    destruct Hs as [->|(c & cs & -> & Hsub)]; simpl; rewrite ?Hsub;
      destruct Hc as [->| ->]; reflexivity. }
  unfold passes_type, admits, passes_type. rewrite Hk. simpl.
  apply IH.
Qed.

Lemma fold_dd_append_unknown files :
  forall l, fold_left (fun acc f => dd_append acc "Unknown" f) files
              [("Unknown", l)] = [("Unknown", l ++ files)].
Proof.
  induction files as [|f files IH]; intros l; simpl.
  - rewrite app_nil_r. reflexivity.
  - rewrite IH, <- app_assoc. reflexivity.
Qed.

(** C7, as the code has it.  For a record whose ["cases"] list is missing or
    non-empty, the identifier is the case identifier when it is present and
    not the empty string; otherwise the submitter identifier of the first
    case when there is one; otherwise the literal "Unknown".  The key of the
    group a record is placed in is this identifier, and records that lack
    both identifiers are all collected, in catalog order, under the one key
    "Unknown". *)
Theorem resolve_identifier_rule :
  (forall file c,
      cases_nonempty file -> case_id file = Some c -> c <> "" ->
      resolve_identifier file = Ok c)
  /\ (forall file e es s,
      case_id file = None \/ case_id file = Some "" ->
      cases file = Some (e :: es) -> submitter_id e = Some s ->
      resolve_identifier file = Ok s)
  /\ (forall file, lacks_both file -> resolve_identifier file = Ok "Unknown")
  /\ (forall files download_type patient_ids g k l f,
      group_by_patient files download_type patient_ids = Ok g ->
      In (k, l) g -> In f l -> resolve_identifier f = Ok k)
  /\ (forall f files,
      Forall lacks_both (f :: files) ->
      group_by_patient (f :: files) "both" None = Ok [("Unknown", f :: files)]).
Proof.
  split; [|split; [|split; [|split]]].
  - intros file c Hne Hc Hc'. destruct (first_case_ok file Hne) as [e He].
    unfold resolve_identifier. rewrite He, Hc. unfold truthy_str.
    destruct (c =? "") eqn:E; [|reflexivity].
    apply String.eqb_eq in E. contradiction.
  - intros file e es s Hc Hcs Hs. unfold resolve_identifier, first_case.
    rewrite Hcs, Hs. destruct Hc as [->| ->]; reflexivity.
  - intros file [Hc Hs]. unfold resolve_identifier, first_case.
    destruct Hs as [->|(c & cs & -> & Hsub)]; simpl; rewrite ?Hsub;
      destruct Hc as [->| ->]; reflexivity.
  - intros files download_type patient_ids g k l f Hrun Hkl Hf.
    apply group_by_patient_grouped in Hrun.
    eapply grouped_member; eauto.
  - intros f files Hall. unfold group_by_patient.
    rewrite (group_loop_unknown _ Hall). simpl.
    rewrite fold_dd_append_unknown. reflexivity.
Qed.

Lemma resolve_identifier_rule_witness :
  resolve_identifier tissue_P1 = Ok "P1"
  /\ resolve_identifier by_submitter = Ok "TCGA-A3-0003"
  /\ resolve_identifier orphan = Ok "Unknown"
  /\ resolve_identifier diagnostic_P1 = Ok "P1"
  /\ group_by_patient [orphan; orphan'] "both" None
     = Ok [("Unknown", [orphan; orphan'])].
Proof.
  assert (Ho : lacks_both orphan) by (split; left; reflexivity).
  assert (Ho' : lacks_both orphan').
  { split; [left; reflexivity|]. right. exists (mk_case None), [].
    split; reflexivity. }
  split; [|split; [|split; [|split]]].
  - apply (proj1 resolve_identifier_rule tissue_P1 "P1");
      [discriminate | reflexivity | discriminate].
  - apply (proj1 (proj2 resolve_identifier_rule) by_submitter
             (mk_case (Some "TCGA-A3-0003")) [] "TCGA-A3-0003");
      [left; reflexivity | reflexivity | reflexivity].
  - apply (proj1 (proj2 (proj2 resolve_identifier_rule)) orphan Ho).
  - apply (proj1 (proj2 (proj2 (proj2 resolve_identifier_rule)))
             [tissue_P1; diagnostic_P1] "both" None
             [("P1", [tissue_P1; diagnostic_P1])] "P1"
             [tissue_P1; diagnostic_P1] diagnostic_P1);
      [reflexivity | simpl; auto | simpl; auto].
  - apply (proj2 (proj2 (proj2 (proj2 resolve_identifier_rule))) orphan [orphan']).
    constructor; [exact Ho | constructor; [exact Ho' | constructor]].
Defined.

(** C7 as stated fails on a record whose case identifier is present and is
    the empty string: the specification's rule yields that identifier, the
    code falls through to the submitter identifier. *)
Lemma resolve_identifier_blank_case_id :
  case_id blank_case_id = Some ""
  /\ identifier_spec blank_case_id = ""
  /\ resolve_identifier blank_case_id = Ok "TCGA-A4-0004"
  /\ resolve_identifier blank_case_id <> Ok (identifier_spec blank_case_id)
  /\ group_by_patient [blank_case_id] "both" None
     = Ok [("TCGA-A4-0004", [blank_case_id])].
Proof. repeat split. discriminate. Qed.

(** C9. Grouping is not total: a record that passes the slide-type guards,
    has no case identifier and has an empty ["cases"] list makes
    [group_by_patient] raise [IndexError] instead of using "Unknown".  On an
    input where every ["cases"] list, when present, is non-empty it returns a
    dictionary; and it raises only [IndexError], exactly when some record
    passing the slide-type guards has an empty ["cases"] list.  The plain
    pipeline behaves in the same way. *)
Theorem group_by_patient_not_total :
  (exists file,
      passes_type "both" file = true /\ case_id file = None
      /\ cases file = Some []
      /\ group_by_patient [file] "both" None = Raise IndexError
      /\ group_by_patient_plain [file] "both" = Raise IndexError)
  /\ (forall files download_type patient_ids,
      Forall cases_nonempty files ->
      exists g, group_by_patient files download_type patient_ids = Ok g)
  /\ (forall files download_type patient_ids e,
      group_by_patient files download_type patient_ids = Raise e <->
      e = IndexError
      /\ exists file, In file files /\ passes_type download_type file = true
                      /\ cases file = Some [])
  /\ (forall files download_type,
      group_by_patient_plain files download_type =
      group_by_patient files download_type None).
Proof.
  split; [|split; [|split]].
  - exists empty_cases. repeat split.
  - apply group_by_patient_returns.
  - intros files download_type patient_ids e. apply group_loop_raises.
  - apply group_by_patient_plain_eq.
Qed.

Lemma group_by_patient_not_total_witness :
  (exists g, group_by_patient [tissue_P1; orphan; orphan'] "diagnostic" None = Ok g)
  /\ group_by_patient [tissue_P1; empty_cases] "tissue" (Some ["P1"])
     = Raise IndexError.
Proof.
  split.
  - apply (proj1 (proj2 group_by_patient_not_total)).
    repeat constructor; discriminate.
  - apply (proj1 (proj2 (proj2 group_by_patient_not_total))).
    split; [reflexivity|]. exists empty_cases.
    split; [simpl; auto|]. split; reflexivity.
Defined.

Lemma group_loop_empty_ids files download_type :
  forall d, group_loop files download_type (Some []) d =
            group_loop files download_type None d.
Proof.
  induction files as [|f files IH]; intros d; simpl; [reflexivity|].
  destruct (_ && negb (_ =? "Tissue Slide")); [apply IH|].
  destruct (_ && negb (_ =? "Diagnostic Slide")); [apply IH|].
  destruct (resolve_identifier f); [apply IH | reflexivity].
Qed.

(** C10. An allow-list that is given but empty filters nothing: grouping
    with [Some []] is grouping without an allow-list, and every record that
    passes the slide-type guards is placed in the group of its identifier. *)
Theorem group_by_patient_empty_allow_list :
  forall (files : list file_record) (download_type : string),
    group_by_patient files download_type (Some []) =
    group_by_patient files download_type None
    /\ (forall g,
        group_by_patient files download_type (Some []) = Ok g ->
        (forall f, In f files -> passes_type download_type f = true ->
                   exists k l, In (k, l) g /\ In f l
                               /\ resolve_identifier f = Ok k)
        /\ Permutation (concat (map snd g))
             (List.filter (passes_type download_type) files)).
Proof.
  intros files download_type.
  assert (Hadm : forall g, group_by_patient files download_type (Some []) = Ok g ->
            forall f, In f files ->
              admits download_type (Some []) f = passes_type download_type f).
  { intros g Hrun f Hin. unfold admits.
    destruct (passes_type download_type f) eqn:Hp; [|reflexivity].
    destruct (resolve_identifier f) as [k|e] eqn:Hk; [reflexivity|].
    apply resolve_identifier_raises in Hk. destruct Hk as [Hc _].
    assert (Hr : group_by_patient files download_type (Some []) = Raise IndexError).
    { apply group_loop_raises. split; [reflexivity|]. eauto. }
    congruence. }
  split.
  - apply group_loop_empty_ids.
  - intros g Hrun. pose proof (group_by_patient_grouped _ _ _ _ Hrun) as Hgr.
    split.
    + intros f Hin Hp.
      apply (grouped_covers download_type (Some []) g files f Hgr Hin).
      rewrite (Hadm g Hrun f Hin). exact Hp.
    + destruct Hgr as (_ & _ & _ & Hperm). rewrite Hperm.
      erewrite List.filter_ext_in; [reflexivity|].
      intros f Hin. apply (Hadm g Hrun f Hin).
Qed.

Lemma group_by_patient_empty_allow_list_witness :
  (exists k l, In (k, l) [("P1", [tissue_P1]); ("P2", [tissue_P2])]
               /\ In tissue_P2 l /\ resolve_identifier tissue_P2 = Ok k)
  /\ Permutation ([tissue_P1] ++ [tissue_P2])
       (List.filter (passes_type "tissue")
          [tissue_P1; diagnostic_P1; tissue_P2]).
Proof.
  pose proof (proj2 (group_by_patient_empty_allow_list
                       [tissue_P1; diagnostic_P1; tissue_P2] "tissue")
                [("P1", [tissue_P1]); ("P2", [tissue_P2])] eq_refl) as [H1 H2].
  split; [|exact H2].
  apply H1; [simpl; auto | reflexivity].
Defined.

End GroupingClaims.

Module DownloadFacts.
Import Download.
Local Open Scope world_scope.

(** *** Components of the world a computation leaves alone *)

Create HintDb keeps.

Lemma keeps_ret {A B} (proj : world -> B) (a : A) : keeps proj (ret a).
Proof. intros w. reflexivity. Qed.

Lemma keeps_raise {A B} (proj : world -> B) e : keeps proj (@raise A e).
Proof. intros w. reflexivity. Qed.

Lemma keeps_bind {A B C} (proj : world -> C) (m : M A) (k : A -> M B) :
  keeps proj m -> (forall a, keeps proj (k a)) -> keeps proj (bind m k).
Proof.
  intros Hm Hk w. unfold bind. specialize (Hm w).
  destruct (m w) as [[a|e] w1]; simpl in *; [|exact Hm].
  rewrite Hk. exact Hm.
Qed.

Lemma keeps_for_each {A C} (proj : world -> C) (l : list A) body :
  (forall x, keeps proj (body x)) -> keeps proj (for_each l body).
Proof.
  intros Hb. induction l as [|x l IH]; simpl.
  - apply keeps_ret.
  - apply keeps_bind; auto.
Qed.

Lemma keeps_if {A C} (proj : world -> C) (b : bool) (m1 m2 : M A) :
  keeps proj m1 -> keeps proj m2 -> keeps proj (if b then m1 else m2).
Proof. destruct b; auto. Qed.

(** [Path.mkdir(exist_ok=True)] by cases on what the path and its parent
    are. *)
Lemma parent_fault_not_dir f p e :
  parent_fault f p = Some e -> f !! p = None -> is_dir f p = false.
Proof.
  unfold parent_fault. intros H Hp.
  destruct (is_dir f (parent p)) eqn:Hd; [discriminate|].
  unfold is_dir. rewrite Hp.
  destruct (p =? "") eqn:E1.
  { apply String.eqb_eq in E1. subst p. discriminate. }
  destruct (p =? "/") eqn:E2.
  { apply String.eqb_eq in E2. subst p. discriminate. }
  reflexivity.
Qed.

Lemma mkdir_eq p w :
  mkdir p w =
  match fs w !! p with
  | Some Dir => (Ok tt, w)
  | Some (File _) =>
      if is_dir (fs w) p then (Ok tt, w) else (Raise (FileExistsError p), w)
  | None =>
      match parent_fault (fs w) p with
      | Some e => (Raise e, w)
      | None => (Ok tt, set_fs (<[p := Dir]> (fs w)) w)
      end
  end.
Proof.
  unfold mkdir, os_mkdir.
  destruct (fs w !! p) as [[|c]|] eqn:E.
  - unfold is_dir. rewrite E. rewrite orb_true_r. reflexivity.
  - reflexivity.
  - destruct (parent_fault (fs w) p) as [e|] eqn:Hf; [|reflexivity].
    rewrite (parent_fault_not_dir _ _ _ Hf E).
    unfold parent_fault in Hf. destruct (is_dir (fs w) (parent p)); [discriminate|].
    destruct (fs w !! parent p) as [[|c]|]; inversion Hf; reflexivity.
Qed.

Lemma keeps_mkdir {C} (proj : world -> C) p :
  (forall f w, proj (set_fs f w) = proj w) -> keeps proj (mkdir p).
Proof.
  intros H w. rewrite mkdir_eq.
  destruct (fs w !! p) as [[|c]|]; simpl; auto.
  - destruct (is_dir (fs w) p); reflexivity.
  - destruct (parent_fault (fs w) p); simpl; auto.
Qed.

Lemma keeps_open_write {C} (proj : world -> C) p c :
  (forall f w, proj (set_fs f w) = proj w) -> keeps proj (open_write p c).
Proof.
  intros H w. unfold open_write.
  destruct (fs w !! p) as [[|c']|]; simpl; auto.
  destruct (parent_fault (fs w) p); simpl; auto.
Qed.

Lemma keeps_write_chunk {C} (proj : world -> C) p c :
  (forall f w, proj (set_fs f w) = proj w) -> keeps proj (write_chunk p c).
Proof.
  intros H w. unfold write_chunk.
  destruct (fs w !! p) as [[|[d|d|d]]|]; simpl; auto.
Qed.

Lemma keeps_path_exists {C} (proj : world -> C) p : keeps proj (path_exists p).
Proof. intros w. reflexivity. Qed.

Lemma keeps_read_file {C} (proj : world -> C) p : keeps proj (read_file p).
Proof. intros w. unfold read_file. destruct (fs w !! p) as [[|c]|]; reflexivity. Qed.

Lemma keeps_raise_for_status {C} (proj : world -> C) r :
  keeps proj (raise_for_status r).
Proof. unfold raise_for_status. apply keeps_if; [apply keeps_raise | apply keeps_ret]. Qed.

Lemma keeps_slept_emit lv msg : keeps slept (emit lv msg).
Proof. intros w. reflexivity. Qed.

Lemma keeps_slept_get rq : keeps slept (requests_get rq).
Proof. intros w. unfold requests_get. destruct (net w) as [|[e|r] l]; reflexivity. Qed.

Lemma keeps_fs_emit lv msg : keeps fs (emit lv msg).
Proof. intros w. reflexivity. Qed.

Lemma keeps_requests_emit lv msg : keeps requests (emit lv msg).
Proof. intros w. reflexivity. Qed.

Lemma keeps_net_emit lv msg : keeps net (emit lv msg).
Proof. intros w. reflexivity. Qed.

#[export] Hint Resolve keeps_ret keeps_raise keeps_path_exists keeps_read_file
  keeps_raise_for_status keeps_slept_emit keeps_slept_get keeps_fs_emit
  keeps_requests_emit keeps_net_emit : keeps.

Ltac keeps_tac :=
  repeat first
    [ progress intros
    | apply keeps_bind
    | apply keeps_for_each
    | apply keeps_if
    | apply keeps_mkdir; reflexivity
    | apply keeps_open_write; reflexivity
    | apply keeps_write_chunk; reflexivity
    | solve [auto with keeps]
    | match goal with |- keeps _ (match ?x with _ => _ end) => destruct x end ].

(** *** The retry loop, for any attempt function *)

Section Retry.
Context {A : Type} (fn : M A).

Lemma retrying_eq fuel n w :
  retrying fuel n fn w =
  match fn w with
  | (Ok a, w1) => (Ok a, w1, [Ok a])
  | (Raise e, w1) =>
      if negb (is_request_exception e) then (Raise e, w1, [Raise e])
      else if stop_after_attempt 3 n
      then (Raise (RetryError e), w1, [Raise e])
      else
        match fuel with
        | O => (Raise (RetryError e), w1, [Raise e])
        | S fuel' =>
            let '(r, w4, attempts) := retrying fuel' (S n) fn (pause n w1) in
            (r, w4, Raise e :: attempts)
        end
  end.
Proof. destruct fuel; reflexivity. Qed.

Lemma retrying_returns fuel n w a w1 :
  fn w = (Ok a, w1) -> retrying fuel n fn w = (Ok a, w1, [Ok a]).
Proof. intros H. rewrite retrying_eq, H. reflexivity. Qed.

Lemma retrying_fatal fuel n w e w1 :
  fn w = (Raise e, w1) -> is_request_exception e = false ->
  retrying fuel n fn w = (Raise e, w1, [Raise e]).
Proof. intros H He. rewrite retrying_eq, H, He. reflexivity. Qed.

Lemma retrying_gives_up fuel n w e w1 :
  fn w = (Raise e, w1) -> is_request_exception e = true -> (3 <= n)%nat ->
  retrying fuel n fn w = (Raise (RetryError e), w1, [Raise e]).
Proof.
  intros H He Hn.
  assert (Hs : stop_after_attempt 3 n = true) by (apply Nat.leb_le; exact Hn).
  rewrite retrying_eq, H, He, Hs. reflexivity.
Qed.

Lemma retrying_again fuel n w e w1 :
  fn w = (Raise e, w1) -> is_request_exception e = true -> (n < 3)%nat ->
  retrying (S fuel) n fn w =
  let '(r, w4, attempts) := retrying fuel (S n) fn (pause n w1) in
  (r, w4, Raise e :: attempts).
Proof.
  intros H He Hn.
  assert (Hs : stop_after_attempt 3 n = false) by (apply Nat.leb_gt; exact Hn).
  rewrite retrying_eq, H, He, Hs. reflexivity.
Qed.

(** The four ways one round of the loop can go. *)
Lemma retrying_cases fuel n w :
  (exists a w1, fn w = (Ok a, w1) /\ retrying fuel n fn w = (Ok a, w1, [Ok a]))
  \/ (exists e w1, fn w = (Raise e, w1) /\ is_request_exception e = false
        /\ retrying fuel n fn w = (Raise e, w1, [Raise e]))
  \/ (exists e w1, fn w = (Raise e, w1) /\ is_request_exception e = true
        /\ ((3 <= n)%nat \/ fuel = O)
        /\ retrying fuel n fn w = (Raise (RetryError e), w1, [Raise e]))
  \/ (exists e w1 fuel', fn w = (Raise e, w1) /\ is_request_exception e = true
        /\ (n < 3)%nat /\ fuel = S fuel'
        /\ retrying fuel n fn w =
           (let '(r, w4, attempts) := retrying fuel' (S n) fn (pause n w1) in
            (r, w4, Raise e :: attempts))).
Proof.
  destruct (fn w) as [[a|e] w1] eqn:E.
  - left. exists a, w1. split; [reflexivity|]. apply retrying_returns, E.
  - right. destruct (is_request_exception e) eqn:He.
    + right. destruct (Nat.le_gt_cases 3 n) as [Hn|Hn].
      * left. exists e, w1. repeat split; auto. apply retrying_gives_up; auto.
      * destruct fuel as [|fuel'].
        -- left. exists e, w1. repeat split; auto.
           assert (Hs : stop_after_attempt 3 n = false) by (apply Nat.leb_gt; exact Hn).
           rewrite retrying_eq, E, He, Hs. reflexivity.
        -- right. exists e, w1, fuel'. repeat split; auto.
           apply retrying_again; auto.
    + left. exists e, w1. repeat split; auto. apply retrying_fatal; auto.
Qed.

(** Every attempt but the last failed with a [RequestException] before the
    third attempt; the last attempt decides the outcome. *)
Lemma retrying_shape fuel :
  forall n w r w' attempts,
    retrying fuel n fn w = (r, w', attempts) ->
    (exists x, last attempts = Some x /\
       match x with
       | Ok a => r = Ok a
       | Raise e =>
           r = if is_request_exception e then Raise (RetryError e) else Raise e
       end)
    /\ (forall i x, attempts !! i = Some x -> (S i < length attempts)%nat ->
          exists e, x = Raise e /\ is_request_exception e = true
                    /\ (n + i < 3)%nat).
Proof.
  induction fuel as [|fuel IH]; intros n w r w' attempts Hrun;
    match type of Hrun with retrying ?f _ _ _ = _ =>
      destruct (retrying_cases f n w)
      as [(a & w1 & _ & H)|[(e & w1 & _ & He & H)|[(e & w1 & _ & He & _ & H)
          |(e & w1 & fuel' & _ & He & Hn & Hf & H)]]] end;
    rewrite H in Hrun; clear H;
    try (inversion Hrun; subst; split;
         [eexists; split; [reflexivity|]; simpl; rewrite ?He; reflexivity
         | intros [|i] x Hx Hlen; simpl in *; lia]).
  - discriminate.
  - injection Hf as <-.
    destruct (retrying fuel (S n) fn (pause n w1)) as [[r1 w4] tr] eqn:E.
    inversion Hrun; subst. clear Hrun.
    destruct (IH _ _ _ _ _ E) as [(x & Hlast & Hx) Hmid].
    split.
    + exists x. split; [|exact Hx].
      destruct tr as [|y tr]; [discriminate|]. exact Hlast.
    + intros [|i] y Hy Hlen; simpl in *.
      * inversion Hy. subst. exists e. repeat split; auto. lia.
      * destruct (Hmid i y Hy) as (e' & -> & He' & Hi); [lia|].
        exists e'. repeat split; auto. lia.
Qed.

Lemma retrying_length fuel n w :
  (1 <= n)%nat ->
  (1 <= length (snd (retrying fuel n fn w)) <= Nat.max 1 (4 - n))%nat.
Proof.
  intros Hn. destruct (retrying fuel n fn w) as [[r w'] tr] eqn:E. simpl.
  destruct (retrying_shape _ _ _ _ _ _ E) as [(x & Hlast & _) Hmid].
  destruct tr as [|y tr]; [discriminate|]. simpl. split; [lia|].
  destruct tr as [|z tr]; [simpl; lia|].
  destruct (lookup_lt_is_Some_2 (y :: z :: tr) (length tr)) as [x' Hin];
    [simpl; lia|].
  destruct (Hmid _ _ Hin) as (_ & _ & _ & H); simpl in *; lia.
Qed.

(** With fuel for three attempts, the loop gives up only after the third. *)
Lemma retrying_gives_up_third fuel :
  forall n w r w' attempts e,
    (3 <= fuel + n)%nat -> (n <= 3)%nat ->
    retrying fuel n fn w = (r, w', attempts) ->
    last attempts = Some (Raise e) -> is_request_exception e = true ->
    (length attempts + n = 4)%nat.
Proof.
  induction fuel as [|fuel IH]; intros n w r w' attempts e0 Hf Hn Hrun Hlast He0;
    match type of Hrun with retrying ?f _ _ _ = _ =>
      destruct (retrying_cases f n w)
      as [(a & w1 & _ & H)|[(e & w1 & _ & He & H)|[(e & w1 & _ & He & Hc & H)
          |(e & w1 & fuel' & _ & He & Hn' & Hfu & H)]]] end;
    rewrite H in Hrun; clear H.
  - inversion Hrun; subst. discriminate.
  - inversion Hrun; subst. inversion Hlast; subst. congruence.
  - inversion Hrun; subst. simpl. lia.
  - discriminate.
  - inversion Hrun; subst. discriminate.
  - inversion Hrun; subst. inversion Hlast; subst. congruence.
  - inversion Hrun; subst. simpl. destruct Hc as [Hc|Hc]; [lia | discriminate].
  - injection Hfu as <-.
    destruct (retrying fuel (S n) fn (pause n w1)) as [[r1 w4] tr] eqn:E.
    inversion Hrun; subst. simpl.
    assert (Hl : last tr = Some (Raise e0)).
    { destruct tr as [|y tr]; [|exact Hlast].
      destruct (retrying_shape _ _ _ _ _ _ E) as [(x & Hx & _) _]. discriminate. }
    assert (H4 : (length tr + S n = 4)%nat)
      by (eapply (IH (S n)); [| |exact E|exact Hl|exact He0]; lia).
    lia.
Qed.

(** The loop sleeps once between two attempts, for the time the policy gives. *)
Lemma retrying_slept fuel :
  keeps slept fn ->
  forall n w r w' attempts,
    retrying fuel n fn w = (r, w', attempts) ->
    slept w' = slept w ++
               map (wait_exponential 1 4 10) (seq n (length attempts - 1)).
Proof.
  intros Hk.
  induction fuel as [|fuel IH]; intros n w r w' attempts Hrun;
    pose proof (Hk w) as Hw;
    match type of Hrun with retrying ?f _ _ _ = _ =>
      destruct (retrying_cases f n w)
      as [(a & w1 & Ha & H)|[(e & w1 & Ha & He & H)|[(e & w1 & Ha & He & _ & H)
          |(e & w1 & fuel' & Ha & He & Hn & Hf & H)]]] end;
    rewrite H in Hrun; clear H; rewrite Ha in Hw; simpl in Hw;
    try (inversion Hrun; subst; simpl; rewrite app_nil_r; exact Hw).
  - discriminate.
  - injection Hf as <-.
    destruct (retrying fuel (S n) fn (pause n w1)) as [[r1 w4] tr] eqn:E.
    inversion Hrun; subst. clear Hrun.
    rewrite (IH _ _ _ _ _ E). simpl. rewrite Hw.
    destruct (retrying_shape _ _ _ _ _ _ E) as [(x & Hx & _) _].
    destruct tr as [|y tr]; [discriminate|]. simpl.
    rewrite Nat.sub_0_r, <- app_assoc. reflexivity.
Qed.

End Retry.

(** The waits of the policy [wait_exponential(multiplier=1, min=4, max=10)]. *)
Lemma wait_exponential_bounds n :
  (4 <= wait_exponential 1 4 10 n <= 10)%Z
  /\ wait_exponential 1 4 10 n
     = Z.max 4 (Z.min (1 * 2 ^ (Z.of_nat n - 1)) 10).
Proof. unfold wait_exponential. split; [lia | reflexivity]. Qed.

Section Digest.
Variable md5 : content -> string.

Lemma keeps_already_downloaded {C} (proj : world -> C) info warn a b c d e :
  (forall lv msg, keeps proj (emit lv msg)) ->
  keeps proj (already_downloaded md5 info warn a b c d e).
Proof. intros H. unfold already_downloaded. keeps_tac; apply H. Qed.

Lemma download_attempt_keeps_slept a b c d e f :
  keeps slept (download_attempt md5 a b c d e f).
Proof.
  unfold download_attempt. keeps_tac.
Qed.

(** *** One attempt *)

Lemma bind_Ok_inv {A B} (m : M A) (k : A -> M B) w b w' :
  bind m k w = (Ok b, w') ->
  exists a w1, m w = (Ok a, w1) /\ k a w1 = (Ok b, w').
Proof.
  unfold bind. destruct (m w) as [[a|e] w1]; [eauto | discriminate].
Qed.

Lemma mkdir_frame p w :
  let '(r, w1) := mkdir p w in
  net w1 = net w /\ requests w1 = requests w /\ log w1 = log w
  /\ slept w1 = slept w
  /\ (forall e, r = Raise e -> is_request_exception e = false)
  /\ (fs w !! p = Some Dir -> r = Ok tt /\ w1 = w).
Proof.
  rewrite mkdir_eq. unfold parent_fault. destruct (fs w !! p) as [[|c]|] eqn:E.
  - repeat split; auto. discriminate.
  - destruct (is_dir (fs w) p); repeat split; auto; try discriminate.
    intros e H. inversion H. reflexivity.
  - destruct (is_dir (fs w) (parent p)).
    + repeat split; auto; discriminate.
    + destruct (fs w !! parent p) as [[|c]|]; repeat split; auto;
        try discriminate; intros e H; inversion H; reflexivity.
Qed.

Lemma mkdir_Ok_inv p w w1 :
  mkdir p w = (Ok tt, w1) ->
  net w1 = net w /\ requests w1 = requests w /\ log w1 = log w.
Proof.
  intros H. pose proof (mkdir_frame p w) as Hf. rewrite H in Hf. tauto.
Qed.

(** [mkdir] never touches an entry that is a file. *)
Lemma mkdir_keeps_file p w q c :
  fs w !! q = Some (File c) -> fs (snd (mkdir p w)) !! q = Some (File c).
Proof.
  intros Hq. rewrite mkdir_eq. destruct (fs w !! p) as [[|c']|] eqn:E; simpl; auto.
  - destruct (is_dir (fs w) p); exact Hq.
  - destruct (parent_fault (fs w) p); simpl; auto.
    rewrite lookup_insert_ne; [exact Hq | congruence].
Qed.

Lemma write_chunks_content p l :
  forall w data,
    fs w !! p = Some (File (Raw data)) ->
    exists w', for_each l (write_chunk p) w = (Ok tt, w')
               /\ fs w' !! p = Some (File (Raw (data ++ concat l)))
               /\ net w' = net w /\ requests w' = requests w.
Proof.
  induction l as [|chunk l IH]; intros w data Hp; simpl.
  - exists w. rewrite app_nil_r. auto.
  - unfold bind, write_chunk at 1. rewrite Hp.
    destruct (IH (set_fs (<[p := File (Raw (data ++ chunk))]> (fs w)) w)
                (data ++ chunk)) as (w' & Hrun & Hfs & Hnet & Hreq).
    { simpl. apply lookup_insert_eq. }
    exists w'. rewrite Hrun, Hfs, <- app_assoc. auto.
Qed.

Lemma open_write_Ok_inv p c w w1 :
  open_write p c w = (Ok tt, w1) ->
  fs w1 !! p = Some (File c) /\ net w1 = net w /\ requests w1 = requests w.
Proof.
  unfold open_write. destruct (fs w !! p) as [[|c']|].
  - discriminate.
  - intros H. inversion H. simpl. split; [apply lookup_insert_eq | auto].
  - destruct (parent_fault (fs w) p); [discriminate|].
    intros H. inversion H. simpl. split; [apply lookup_insert_eq | auto].
Qed.


Section Attempt.
Variables project_id file_id file_name identifier md5sum project_slides_dir : string.

Local Abbreviation patient_dir := (path_join project_slides_dir identifier).
Local Abbreviation output_path := (path_join patient_dir file_name).
Local Abbreviation attempt :=
  (download_attempt md5 project_id file_id file_name identifier md5sum
     project_slides_dir).

Lemma already_downloaded_eq info warn w :
  already_downloaded md5 info warn project_id file_name identifier md5sum
    output_path w
  = match fs w !! output_path with
    | Some (File c) =>
        if md5 c =? md5sum
        then (Ok true, snd (emit info (msg_skipping file_name project_id identifier) w))
        else (Ok false, snd (emit warn (msg_mismatch file_name project_id identifier) w))
    | Some Dir => (Raise (IsADirectoryError output_path), w)
    | None => (Ok false, w)
    end.
Proof.
  unfold already_downloaded, bind, path_exists, read_file.
  destruct (fs w !! output_path) as [[|c]|] eqn:E; cbv beta iota;
    rewrite ?E; cbv beta iota; try reflexivity.
  destruct (md5 c =? md5sum); reflexivity.
Qed.

Lemma already_downloaded_match info warn w c :
  fs w !! output_path = Some (File c) -> md5 c = md5sum ->
  already_downloaded md5 info warn project_id file_name identifier md5sum
    output_path w
  = (Ok true, snd (emit info (msg_skipping file_name project_id identifier) w)).
Proof.
  intros Hf Hc. rewrite already_downloaded_eq, Hf, Hc, String.eqb_refl.
  reflexivity.
Qed.

Lemma already_downloaded_inv info warn w b w' :
  already_downloaded md5 info warn project_id file_name identifier md5sum
    output_path w = (Ok b, w') ->
  fs w' = fs w /\ net w' = net w /\ requests w' = requests w
  /\ (b = true -> exists c, fs w !! output_path = Some (File c) /\ md5 c = md5sum).
Proof.
  rewrite already_downloaded_eq.
  destruct (fs w !! output_path) as [[|c]|] eqn:E.
  - discriminate.
  - destruct (md5 c =? md5sum) eqn:Hc; simpl; intros H; inversion H; subst;
      simpl; repeat split; try discriminate.
    intros _. exists c. split; [reflexivity | apply String.eqb_eq, Hc].
  - intros H. inversion H. subst. repeat split. discriminate.
Qed.

(** An attempt that returns leaves the file in place: either it was there
    with the expected checksum, or it now holds the body of the response to
    the one request of the attempt. *)
Lemma download_attempt_Ok w w' :
  attempt w = (Ok tt, w') ->
  exists c, fs w' !! output_path = Some (File c)
    /\ ((md5 c = md5sum /\ requests w' = requests w)
        \/ exists r rest, net w = Answer r :: rest /\ cut r = None
             /\ c = Raw (concat (chunks r))
             /\ requests w' = requests w ++ [DataFetch file_id]).
Proof.
  unfold download_attempt. intros H.
  apply bind_Ok_inv in H. destruct H as ([] & w1 & Hmk & H).
  apply mkdir_Ok_inv in Hmk. destruct Hmk as (Hn1 & Hr1 & _).
  apply bind_Ok_inv in H. destruct H as (skip & w2 & Hsk & H).
  apply already_downloaded_inv in Hsk. destruct Hsk as (Hfs2 & Hn2 & Hr2 & Hb).
  destruct skip.
  - inversion H. subst w'. destruct (Hb eq_refl) as (c & Hc & Hm).
    exists c. rewrite Hfs2. split; [exact Hc|]. left. split; [exact Hm | congruence].
  - clear Hb. apply bind_Ok_inv in H. destruct H as ([] & w3 & Hem & H).
    inversion Hem. subst w3. clear Hem.
    apply bind_Ok_inv in H. destruct H as (r & w4 & Hget & H).
    unfold requests_get in Hget. simpl in Hget.
    destruct (net w2) as [|[e|r'] rest] eqn:Hnet; try discriminate.
    inversion Hget. subst r' w4. clear Hget.
    apply bind_Ok_inv in H. destruct H as ([] & w5 & Hst & H).
    unfold raise_for_status in Hst.
    destruct (_ && _) in Hst; [discriminate|]. inversion Hst. subst w5. clear Hst.
    apply bind_Ok_inv in H. destruct H as ([] & w6 & Hop & H).
    apply open_write_Ok_inv in Hop. destruct Hop as (Hf6 & Hn6 & Hr6).
    apply bind_Ok_inv in H. destruct H as ([] & w7 & Hwr & H).
    destruct (write_chunks_content output_path (chunks r) w6 [] Hf6)
      as (w7' & Hwr' & Hf7 & Hn7 & Hr7).
    rewrite Hwr' in Hwr. inversion Hwr. subst w7'. clear Hwr.
    apply bind_Ok_inv in H. destruct H as ([] & w8 & Hcut & H).
    destruct (cut r) eqn:Hc; [discriminate|]. inversion Hcut. subst w8.
    inversion H. subst w'. simpl.
    exists (Raw (concat (chunks r))). split; [exact Hf7|].
    right. exists r, rest. repeat split; auto.
    + congruence.
    + rewrite Hr7, Hr6. simpl. congruence.
Qed.

(** The common opening of both [download_file] bodies.  With the file in
    place and intact, no request is issued and the file stays as it is,
    whatever [rest] would do; when the patient directory exists nothing
    changes but the log. *)
Lemma skip_when_intact info warn (rest : M unit) w c :
  fs w !! output_path = Some (File c) -> md5 c = md5sum ->
  let '(r, w') :=
    (mkdir patient_dir ;;
     let* skip := already_downloaded md5 info warn project_id file_name
                    identifier md5sum output_path in
     if skip then ret tt else rest)%world w in
  requests w' = requests w /\ net w' = net w /\ slept w' = slept w
  /\ fs w' !! output_path = Some (File c)
  /\ (forall e, r = Raise e -> is_request_exception e = false)
  /\ (fs w !! patient_dir = Some Dir ->
      r = Ok tt /\ fs w' = fs w
      /\ log w' = log w ++ [(info, msg_skipping file_name project_id identifier)]).
Proof.
  intros Hf Hc. unfold bind.
  pose proof (mkdir_keeps_file patient_dir w _ _ Hf) as Hk.
  pose proof (mkdir_frame patient_dir w) as Hm.
  destruct (mkdir patient_dir w) as [[[]|e] w1] eqn:Hmk; simpl in Hk;
    destruct Hm as (Hn1 & Hr1 & Hl1 & Hs1 & He1 & Hd1).
  - rewrite (already_downloaded_match _ _ _ _ Hk Hc). simpl.
    split; [exact Hr1|]. split; [exact Hn1|]. split; [exact Hs1|].
    split; [exact Hk|]. split; [discriminate|].
    intros H. destruct (Hd1 H) as [_ ->]. auto.
  - split; [exact Hr1|]. split; [exact Hn1|]. split; [exact Hs1|].
    split; [exact Hk|]. split.
    + intros e' He'. inversion He'. subst e'. apply (He1 e eq_refl).
    + intros H. destruct (Hd1 H); discriminate.
Qed.

End Attempt.
End Digest.

End DownloadFacts.

Module DownloadClaims.
Import Download DownloadFacts DownloadSamples.

Section Claims.
Variable md5 : content -> string.
Variables project_id file_id file_name identifier md5sum project_slides_dir : string.

Local Abbreviation patient_dir := (path_join project_slides_dir identifier).
Local Abbreviation output_path := (path_join patient_dir file_name).

(** C2. When the target path holds a file whose checksum is the expected
    one, [download_file] issues no request, consumes nothing from the
    network, does not sleep and leaves the file as it is, after a single
    attempt; when the patient directory exists (as it does on a file system
    that holds the file) the call returns normally, the whole file system is
    unchanged and the only log record added is the "Skipping" message, so
    the download branch is never entered.  The plain pipeline's
    [download_file] does the same, printing the message. *)
Theorem download_file_skips_intact_file (w : world) (c : content) :
  fs w !! output_path = Some (File c) ->
  md5 c = md5sum ->
  (let '(r, w', attempts) :=
     download_file_attempts md5 project_id file_id file_name identifier md5sum
       project_slides_dir w in
   download_file md5 project_id file_id file_name identifier md5sum
     project_slides_dir w = (r, w')
   /\ attempts = [r]
   /\ requests w' = requests w /\ net w' = net w /\ slept w' = slept w
   /\ fs w' !! output_path = Some (File c)
   /\ (fs w !! patient_dir = Some Dir ->
       r = Ok tt /\ fs w' = fs w
       /\ log w' = log w ++ [(INFO, msg_skipping file_name project_id identifier)]))
  /\ (let '(r, w') :=
        download_file_plain md5 project_id file_id file_name identifier md5sum
          project_slides_dir w in
      requests w' = requests w /\ net w' = net w /\ slept w' = slept w
      /\ fs w' !! output_path = Some (File c)
      /\ (fs w !! patient_dir = Some Dir ->
          r = Ok tt /\ fs w' = fs w
          /\ log w' = log w ++ [(PRINT, msg_skipping file_name project_id identifier)])).
Proof.
  intros Hf Hc. split.
  - unfold download_file, download_file_attempts.
    pose proof (skip_when_intact md5 project_id file_name identifier md5sum
                  project_slides_dir INFO WARNING
                  (emit INFO (msg_downloading file_name project_id identifier) ;;
                   let* response := requests_get (DataFetch file_id) in
                   raise_for_status response ;;
                   open_write output_path (Raw []) ;;
                   for_each (chunks response) (write_chunk output_path) ;;
                   match cut response with Some e => raise e | None => ret tt end ;;
                   emit INFO (msg_downloaded file_name project_id identifier))%world
                  w c Hf Hc) as H.
    fold (download_attempt md5 project_id file_id file_name identifier md5sum
            project_slides_dir) in H.
    destruct (download_attempt md5 project_id file_id file_name identifier md5sum
                project_slides_dir w) as [[[]|e] w1] eqn:E.
    + rewrite (retrying_returns _ _ _ _ _ _ E). simpl. tauto.
    + destruct H as (H1 & H2 & H3 & H4 & H5 & H6).
      rewrite (retrying_fatal _ _ _ _ _ _ E (H5 e eq_refl)). simpl. tauto.
  - pose proof (skip_when_intact md5 project_id file_name identifier md5sum
                  project_slides_dir PRINT PRINT
                  (let* response := requests_get_full (DataFetch file_id) in
                   raise_for_status response ;;
                   open_write output_path (Raw []) ;;
                   write_chunk output_path (concat (chunks response)) ;;
                   emit PRINT (msg_downloaded file_name project_id identifier))%world
                  w c Hf Hc) as H.
    fold (download_file_plain md5 project_id file_id file_name identifier md5sum
            project_slides_dir) in H.
    destruct (download_file_plain md5 project_id file_id file_name identifier
                md5sum project_slides_dir w) as [r w1].
    tauto.
Qed.

Local Abbreviation attempt :=
  (download_attempt md5 project_id file_id file_name identifier md5sum
     project_slides_dir).

(** C3, as the code has it.  The retry policy of [download_file].  At most
    three attempts are made; an attempt is followed by another only if it failed with a
    [RequestException]; an attempt that fails with anything else (a missing
    directory, a path that cannot be opened for writing) is the last one and
    its exception is the outcome; after a third network failure the call
    gives up with [RetryError]; the call returns normally exactly when its
    last attempt did.  Between two attempts the call sleeps once, for
    [wait_exponential(multiplier=1, min=4, max=10)] seconds, which lies
    between 4 and 10.  If the first two attempts fail with a
    [RequestException] and the third returns, exactly three attempts are
    made, the call returns, and the target file is in place: it has the
    expected checksum or holds the body of the response the third attempt
    received, which no line compares with the checksum. *)
Theorem download_file_retry_policy (w : world) :
  let '(r, w', attempts) :=
    download_file_attempts md5 project_id file_id file_name identifier md5sum
      project_slides_dir w in
  download_file md5 project_id file_id file_name identifier md5sum
    project_slides_dir w = (r, w')
  /\ (1 <= length attempts <= 3)%nat
  /\ (forall i x, attempts !! i = Some x -> (S i < length attempts)%nat ->
        exists e, x = Raise e /\ is_request_exception e = true)
  /\ (forall i e, attempts !! i = Some (Raise e) ->
        is_request_exception e = false ->
        S i = length attempts /\ r = Raise e)
  /\ (forall e, last attempts = Some (Raise e) ->
        is_request_exception e = true ->
        length attempts = 3%nat /\ r = Raise (RetryError e))
  /\ (last attempts = Some (Ok tt) <-> r = Ok tt)
  /\ slept w' = slept w ++
                map (wait_exponential 1 4 10) (seq 1 (length attempts - 1))
  /\ (forall n, 4 <= wait_exponential 1 4 10 n <= 10)%Z
  /\ (forall e1 e2 w1 w2 w3,
        attempt w = (Raise e1, w1) -> is_request_exception e1 = true ->
        attempt (pause 1 w1) = (Raise e2, w2) -> is_request_exception e2 = true ->
        attempt (pause 2 w2) = (Ok tt, w3) ->
        r = Ok tt /\ w' = w3 /\ attempts = [Raise e1; Raise e2; Ok tt]
        /\ exists c, fs w' !! output_path = Some (File c)
             /\ (md5 c = md5sum
                 \/ exists resp rest,
                      net (pause 2 w2) = Answer resp :: rest
                      /\ c = Raw (concat (chunks resp)))).
Proof.
  unfold download_file, download_file_attempts.
  destruct (retrying 3 1 attempt w) as [[r w'] attempts] eqn:E.
  destruct (retrying_shape _ _ _ _ _ _ _ E) as [(x & Hlast & Hx) Hmid].
  pose proof (retrying_length attempt 3 1 w (le_n 1)) as Hlen.
  rewrite E in Hlen. simpl in Hlen.
  split; [reflexivity|]. split; [exact Hlen|]. split; [|split; [|split; [|split; [|split; [|split]]]]].
  - intros i y Hy Hi. destruct (Hmid i y Hy Hi) as (e & -> & He & _). eauto.
  - intros i e Hi He.
    destruct (Nat.lt_ge_cases (S i) (length attempts)) as [Hlt|Hge].
    + destruct (Hmid i _ Hi Hlt) as (e' & He' & Hn & _).
      inversion He'. subst e'. congruence.
    + assert (Hi' : (i < length attempts)%nat) by (eapply lookup_lt_Some; eauto).
      assert (Hl : S i = length attempts) by lia. split; [exact Hl|].
      rewrite last_lookup in Hlast. rewrite <- Hl in Hlast. simpl in Hlast.
      rewrite Hi in Hlast. inversion Hlast. subst x. rewrite He in Hx. exact Hx.
  - intros e Hl He. rewrite Hl in Hlast. inversion Hlast. subst x.
    rewrite He in Hx. split; [|exact Hx].
    pose proof (retrying_gives_up_third attempt 3 1 w r w' attempts e) as H.
    specialize (H ltac:(lia) ltac:(lia) E Hl He). lia.
  - split.
    + intros Hl. rewrite Hl in Hlast. inversion Hlast. subst x. exact Hx.
    + intros ->. rewrite Hlast. destruct x as [[]|e]; [reflexivity|].
      destruct (is_request_exception e); discriminate.
  - apply (retrying_slept attempt 3 (download_attempt_keeps_slept md5 _ _ _ _ _ _)
             _ _ _ _ _ E).
  - intros n. apply wait_exponential_bounds.
  - intros e1 e2 w1 w2 w3 H1 He1 H2 He2 H3.
    assert (L1 : (1 < 3)%nat) by lia. assert (L2 : (2 < 3)%nat) by lia.
    rewrite (retrying_again attempt 2 1 w e1 w1 H1 He1 L1) in E.
    rewrite (retrying_again attempt 1 2 _ e2 w2 H2 He2 L2) in E.
    rewrite (retrying_returns attempt 1 3 _ tt w3 H3) in E.
    inversion E. subst. repeat split.
    destruct (download_attempt_Ok md5 _ _ _ _ _ _ _ _ H3)
      as (c & Hc & [[Hm _]|(resp & rest & Hnet & _ & Hraw & _)]).
    + exists c. split; [exact Hc | left; exact Hm].
    + exists c. split; [exact Hc|]. right. eauto.
Qed.

End Claims.

Lemma download_file_skips_intact_file_witness :
  let '(r, w', attempts) :=
    download_file_attempts sample_md5 "TCGA-BRCA" "f-001" "P1-TS1.svs" "P1"
      "raw-4" slides_dir cached_world in
  attempts = [r] /\ r = Ok tt
  /\ requests w' = [] /\ net w' = [Answer good_response]
  /\ fs w' = cached_fs
  /\ log w' = [(INFO, msg_skipping "P1-TS1.svs" "TCGA-BRCA" "P1")].
Proof.
  pose proof (download_file_skips_intact_file sample_md5 "TCGA-BRCA" "f-001"
                "P1-TS1.svs" "P1" "raw-4" slides_dir cached_world
                (Raw slide_bytes) eq_refl eq_refl) as [H _].
  destruct (download_file_attempts sample_md5 "TCGA-BRCA" "f-001" "P1-TS1.svs"
              "P1" "raw-4" slides_dir cached_world) as [[r w'] tr].
  destruct H as (_ & Ha & Hr & Hn & _ & _ & Hd).
  destruct Hd as (Hok & Hfs & Hlog); [reflexivity|].
  repeat split; assumption.
Defined.

Lemma download_file_retry_policy_witness :
  (let '(r, w', attempts) :=
     download_file_attempts sample_md5 "TCGA-BRCA" "f-001" "P1-TS1.svs" "P1"
       "raw-4" slides_dir flaky_world in
   r = Ok tt
   /\ attempts = [Raise ConnectionError; Raise (HTTPError 503); Ok tt]
   /\ exists c, fs w' !! "tcga_data/slides/TCGA-BRCA/P1/P1-TS1.svs" = Some (File c)
        /\ (sample_md5 c = "raw-4" \/ c = Raw slide_bytes))
  /\ (let '(r, w', attempts) :=
        download_file_attempts sample_md5 "TCGA-BRCA" "f-001" "P1-TS1.svs" "P1"
          "raw-4" slides_dir blocked_world in
      1%nat = length attempts
      /\ r = Raise (FileExistsError "tcga_data/slides/TCGA-BRCA/P1")).
Proof.
  pose (attempt := download_attempt sample_md5 "TCGA-BRCA" "f-001" "P1-TS1.svs"
                     "P1" "raw-4" slides_dir).
  split.
  - pose proof (download_file_retry_policy sample_md5 "TCGA-BRCA" "f-001"
                  "P1-TS1.svs" "P1" "raw-4" slides_dir flaky_world) as H.
    destruct (download_file_attempts sample_md5 "TCGA-BRCA" "f-001" "P1-TS1.svs"
                "P1" "raw-4" slides_dir flaky_world) as [[r w'] tr].
    destruct H as (_ & _ & _ & _ & _ & _ & _ & _ & H).
    pose (w1 := snd (attempt flaky_world)).
    pose (w2 := snd (attempt (pause 1 w1))).
    pose (w3 := snd (attempt (pause 2 w2))).
    destruct (H ConnectionError (HTTPError 503) w1 w2 w3)
      as (Hr & Hw & Ha & c & Hc & Hm);
      [vm_compute; reflexivity | reflexivity | vm_compute; reflexivity
      | reflexivity | vm_compute; reflexivity |].
    split; [exact Hr|]. split; [exact Ha|]. exists c. split; [exact Hc|].
    destruct Hm as [Hm|(resp & rest & Hnet & ->)]; [left; exact Hm|].
    right. vm_compute in Hnet. inversion Hnet. reflexivity.
  - pose proof (download_file_retry_policy sample_md5 "TCGA-BRCA" "f-001"
                  "P1-TS1.svs" "P1" "raw-4" slides_dir blocked_world) as H.
    destruct (download_file_attempts sample_md5 "TCGA-BRCA" "f-001" "P1-TS1.svs"
                "P1" "raw-4" slides_dir blocked_world) as [[r w'] tr] eqn:E.
    apply (f_equal (fun x => (fst (fst x), snd x))) in E.
    vm_compute in E. inversion E. subst r tr. clear E.
    destruct H as (_ & _ & _ & H & _).
    apply (H 0%nat (FileExistsError "tcga_data/slides/TCGA-BRCA/P1"));
      reflexivity.
Defined.

(** C3 as stated fails: after two transient failures the third attempt
    returns with whatever body its response carried.  The body is written to
    the target and the call returns after three attempts; the file is present
    but its checksum is not the expected one (lines 132-137 never compute
    it). *)
Lemma download_file_keeps_unverified_body :
  let '(r, w', attempts) :=
    download_file_attempts sample_md5 "TCGA-BRCA" "f-001" "P1-TS1.svs" "P1"
      "raw-4" slides_dir short_world in
  r = Ok tt
  /\ attempts = [Raise ConnectionError; Raise (HTTPError 503); Ok tt]
  /\ fs w' !! "tcga_data/slides/TCGA-BRCA/P1/P1-TS1.svs"
     = Some (File (Raw [x49; x49]))
  /\ sample_md5 (Raw [x49; x49]) <> "raw-4"
  /\ log w' = [(INFO, "Downloading P1-TS1.svs for TCGA-BRCA, patient P1");
               (WARNING, "Retrying download (attempt 1)...");
               (INFO, "Downloading P1-TS1.svs for TCGA-BRCA, patient P1");
               (WARNING, "Retrying download (attempt 2)...");
               (INFO, "Downloading P1-TS1.svs for TCGA-BRCA, patient P1");
               (INFO, "Downloaded P1-TS1.svs for TCGA-BRCA, patient P1")].
Proof.
  vm_compute. repeat split; try reflexivity. discriminate.
Qed.

End DownloadClaims.

Module OrchestratorFacts.
Import Summary Orchestrator DownloadFacts.
Local Open Scope world_scope.

(** *** Writing a report *)

Lemma writerows_content {A} p (row_of : A -> list string) l :
  forall w rows,
    fs w !! p = Some (File (CsvDoc rows)) ->
    exists w', for_each l (fun x => writerow p (row_of x)) w = (Ok tt, w')
               /\ fs w' !! p = Some (File (CsvDoc (rows ++ map row_of l))).
Proof.
  induction l as [|x l IH]; intros w rows Hp; simpl.
  - exists w. rewrite app_nil_r. auto.
  - unfold bind, writerow at 1. rewrite Hp.
    destruct (IH (set_fs (<[p := File (CsvDoc (rows ++ [row_of x]))]> (fs w)) w)
                (rows ++ [row_of x])) as (w' & Hrun & Hfs).
    { simpl. apply lookup_insert_eq. }
    exists w'. rewrite Hrun, Hfs, <- app_assoc. auto.
Qed.

Lemma open_write_lookup p c w w1 :
  open_write p c w = (Ok tt, w1) -> fs w1 !! p = Some (File c).
Proof.
  unfold open_write. destruct (fs w !! p) as [[|c']|].
  - discriminate.
  - intros H. inversion H. simpl. apply lookup_insert_eq.
  - destruct (parent_fault (fs w) p); [discriminate|].
    intros H. inversion H. simpl. apply lookup_insert_eq.
Qed.

(** The cross-project report holds the header and one row per summary,
    whatever the file held before. *)
Lemma generate_all_writes project_summaries w w1 :
  open_write all_projects_csv (CsvDoc []) w = (Ok tt, w1) ->
  exists w2,
    generate_all_projects_summary_csv project_summaries w = (Ok tt, w2)
    /\ fs w2 !! all_projects_csv
       = Some (File (CsvDoc (summary_header :: map summary_row project_summaries))).
Proof.
  intros Hop. unfold generate_all_projects_summary_csv, bind. rewrite Hop.
  apply open_write_lookup in Hop.
  unfold writerow at 1. rewrite Hop.
  match goal with
  | |- context [for_each _ _ ?w0] =>
      destruct (writerows_content all_projects_csv summary_row
                  project_summaries w0 [summary_header])
        as (w' & Hrun & Hfs); [simpl; apply lookup_insert_eq|];
      rewrite Hrun
  end.
  eexists. split; [reflexivity|]. simpl. exact Hfs.
Qed.

(** *** The loop and its outcomes *)

Section Loop.
Variable rt : runtime.
Variable download_type : string.
Variable patient_id_list : option (list string).

Lemma project_loop_step project_id rest acc w :
  project_loop rt download_type patient_id_list (project_id :: rest) acc w =
  match project_step rt download_type patient_id_list project_id w with
  | (NoDirectories e, w1) => (Raise e, w1)
  | (Failed _, w1) => project_loop rt download_type patient_id_list rest acc w1
  | (Summarised s, w1) =>
      project_loop rt download_type patient_id_list rest (acc ++ [s]) w1
  end.
Proof.
  unfold project_step. simpl. unfold bind at 1 2 3. unfold bind at 3. simpl.
  destruct (create_directories project_id download_type _) as [[dirs|e] w1];
    [|reflexivity].
  unfold try_except, bind at 1.
  destruct (process_project rt download_type patient_id_list project_id
              (fst dirs) (snd dirs) w1) as [[s|e] w2]; reflexivity.
Qed.

(** The loop returns the summaries of the projects whose [try] block did
    not raise, after those it was given; it raises only when directories
    cannot be made. *)
Lemma project_loop_outcomes project_list :
  forall acc w,
    let '(trace, w1) := outcomes rt download_type patient_id_list project_list w in
    project_loop rt download_type patient_id_list project_list acc w =
    match last trace with
    | Some (_, NoDirectories e) => (Raise e, w1)
    | _ => (Ok (acc ++ summaries trace), w1)
    end.
Proof.
  induction project_list as [|project_id rest IH]; intros acc w.
  - simpl. rewrite app_nil_r. reflexivity.
  - rewrite project_loop_step. simpl.
    destruct (project_step rt download_type patient_id_list project_id w)
      as [[e|e|s] w1]; [reflexivity| |].
    + specialize (IH acc w1).
      destruct (outcomes rt download_type patient_id_list rest w1) as [trace w2].
      rewrite IH. destruct trace as [|po trace]; reflexivity.
    + specialize (IH (acc ++ [s]) w1).
      destruct (outcomes rt download_type patient_id_list rest w1) as [trace w2].
      rewrite IH. unfold summaries. simpl. rewrite <- app_assoc.
      destruct trace as [|po trace]; reflexivity.
Qed.

Lemma outcomes_visit_all project_list :
  forall w,
    let '(trace, _) := outcomes rt download_type patient_id_list project_list w in
    (forall p e, ~ In (p, NoDirectories e) trace) ->
    map fst trace = project_list.
Proof.
  induction project_list as [|project_id rest IH]; intros w;
    [intros _; reflexivity|].
  simpl.
  destruct (project_step rt download_type patient_id_list project_id w)
    as [[e|e|s] w1].
  - intros H. exfalso. apply (H project_id e). left. reflexivity.
  - specialize (IH w1).
    destruct (outcomes rt download_type patient_id_list rest w1) as [trace w2].
    intros H. simpl. f_equal. apply IH. intros p e' Hin. apply (H p e'). right. exact Hin.
  - specialize (IH w1).
    destruct (outcomes rt download_type patient_id_list rest w1) as [trace w2].
    intros H. simpl. f_equal. apply IH. intros p e' Hin. apply (H p e'). right. exact Hin.
Qed.

End Loop.

(** *** The steps ahead of the loop *)

Lemma get_all_projects_frame w :
  let '(_, w1) := get_all_projects w in
  fs w1 = fs w /\ requests w1 = requests w ++ [ProjectsQuery].
Proof.
  unfold get_all_projects, try_except, bind, Download.requests_get_full, bind,
    requests_get, raise_for_status, response_json, lift, emit, raise, ret.
  simpl.
  destruct (net w) as [|[e|r] rest]; simpl; auto.
  destruct (cut r); simpl; auto.
  destruct (_ && _); simpl; auto.
  destruct (json_body r) as [doc|]; simpl; auto.
  destruct (project_ids doc); simpl; auto.
Qed.

Lemma select_projects_frame projects all_projects w :
  snd (select_projects projects all_projects w) = w.
Proof.
  unfold select_projects. destruct (_ =? "all"); [reflexivity|].
  destruct (List.filter _ _); reflexivity.
Qed.

Lemma column_index_missing name columns :
  ~ In name columns -> column_index name columns = None.
Proof.
  induction columns as [|c columns IH]; simpl; intros H; [reflexivity|].
  destruct (c =? name) eqn:E.
  - apply String.eqb_eq in E. tauto.
  - rewrite IH; [reflexivity | tauto].
Qed.

Lemma load_patient_ids_missing_column p header rows w :
  p <> "" -> ends_with ".csv" p = true ->
  fs w !! p = Some (File (CsvDoc (header :: rows))) ->
  ~ In "Patient ID" header ->
  load_patient_ids (Some p) w =
  (Raise (ValueError ("Failed to read CSV file " ++ p ++ ": CSV file " ++ p
                      ++ " must contain a 'Patient ID' column")), w).
Proof.
  intros Hp Hcsv Hf Hcol. unfold load_patient_ids, Grouping.truthy_str.
  destruct (p =? "") eqn:E; [apply String.eqb_eq in E; contradiction|].
  rewrite Hcsv. change (negb false) with true. cbv iota.
  unfold try_except, read_csv, bind, read_file. rewrite Hf. simpl.
  rewrite (column_index_missing _ _ Hcol). reflexivity.
Qed.

End OrchestratorFacts.

Module OrchestratorClaims.
Import Summary Orchestrator OrchestratorFacts Samples DownloadSamples
  OrchestratorSamples.
Local Open Scope world_scope.

(** C4, as the code has it.  When the patient-ids argument names a table
    that lacks the "Patient ID" column, the run ends with an exception,
    writes no file, and issues no manifest query and no download: the only
    request it can have issued is the project-list query, which comes first.
    When the slide type is valid, that query succeeds and the project
    selection is valid, the exception is the [ValueError] that names the
    missing column. *)
Theorem missing_column_aborts_after_project_query
    (rt : runtime) (download_type projects p : string)
    (header : list string) (rows : list (list string)) (w : world) :
  p <> "" ->
  ends_with ".csv" p = true ->
  fs w !! p = Some (File (CsvDoc (header :: rows))) ->
  ~ In "Patient ID" header ->
  let '(r, w') := download_tcga_slides rt download_type projects (Some p) w in
  (exists e, r = Raise e)
  /\ fs w' = fs w
  /\ (requests w' = requests w \/ requests w' = requests w ++ [ProjectsQuery])
  /\ (forall all_projects w1 project_list w2,
        Grouping.str_in download_type ["tissue"; "diagnostic"; "both"; "none"] = true ->
        get_all_projects w = (Ok all_projects, w1) ->
        select_projects projects all_projects w1 = (Ok project_list, w2) ->
        r = Raise (ValueError ("Failed to read CSV file " ++ p ++ ": CSV file "
                               ++ p ++ " must contain a 'Patient ID' column"))
        /\ requests w' = requests w ++ [ProjectsQuery]).
Proof.
  intros Hp Hcsv Hf Hcol. unfold download_tcga_slides.
  destruct (Grouping.str_in download_type _) eqn:Hdt;
    [change (negb true) with false | change (negb false) with true]; cbv iota.
  2:{ unfold raise. split; [eauto|]. split; [reflexivity|]. split; [left; reflexivity|].
      intros ? ? ? ? H. discriminate H. }
  unfold bind at 1.
  pose proof (get_all_projects_frame w) as Hget.
  destruct (get_all_projects w) as [[all_projects|e] w1].
  2:{ destruct Hget as [Hfs Hrq]. split; [eauto|]. split; [exact Hfs|].
      split; [right; exact Hrq|]. intros ? ? ? ? _ H. discriminate H. }
  destruct Hget as [Hfs Hrq]. unfold bind at 1.
  pose proof (select_projects_frame projects all_projects w1) as Hsel.
  destruct (select_projects projects all_projects w1) as [[project_list|e] w2]
    eqn:E; simpl in Hsel; subst w2.
  2:{ split; [eauto|]. split; [exact Hfs|]. split; [right; exact Hrq|].
      intros ? ? ? ? _ H1 H2. inversion H1; subst. rewrite E in H2.
      discriminate H2. }
  unfold bind at 1.
  rewrite (load_patient_ids_missing_column p header rows w1 Hp Hcsv
             ltac:(rewrite Hfs; exact Hf) Hcol).
  split; [eauto|]. split; [exact Hfs|]. split; [right; exact Hrq|].
  intros all' w1' pl' w2' _ H1 H2. split; [reflexivity | exact Hrq].
Qed.

Lemma missing_column_aborts_after_project_query_witness :
  let '(r, w') :=
    download_tcga_slides runtime_a "both" "all" (Some "patients.csv") table_world in
  r = Raise (ValueError "Failed to read CSV file patients.csv: CSV file patients.csv must contain a 'Patient ID' column")
  /\ requests w' = [ProjectsQuery]
  /\ fs w' = table_fs.
Proof.
  assert (Hcol : ~ In "Patient ID" ["Name"; "Age"])
    by (intros [H|[H|[]]]; discriminate).
  pose proof (missing_column_aborts_after_project_query runtime_a "both" "all"
                "patients.csv" ["Name"; "Age"] [["P1"; "61"]] table_world
                ltac:(discriminate) eq_refl eq_refl Hcol) as H.
  destruct (download_tcga_slides runtime_a "both" "all" (Some "patients.csv")
              table_world) as [r w'].
  destruct H as (_ & Hfs & _ & H).
  edestruct H as [Hr Hrq]; [reflexivity | vm_compute; reflexivity
                           | vm_compute; reflexivity |].
  auto.
Defined.

(** C4 as stated fails: the project-list query has been issued by the time
    the table is read, and when that query fails the run ends with the
    network error, the table never being looked at. *)
Lemma missing_column_checked_after_catalog_query :
  (let '(r, w') :=
     download_tcga_slides runtime_a "both" "all" (Some "patients.csv") table_world in
   r = Raise (ValueError "Failed to read CSV file patients.csv: CSV file patients.csv must contain a 'Patient ID' column")
   /\ requests w' = [ProjectsQuery])
  /\ (let '(r, w') :=
        download_tcga_slides runtime_a "both" "all" (Some "patients.csv")
          offline_table_world in
      r = Raise ConnectionError /\ requests w' = [ProjectsQuery]).
Proof. split; vm_compute; split; reflexivity. Qed.

(** C5, as the code has it.  Let the loop visit the projects.  If the
    directories of every project can be made, every project is visited, in
    order; a project whose [try] block raises adds no summary and the loop
    goes on with the next project; the loop hands over exactly the summaries
    of the projects whose block did not raise; and when the cross-project
    report can be opened for writing, the run ends normally with the report
    holding the header and one row for each of these summaries. *)
Theorem per_project_isolation
    (rt : runtime) (download_type : string)
    (patient_id_list : option (list string)) (project_list : list string)
    (w : world) :
  let '(trace, w1) := outcomes rt download_type patient_id_list project_list w in
  (forall p e, ~ In (p, NoDirectories e) trace) ->
  map fst trace = project_list
  /\ (forall project_id rest acc w0 e w0',
        project_step rt download_type patient_id_list project_id w0 = (Failed e, w0') ->
        project_loop rt download_type patient_id_list (project_id :: rest) acc w0
        = project_loop rt download_type patient_id_list rest acc w0')
  /\ project_loop rt download_type patient_id_list project_list [] w
     = (Ok (summaries trace), w1)
  /\ (forall w2,
        open_write all_projects_csv (CsvDoc []) w1 = (Ok tt, w2) ->
        exists w3,
          process_projects rt download_type patient_id_list project_list w
          = (Ok tt, w3)
          /\ fs w3 !! all_projects_csv
             = Some (File (CsvDoc (summary_header
                                   :: map summary_row (summaries trace))))).
Proof.
  pose proof (project_loop_outcomes rt download_type patient_id_list
                project_list [] w) as Hloop.
  pose proof (outcomes_visit_all rt download_type patient_id_list
                project_list w) as Hall.
  destruct (outcomes rt download_type patient_id_list project_list w)
    as [trace w1].
  intros Hdirs.
  assert (Hrun : project_loop rt download_type patient_id_list project_list [] w
                 = (Ok (summaries trace), w1)).
  { rewrite Hloop. destruct (last trace) as [[p [e|e|s]]|] eqn:Hl; try reflexivity.
    exfalso. apply (Hdirs p e). apply list_elem_of_In. rewrite last_lookup in Hl.
    eapply list_elem_of_lookup_2; eauto. }
  split; [apply Hall, Hdirs|]. split; [|split; [exact Hrun|]].
  - intros project_id rest acc w0 e w0' Hstep.
    rewrite project_loop_step, Hstep. reflexivity.
  - intros w2 Hop.
    destruct (generate_all_writes (summaries trace) w1 w2 Hop) as (w3 & Hgen & Hfs).
    exists w3. split; [|exact Hfs].
    unfold process_projects, bind. rewrite Hrun. exact Hgen.
Qed.

Lemma per_project_isolation_witness :
  exists w3,
    process_projects runtime_a "none" None ["TCGA-BRCA"; "TCGA-LUAD"]
      one_failing_world = (Ok tt, w3)
    /\ fs w3 !! all_projects_csv
       = Some (File (CsvDoc [summary_header;
                             ["TCGA-LUAD"; "2"; "3"; "2"; "1"; "3.50"; "SVS, TIFF"]])).
Proof.
  pose proof (per_project_isolation runtime_a "none" None
                ["TCGA-BRCA"; "TCGA-LUAD"] one_failing_world) as H.
  destruct (outcomes runtime_a "none" None ["TCGA-BRCA"; "TCGA-LUAD"]
              one_failing_world) as [trace w1] eqn:E.
  pose proof (f_equal fst E) as Et. pose proof (f_equal snd E) as Ew.
  simpl in Et, Ew. clear E. vm_compute in Et. subst trace w1.
  destruct H as (_ & _ & _ & H).
  { intros p e [Hin|[Hin|[]]]; discriminate. }
  destruct (H (snd (open_write all_projects_csv (CsvDoc [])
                      (snd (outcomes runtime_a "none" None
                              ["TCGA-BRCA"; "TCGA-LUAD"] one_failing_world)))))
    as (w3 & Hrun & Hfs); [vm_compute; reflexivity|].
  exists w3. split; [exact Hrun|]. rewrite Hfs. reflexivity.
Defined.

(** C5 as stated fails: when the directories of a project cannot be made the
    exception leaves the loop, the remaining projects are not processed and
    no report is written; and a report path that cannot be opened ends the
    run without a report. *)
Lemma directory_failure_ends_run :
  (let '(r, w') :=
     process_projects runtime_a "none" None ["TCGA-BRCA"; "TCGA-LUAD"]
       no_metadata_world in
   r = Raise (NotADirectoryError "tcga_data/metadata/TCGA-BRCA")
   /\ requests w' = []
   /\ fs w' !! all_projects_csv = None)
  /\ (let '(r, w') :=
        process_projects runtime_a "none" None ["TCGA-BRCA"] no_report_world in
      r = Raise (IsADirectoryError "tcga_data/all_tcga_projects_summary.csv")
      /\ fs w' !! all_projects_csv = Some Dir).
Proof. split; vm_compute; repeat split; reflexivity. Qed.

Lemma first_seen_is_set_order : is_set_order first_seen.
Proof.
  intros l. unfold first_seen. split.
  - apply NoDup_ListNoDup, List.NoDup_rev, List.NoDup_nodup.
  - intros x. rewrite <- List.in_rev, List.nodup_In, <- List.in_rev. reflexivity.
Qed.

Lemma last_seen_is_set_order : is_set_order last_seen.
Proof.
  intros l. unfold last_seen. split.
  - apply NoDup_ListNoDup, List.NoDup_nodup.
  - intros x. rewrite List.nodup_In, <- List.in_rev. reflexivity.
Qed.

(** C8, evaluated.  On one project id and one patient group with slides of
    two formats, [generate_project_summary_csv] writes and returns a
    different "File Formats" field under two runtimes that differ only in
    the order in which they iterate a set: the field is joined from the
    set in iteration order, unsorted.  Everything else in the two reports
    is equal. *)
Theorem formats_field_follows_set_order :
  is_set_order (set_order runtime_a) /\ is_set_order (set_order runtime_b)
  /\ md5 runtime_a = md5 runtime_b
  /\ (let '(r, w') :=
        generate_project_summary_csv runtime_a "TCGA-BRCA" two_formats base_world in
      r = Ok (mk_summary "TCGA-BRCA" 2 2 2 0 1572864 "SVS, TIFF")
      /\ fs w' !! "tcga_data/TCGA-BRCA_summary.csv"
         = Some (File (CsvDoc
             [summary_header;
              ["TCGA-BRCA"; "2"; "2"; "2"; "0"; "1.50"; "SVS, TIFF"];
              [];
              patient_header;
              ["P1"; "1"; "1"; "0"; "1.00"];
              ["P2"; "1"; "1"; "0"; "0.50"]])))
  /\ (let '(r, w') :=
        generate_project_summary_csv runtime_b "TCGA-BRCA" two_formats base_world in
      r = Ok (mk_summary "TCGA-BRCA" 2 2 2 0 1572864 "TIFF, SVS")
      /\ fs w' !! "tcga_data/TCGA-BRCA_summary.csv"
         = Some (File (CsvDoc
             [summary_header;
              ["TCGA-BRCA"; "2"; "2"; "2"; "0"; "1.50"; "TIFF, SVS"];
              [];
              patient_header;
              ["P1"; "1"; "1"; "0"; "1.00"];
              ["P2"; "1"; "1"; "0"; "0.50"]]))).
Proof.
  split; [exact first_seen_is_set_order|].
  split; [exact last_seen_is_set_order|].
  split; [reflexivity|].
  split; vm_compute; split; reflexivity.
Qed.

(** The cross-project report is a function of the summaries alone: from any
    two worlds in which its file can be opened, the same rows are written. *)
Lemma generate_all_projects_summary_csv_deterministic
    (project_summaries : list project_summary) (wa wb wa1 wb1 : world) :
  open_write all_projects_csv (CsvDoc []) wa = (Ok tt, wa1) ->
  open_write all_projects_csv (CsvDoc []) wb = (Ok tt, wb1) ->
  fst (generate_all_projects_summary_csv project_summaries wa) = Ok tt
  /\ fst (generate_all_projects_summary_csv project_summaries wb) = Ok tt
  /\ fs (snd (generate_all_projects_summary_csv project_summaries wa))
       !! all_projects_csv
     = fs (snd (generate_all_projects_summary_csv project_summaries wb))
       !! all_projects_csv.
Proof.
  intros Ha Hb.
  destruct (generate_all_writes project_summaries wa wa1 Ha) as (wa2 & Ea & Fa).
  destruct (generate_all_writes project_summaries wb wb1 Hb) as (wb2 & Eb & Fb).
  rewrite Ea, Eb. simpl. rewrite Fa, Fb. auto.
Qed.

End OrchestratorClaims.

(* ================================================================== *)
(** * Further properties of the code *)
(* ================================================================== *)

Module GroupingOrderFacts.
Import Grouping GroupingFacts GroupingOrder Samples.

Lemma first_occurrences_In k l : In k (first_occurrences l) <-> In k l.
Proof.
  induction l as [|x l IH]; simpl; [tauto|].
  rewrite List.filter_In, IH, negb_true_iff, String.eqb_neq.
  destruct (string_dec x k) as [->|Hne]; [tauto|].
  split; [tauto|]. intros [H|H]; [tauto|]. right. split; [exact H | congruence].
Qed.

Lemma first_occurrences_snoc l k :
  first_occurrences (l ++ [k]) =
  if str_in k l then first_occurrences l else first_occurrences l ++ [k].
Proof.
  induction l as [|x l IH]; simpl; [reflexivity|].
  rewrite IH. destruct (x =? k) eqn:E; simpl.
  - apply String.eqb_eq in E. subst x.
    destruct (str_in k l); [reflexivity|].
    rewrite List.filter_app. simpl. rewrite String.eqb_refl. simpl.
    rewrite app_nil_r. reflexivity.
  - destruct (str_in k l); [reflexivity|].
    rewrite List.filter_app. simpl. rewrite String.eqb_sym, E. reflexivity.
Qed.

Lemma str_in_first_occurrences k l :
  str_in k (first_occurrences l) = str_in k l.
Proof.
  destruct (str_in k l) eqn:E.
  - apply (proj2 (str_in_In _ _)), (proj2 (first_occurrences_In k l)),
      (proj1 (str_in_In k l)), E.
  - destruct (str_in k (first_occurrences l)) eqn:E'; [|reflexivity].
    apply (proj1 (str_in_In _ _)) in E'.
    apply (proj1 (first_occurrences_In k l)) in E'.
    apply (proj2 (str_in_In k l)) in E'. congruence.
Qed.

Section Order.
Variable download_type : string.
Variable patient_ids : option (list string).

Lemma admitted_identifiers_snoc done file :
  admitted_identifiers download_type patient_ids (done ++ [file]) =
  admitted_identifiers download_type patient_ids done ++
  (if admits download_type patient_ids file then
     match resolve_identifier file with
     | Ok k => [k]
     | Raise _ => []
     end
   else []).
Proof.
  unfold admitted_identifiers. rewrite flat_map_app. simpl.
  rewrite app_nil_r. reflexivity.
Qed.

Lemma group_loop_key_order rest :
  forall d done g,
    map fst d = first_occurrences (admitted_identifiers download_type patient_ids done) ->
    group_loop rest download_type patient_ids d = Ok g ->
    map fst g =
    first_occurrences (admitted_identifiers download_type patient_ids (done ++ rest)).
Proof.
  induction rest as [|file rest IH]; intros d done g Hd Hrun.
  - simpl in Hrun. inversion Hrun. subst. rewrite app_nil_r. exact Hd.
  - rewrite group_loop_step in Hrun.
    replace (done ++ file :: rest) with ((done ++ [file]) ++ rest)
      by (rewrite <- app_assoc; reflexivity).
    destruct (passes_type download_type file) eqn:Hp.
    + destruct (resolve_identifier file) as [k|e] eqn:Hk; [|discriminate].
      destruct (admits download_type patient_ids file) eqn:Ha.
      * eapply IH; [|exact Hrun].
        rewrite admitted_identifiers_snoc, Ha, Hk.
        rewrite first_occurrences_snoc, dd_append_keys, Hd,
          str_in_first_occurrences. reflexivity.
      * eapply IH; [|exact Hrun].
        rewrite admitted_identifiers_snoc, Ha, app_nil_r. exact Hd.
    + eapply IH; [|exact Hrun].
      assert (Ha : admits download_type patient_ids file = false)
        by (unfold admits; rewrite Hp; reflexivity).
      rewrite admitted_identifiers_snoc, Ha, app_nil_r. exact Hd.
Qed.

End Order.

(** X1. The groups of [group_by_patient] come in the order in which their
    identifiers are first met among the admitted records: the keys of the
    dictionary are the identifiers of the admitted records, each at its first
    occurrence. *)
Theorem group_by_patient_key_order
    (files : list file_record) (download_type : string)
    (patient_ids : option (list string)) (g : patient_groups) :
  group_by_patient files download_type patient_ids = Ok g ->
  map fst g =
  first_occurrences (admitted_identifiers download_type patient_ids files).
Proof.
  intros H.
  apply (group_loop_key_order download_type patient_ids files [] [] g
           eq_refl H).
Qed.

Lemma group_by_patient_key_order_witness :
  map fst [("P2", [tissue_P2]); ("P1", [tissue_P1; diagnostic_P1]);
           ("TCGA-A3-0003", [by_submitter])]
  = first_occurrences
      (admitted_identifiers "both" None
         [tissue_P2; tissue_P1; by_submitter; diagnostic_P1]).
Proof.
  apply (group_by_patient_key_order
           [tissue_P2; tissue_P1; by_submitter; diagnostic_P1] "both" None).
  reflexivity.
Defined.

End GroupingOrderFacts.

Module SummaryFacts.
Import Summary SummarySpec DownloadFacts.
Local Open Scope world_scope.

(** *** Counting and summing over the slides *)

Lemma size_bytes_from (l : list Z) (z : Z) :
  fold_left Z.add l z = (z + fold_left Z.add l 0)%Z.
Proof.
  revert z. induction l as [|x l IH]; intros z; simpl; [lia|].
  rewrite (IH (z + x)%Z), (IH (0 + x)%Z). lia.
Qed.

Lemma size_bytes_app a b :
  size_bytes (a ++ b) = (size_bytes a + size_bytes b)%Z.
Proof.
  unfold size_bytes. rewrite map_app, fold_left_app.
  apply size_bytes_from.
Qed.

Lemma count_strategy_app name a b :
  count_strategy name (a ++ b) = (count_strategy name a + count_strategy name b)%nat.
Proof.
  unfold count_strategy. rewrite List.filter_app, length_app. reflexivity.
Qed.

(** Records that are neither tissue nor diagnostic slides. *)
Lemma count_strategy_split slides :
  length slides =
  (count_strategy "Tissue Slide" slides + count_strategy "Diagnostic Slide" slides
   + length (List.filter other_slide slides))%nat.
Proof.
  unfold count_strategy, other_slide. induction slides as [|f slides IH]; simpl; [reflexivity|].
  destruct (experimental_strategy f) as [s|]; simpl.
  - destruct (s =? "Tissue Slide") eqn:Et; simpl.
    + apply String.eqb_eq in Et. subst s. simpl. lia.
    + destruct (s =? "Diagnostic Slide"); simpl; lia.
  - lia.
Qed.

(** X2. The totals of a project are the sums of its patients' values: the
    number of slides, the tissue and diagnostic counts and the size in bytes
    over all slides of the project are the sums of the same quantities over
    the slides of each patient, a missing ["file_size"] counting as 0. *)
Theorem project_totals_are_patient_sums (patient_slides : patient_groups) :
  let all_slides := concat (map snd patient_slides) in
  length all_slides
  = fold_right (fun item n => (length (snd item) + n)%nat) O patient_slides
  /\ (forall name,
        count_strategy name all_slides
        = fold_right (fun item n => (count_strategy name (snd item) + n)%nat) O
            patient_slides)
  /\ size_bytes all_slides
     = fold_right (fun item z => (size_bytes (snd item) + z)%Z) 0%Z patient_slides
  /\ (forall file, file_size file = None -> forall slides,
        size_bytes (file :: slides) = size_bytes slides).
Proof.
  simpl. split; [|split; [|split]].
  - induction patient_slides as [|[k l] d IH]; simpl; [reflexivity|].
    rewrite length_app, IH. reflexivity.
  - intros name. induction patient_slides as [|[k l] d IH]; simpl; [reflexivity|].
    rewrite count_strategy_app, IH. reflexivity.
  - induction patient_slides as [|[k l] d IH]; simpl; [reflexivity|].
    rewrite size_bytes_app, IH. reflexivity.
  - intros file Hf slides. change (file :: slides) with ([file] ++ slides).
    rewrite size_bytes_app. unfold size_bytes at 1. simpl. rewrite Hf. reflexivity.
Qed.

(** *** Rounding *)

Lemma round_half_even_error n d :
  (0 <= n)%Z -> (0 < d)%Z ->
  (2 * Z.abs (round_half_even n d * d - n) <= d)%Z.
Proof.
  intros Hn Hd. unfold round_half_even.
  pose proof (Z.div_mod n d ltac:(lia)) as Hdm.
  pose proof (Z.mod_pos_bound n d Hd) as Hmod.
  set (q := (n / d)%Z) in *. set (r := (n mod d)%Z) in *.
  clearbody q r. subst n.
  destruct ((2 * r >? d)%Z) eqn:E1; simpl.
  - apply Z.gtb_lt in E1.
    replace ((q + 1) * d - (d * q + r))%Z with (d - r)%Z by ring. lia.
  - rewrite Z.gtb_ltb in E1. apply Z.ltb_ge in E1.
    destruct ((2 * r =? d)%Z && Z.odd q) eqn:E2.
    + apply andb_true_iff in E2. destruct E2 as [E2 _]. apply Z.eqb_eq in E2.
      replace ((q + 1) * d - (d * q + r))%Z with (d - r)%Z by ring. lia.
    + replace (q * d - (d * q + r))%Z with (- r)%Z by ring. lia.
Qed.

Lemma to_53_bits_exact n :
  (0 <= n < 2 ^ 53)%Z -> to_53_bits n = n.
Proof.
  intros Hn. unfold to_53_bits.
  assert (H : (Z.log2 n - 52 <=? 0)%Z = true).
  { apply Z.leb_le. destruct (Z.eq_dec n 0%Z) as [->|Hne]; [simpl; lia|].
    assert (Z.log2 n < 53)%Z by (apply Z.log2_lt_pow2; lia). lia. }
  rewrite H. reflexivity.
Qed.

(** *** The project report *)

Lemma writerow_frame p row w :
  let '(r, w') := writerow p row w in
  r = Ok tt /\ net w' = net w /\ requests w' = requests w /\ log w' = log w
  /\ slept w' = slept w
  /\ (forall q, q <> p -> fs w' !! q = fs w !! q).
Proof.
  unfold writerow. destruct (fs w !! p) as [[|[d|d|d]]|]; simpl;
    repeat split; auto; intros q Hq; apply lookup_insert_ne; congruence.
Qed.

Lemma open_write_frame p c w w1 :
  open_write p c w = (Ok tt, w1) ->
  fs w1 !! p = Some (File c) /\ net w1 = net w /\ requests w1 = requests w
  /\ log w1 = log w
  /\ (forall q, q <> p -> fs w1 !! q = fs w !! q).
Proof.
  unfold open_write. destruct (fs w !! p) as [[|c']|].
  - discriminate.
  - intros H. inversion H. simpl. split; [apply lookup_insert_eq|].
    repeat split; auto. intros q Hq. apply lookup_insert_ne. congruence.
  - destruct (parent_fault (fs w) p); [discriminate|].
    intros H. inversion H. simpl. split; [apply lookup_insert_eq|].
    repeat split; auto. intros q Hq. apply lookup_insert_ne. congruence.
Qed.

Lemma writerow_content p row w rows :
  fs w !! p = Some (File (CsvDoc rows)) ->
  fs (snd (writerow p row w)) !! p = Some (File (CsvDoc (rows ++ [row]))).
Proof.
  intros H. unfold writerow. rewrite H. simpl. apply lookup_insert_eq.
Qed.

(** The loop over the patients: when it returns, every row could be made and
    the rows were added in order. *)
Lemma write_patient_rows p items :
  forall w rows0 w',
    fs w !! p = Some (File (CsvDoc rows0)) ->
    for_each items
      (fun item =>
         let* row := lift (patient_row (fst item) (snd item)) in
         writerow p row) w = (Ok tt, w') ->
    exists rows,
      Forall2 (fun item row => patient_row (fst item) (snd item) = Ok row)
        items rows
      /\ fs w' !! p = Some (File (CsvDoc (rows0 ++ rows)))
      /\ requests w' = requests w /\ net w' = net w /\ log w' = log w
      /\ (forall q, q <> p -> fs w' !! q = fs w !! q).
Proof.
  induction items as [|item items IH]; intros w rows0 w' Hp Hrun; simpl in Hrun.
  - inversion Hrun. subst. exists []. rewrite app_nil_r.
    repeat split; auto.
  - apply bind_Ok_inv in Hrun. destruct Hrun as ([] & w1 & Hrow & Hrest).
    apply bind_Ok_inv in Hrow. destruct Hrow as (row & w0 & Hmk & Hwr).
    destruct (patient_row (fst item) (snd item)) as [row'|e] eqn:Hpr;
      [|discriminate].
    inversion Hmk. subst row' w0. clear Hmk.
    pose proof (writerow_frame p row w) as Hfr.
    pose proof (writerow_content p row w rows0 Hp) as Hc.
    rewrite Hwr in Hfr, Hc. simpl in Hc.
    destruct Hfr as (_ & Hn & Hr & Hl & _ & Hq).
    destruct (IH w1 (rows0 ++ [row]) w' Hc Hrest)
      as (rows & Hall & Hfs & Hr' & Hn' & Hl' & Hq').
    exists (row :: rows). split; [constructor; assumption|].
    rewrite <- app_assoc in Hfs. split; [exact Hfs|].
    repeat split; try congruence.
    intros q Hne. rewrite Hq', Hq; auto.
Qed.

Lemma emit_inv lv msg w w' :
  emit lv msg w = (Ok tt, w') ->
  fs w' = fs w /\ requests w' = requests w /\ net w' = net w.
Proof. intros H. inversion H. auto. Qed.

(** What a returning [generate_project_summary_csv] has computed, written
    and left alone. *)
Lemma generate_project_summary_csv_Ok rt project_id patient_slides w s w' :
  generate_project_summary_csv rt project_id patient_slides w = (Ok s, w') ->
  let all_slides := concat (map snd patient_slides) in
  let formats :=
    String.concat ", "
      (set_order rt
         (map (fun file => match data_format file with
                           | Some f => f
                           | None => "Unknown"
                           end) all_slides)) in
  let csv_path := path_join BASE_DIR (project_id ++ "_summary.csv") in
  exists total_size_mb rows,
    true_div_mb (size_bytes all_slides) = Ok total_size_mb
    /\ s = mk_summary project_id (length patient_slides) (length all_slides)
             (count_strategy "Tissue Slide" all_slides)
             (count_strategy "Diagnostic Slide" all_slides)
             total_size_mb formats
    /\ Forall2 (fun item row => patient_row (fst item) (snd item) = Ok row)
         (sorted_items patient_slides) rows
    /\ fs w' !! csv_path
       = Some (File (CsvDoc
           ([summary_header;
             [project_id; str_nat (length patient_slides);
              str_nat (length all_slides);
              str_nat (count_strategy "Tissue Slide" all_slides);
              str_nat (count_strategy "Diagnostic Slide" all_slides);
              format_2f total_size_mb; formats];
             [];
             patient_header] ++ rows)))
    /\ requests w' = requests w /\ net w' = net w
    /\ (forall q, q <> csv_path -> fs w' !! q = fs w !! q).
Proof.
  intros H. simpl. unfold generate_project_summary_csv in H.
  apply bind_Ok_inv in H. destruct H as (m & w0 & Hm & H).
  destruct (true_div_mb _) as [m'|e] eqn:Hdiv; [|discriminate].
  inversion Hm. subst m' w0. clear Hm.
  apply bind_Ok_inv in H. destruct H as ([] & w1 & Hop & H).
  apply open_write_frame in Hop. destruct Hop as (Hf1 & Hn1 & Hr1 & _ & Hq1).
  set (p := path_join BASE_DIR (project_id ++ "_summary.csv")) in *.
  repeat match type of H with
  | bind (writerow p ?row) _ ?w0 = _ =>
      let Hfr := fresh "Hfr" in
      let Hc := fresh "Hc" in
      pose proof (writerow_frame p row w0) as Hfr;
      pose proof (writerow_content p row w0) as Hc;
      apply bind_Ok_inv in H;
      let w2 := fresh "w" in
      let Hw := fresh "Hw" in
      destruct H as ([] & w2 & Hw & H);
      rewrite Hw in Hfr, Hc; simpl in Hc
  end.
  specialize (Hc _ Hf1). specialize (Hc0 _ Hc). specialize (Hc1 _ Hc0).
  specialize (Hc2 _ Hc1). simpl in Hc2.
  apply bind_Ok_inv in H. destruct H as ([] & w6 & Hrows & H).
  destruct (write_patient_rows p _ _ _ _ Hc2 Hrows)
    as (rows & Hall & Hfs & Hr6 & Hn6 & _ & Hq6).
  repeat (apply bind_Ok_inv in H;
          let w2 := fresh "w" in
          let He := fresh "He" in
          destruct H as ([] & w2 & He & H);
          apply emit_inv in He; destruct He as (? & ? & ?)).
  inversion H. subst s w'. clear H.
  exists m, rows. split; [reflexivity|]. split; [reflexivity|].
  split; [exact Hall|].
  destruct Hfr as (_ & ? & ? & _ & _ & ?). destruct Hfr0 as (_ & ? & ? & _ & _ & ?).
  destruct Hfr1 as (_ & ? & ? & _ & _ & ?). destruct Hfr2 as (_ & ? & ? & _ & _ & ?).
  split; [|split; [|split]].
  - repeat match goal with Hx : fs ?a = fs ?b |- _ => rewrite Hx; clear Hx end.
    exact Hfs.
  - congruence.
  - congruence.
  - intros q Hq.
    repeat match goal with Hx : fs ?a = fs ?b |- _ => rewrite Hx; clear Hx end.
    rewrite Hq6 by exact Hq.
    repeat match goal with
           | Hx : forall q, q <> p -> fs _ !! q = fs _ !! q |- _ =>
               rewrite (Hx q Hq); clear Hx
           end.
    reflexivity.
Qed.

Lemma true_div_mb_exact total :
  (0 <= total < 2 ^ 53)%Z -> true_div_mb total = Ok total.
Proof.
  intros Hn. pose proof (proj1 Hn) as H0. unfold true_div_mb.
  rewrite (Z.abs_eq total H0), (to_53_bits_exact total Hn).
  assert (Hs : (Z.sgn total * total = total)%Z).
  { destruct (Z.eq_dec total 0%Z) as [->|Hne]; [reflexivity|].
    rewrite Z.sgn_pos by lia. apply Z.mul_1_l. }
  rewrite Hs.
  assert (Hb : (2 ^ 1044 <=? Z.abs total)%Z = false).
  { apply Z.leb_gt. rewrite (Z.abs_eq total H0).
    eapply Z.lt_trans; [apply Hn|]. apply Z.pow_lt_mono_r; lia. }
  rewrite Hb. reflexivity.
Qed.

Lemma round_half_even_nonneg n d :
  (0 <= n)%Z -> (0 < d)%Z -> (0 <= round_half_even n d)%Z.
Proof.
  intros Hn Hd. unfold round_half_even.
  pose proof (Z.div_pos n d Hn Hd).
  destruct (_ || _); lia.
Qed.

(** *** Reading a figure back *)

Lemma at_point_digits d t :
  at_point (NilEmpty.string_of_uint d ++ String "." t)%string
  = Some (NilEmpty.string_of_uint d, t).
Proof.
  induction d as [|d IH|d IH|d IH|d IH|d IH|d IH|d IH|d IH|d IH|d IH];
    cbn [NilEmpty.string_of_uint]; [reflexivity|..];
    match goal with
    | |- at_point (String ?c ?a ++ ?b)%string = _ =>
        change (String c a ++ b)%string with (String c (a ++ b)%string)
    end;
    cbn [at_point]; rewrite IH; reflexivity.
Qed.

(** The decimal text of an integer that is not negative: digits, at least
    one, that read as the integer. *)
Lemma str_Z_digits q :
  (0 <= q)%Z ->
  exists d, str_Z q = NilEmpty.string_of_uint d /\ Z.of_uint d = q
            /\ str_Z q <> ""%string.
Proof.
  intros Hq. destruct q as [|p|p]; [| |lia].
  - exists (Decimal.D0 Decimal.Nil). repeat split. discriminate.
  - exists (Pos.to_uint p).
    assert (E : Z.of_uint (Pos.to_uint p) = Z.pos p).
    { unfold Z.of_uint. rewrite DecimalPos.Unsigned.of_to. reflexivity. }
    split; [reflexivity|]. split; [exact E|].
    unfold str_Z. simpl. destruct (Pos.to_uint p); [discriminate E|..];
      discriminate.
Qed.

Lemma two_digits_read r :
  (0 <= r < 100)%Z ->
  exists v, NilEmpty.uint_of_string (two_digits r) = Some v /\ Z.of_uint v = r
            /\ String.length (two_digits r) = 2%nat.
Proof.
  intros Hr.
  assert (H : forallb
                (fun n =>
                   match NilEmpty.uint_of_string (two_digits (Z.of_nat n)) with
                   | Some v =>
                       (Z.of_uint v =? Z.of_nat n)%Z
                       && (String.length (two_digits (Z.of_nat n)) =? 2)%nat
                   | None => false
                   end) (seq 0 100) = true) by (vm_compute; reflexivity).
  rewrite List.forallb_forall in H.
  assert (Hin : In (Z.to_nat r) (seq 0 100)) by (apply in_seq; lia).
  specialize (H _ Hin). rewrite Z2Nat.id in H by lia.
  destruct (NilEmpty.uint_of_string (two_digits r)) as [v|]; [|discriminate H].
  apply andb_true_iff in H. destruct H as [H1 H2].
  exists v. split; [reflexivity|]. split; [apply Z.eqb_eq, H1|].
  apply Nat.eqb_eq, H2.
Qed.

(** The figure [format_2f] writes for a float that is not negative reads as
    the hundredths it was rounded to. *)
Lemma read_2f_format m :
  (0 <= m)%Z -> read_2f (format_2f m) = Some (round_half_even (m * 100) (2 ^ 20)).
Proof.
  intros Hm. unfold format_2f. rewrite Z.abs_eq by exact Hm.
  assert (Hneg : (m <? 0)%Z = false) by (apply Z.ltb_ge; exact Hm).
  rewrite Hneg. cbv zeta.
  set (h := round_half_even (m * 100) (2 ^ 20)).
  assert (Hh : (0 <= h)%Z) by (apply round_half_even_nonneg; lia).
  pose proof (Z.div_mod h 100 ltac:(lia)) as Hdm.
  pose proof (Z.mod_pos_bound h 100 ltac:(lia)) as Hmod.
  assert (Hq : (0 <= h / 100)%Z) by (apply Z.div_pos; lia).
  destruct (str_Z_digits _ Hq) as (d & Hd & Hdv & Hne).
  destruct (two_digits_read _ Hmod) as (v & Hv & Hvv & Hlen).
  change ("" ++ str_Z (h / 100) ++ "." ++ two_digits (h mod 100))%string
    with (str_Z (h / 100) ++ String "." (two_digits (h mod 100)))%string.
  unfold read_2f. rewrite Hd, at_point_digits, NilEmpty.usu, Hv, <- Hd, Hlen.
  destruct (str_Z (h / 100) =? "")%string eqn:E;
    [apply String.eqb_eq in E; contradiction|].
  simpl. rewrite Hdv, Hvv. f_equal. lia.
Qed.

(** X3. The size figures of the reports.  For a patient whose slides add up
    to less than 2^53 bytes (8 PiB), [patient_row] returns (the division
    does not raise) and the last field of the row is a figure with two
    decimals which, read back as a number, is the nearest hundredth of a
    megabyte: it differs from [bytes / 2^20] by at most 0.005.  For a project
    below that size, the summary a returning [generate_project_summary_csv]
    hands back holds the exact quotient [bytes / 2^20], and the figure in the
    project's row of the reports reads as its nearest hundredth. *)
Theorem size_figures_to_the_hundredth
    (rt : runtime) (project_id : string) (patient_slides : patient_groups) :
  (forall identifier slides,
     (0 <= size_bytes slides < 2 ^ 53)%Z ->
     exists figure hundredths,
       patient_row identifier slides
       = Ok [identifier; str_nat (length slides);
             str_nat (count_strategy "Tissue Slide" slides);
             str_nat (count_strategy "Diagnostic Slide" slides); figure]
       /\ read_2f figure = Some hundredths
       /\ (2 * Z.abs (hundredths * 2 ^ 20 - 100 * size_bytes slides) <= 2 ^ 20)%Z)
  /\ (forall w w' s,
        generate_project_summary_csv rt project_id patient_slides w = (Ok s, w') ->
        let total := size_bytes (concat (map snd patient_slides)) in
        (0 <= total < 2 ^ 53)%Z ->
        total_size_mb s = total
        /\ exists hundredths,
             read_2f (nth 5 (summary_row s) ""%string) = Some hundredths
             /\ (2 * Z.abs (hundredths * 2 ^ 20 - 100 * total) <= 2 ^ 20)%Z).
Proof.
  assert (Hround : forall total, (0 <= total)%Z ->
            (2 * Z.abs (round_half_even (total * 100) (2 ^ 20) * 2 ^ 20
                        - 100 * total) <= 2 ^ 20)%Z).
  { intros total Ht.
    pose proof (round_half_even_error (total * 100) (2 ^ 20)
                  ltac:(lia) ltac:(lia)) as H.
    replace (100 * total)%Z with (total * 100)%Z by ring. exact H. }
  split.
  - intros identifier slides Hsize. unfold patient_row.
    rewrite (true_div_mb_exact _ Hsize).
    eexists. eexists. split; [reflexivity|].
    split; [apply read_2f_format; lia | apply Hround; lia].
  - intros w w' s Hrun total Hsize.
    apply generate_project_summary_csv_Ok in Hrun.
    destruct Hrun as (m & rows & Hdiv & -> & _).
    fold total in Hdiv. rewrite (true_div_mb_exact _ Hsize) in Hdiv.
    inversion Hdiv. subst m. split; [reflexivity|].
    exists (round_half_even (total * 100) (2 ^ 20)).
    split; [apply read_2f_format; lia | apply Hround; lia].
Qed.

Lemma size_figures_to_the_hundredth_witness :
  exists figure,
    patient_row "P1" [Samples.tissue_P1; Samples.tissue_P2]
    = Ok ["P1"%string; "2"%string; "2"%string; "0"%string; figure]
    /\ read_2f figure = Some 150%Z.
Proof.
  destruct (proj1 (size_figures_to_the_hundredth OrchestratorSamples.runtime_a
                     "TCGA-BRCA" [])
              "P1"%string [Samples.tissue_P1; Samples.tissue_P2])
    as (figure & h & Hrow & Hread & _);
    [vm_compute; split; [discriminate | reflexivity]|].
  exists figure. split; [exact Hrow|].
  vm_compute in Hrow. inversion Hrow. reflexivity.
Defined.

Lemma insert_sorted_perm item l : Permutation (insert_sorted item l) (item :: l).
Proof.
  induction l as [|item' l IH]; simpl; [reflexivity|].
  destruct (String.leb (fst item) (fst item')); [reflexivity|].
  rewrite IH. apply perm_swap.
Qed.

Lemma insert_sorted_sorted item l :
  Sorted by_identifier l -> Sorted by_identifier (insert_sorted item l).
Proof.
  induction l as [|item' l IH]; simpl; intros Hs.
  - repeat constructor.
  - destruct (String.leb (fst item) (fst item')) eqn:E.
    + constructor; [exact Hs|]. constructor. exact E.
    + inversion Hs as [|? ? Hs' Hhd]; subst.
      assert (Hle : by_identifier item' item).
      { unfold by_identifier.
        destruct (String.leb_total (fst item) (fst item')); congruence. }
      constructor; [apply IH, Hs'|].
      destruct l as [|item'' l]; simpl.
      * constructor. exact Hle.
      * destruct (String.leb (fst item) (fst item'')); constructor; auto.
        inversion Hhd; assumption.
Qed.

Lemma sorted_items_perm d : Permutation (sorted_items d) d.
Proof.
  unfold sorted_items. induction d as [|item d IH]; simpl; [reflexivity|].
  rewrite insert_sorted_perm, IH. reflexivity.
Qed.

Lemma sorted_items_sorted d : Sorted by_identifier (sorted_items d).
Proof.
  unfold sorted_items. induction d as [|item d IH]; simpl; [constructor|].
  apply insert_sorted_sorted, IH.
Qed.

(** X4. A returning [generate_project_summary_csv] leaves in the project
    report exactly: the header, the project's row (the row the cross-project
    report gets for the returned summary), an empty row, the patient header
    and one row per patient, in ascending order of identifier whatever the
    order of the groups.  What the file held before is gone, no other path
    is touched and no request is issued. *)
Theorem project_report_content
    (rt : runtime) (project_id : string) (patient_slides : patient_groups)
    (w w' : world) (s : project_summary) :
  generate_project_summary_csv rt project_id patient_slides w = (Ok s, w') ->
  let csv_path := path_join BASE_DIR (project_id ++ "_summary.csv") in
  exists items rows,
    Permutation items patient_slides
    /\ Sorted by_identifier items
    /\ Forall2 (fun item row => patient_row (fst item) (snd item) = Ok row)
         items rows
    /\ fs w' !! csv_path
       = Some (File (CsvDoc (summary_header :: summary_row s :: []
                             :: patient_header :: rows)))
    /\ (forall q, q <> csv_path -> fs w' !! q = fs w !! q)
    /\ requests w' = requests w.
Proof.
  intros H. apply generate_project_summary_csv_Ok in H.
  destruct H as (m & rows & _ & -> & Hall & Hfs & Hr & _ & Hq).
  exists (sorted_items patient_slides), rows.
  split; [apply sorted_items_perm|]. split; [apply sorted_items_sorted|].
  split; [exact Hall|]. split; [exact Hfs|]. split; [exact Hq | exact Hr].
Qed.

Lemma count_strategy_all name slides :
  Forall (fun file => experimental_strategy file = Some name) slides ->
  count_strategy name slides = length slides.
Proof.
  unfold count_strategy. induction 1 as [|f l Hf _ IH]; simpl; [reflexivity|].
  rewrite Hf, String.eqb_refl. simpl. rewrite IH. reflexivity.
Qed.

Lemma count_strategy_none name name' slides :
  name <> name' ->
  Forall (fun file => experimental_strategy file = Some name) slides ->
  count_strategy name' slides = O.
Proof.
  intros Hne. unfold count_strategy.
  induction 1 as [|f l Hf _ IH]; simpl; [reflexivity|].
  rewrite Hf. destruct (name =? name') eqn:E; [|exact IH].
  apply String.eqb_eq in E. contradiction.
Qed.

Lemma grouped_strategy flt files patient_ids g :
  Grouping.group_by_patient files (Grouping.filter_name flt) patient_ids = Ok g ->
  Forall (Grouping.strategy_matches flt) (concat (map snd g)).
Proof.
  intros H. apply GroupingClaims.group_by_patient_grouped in H.
  apply Forall_forall. intros f Hf. apply list_elem_of_In in Hf.
  apply in_concat in Hf. destruct Hf as (l & Hl & Hfl).
  apply in_map_iff in Hl. destruct Hl as ([k l'] & Heq & Hkl). simpl in Heq. subst l'.
  destruct (GroupingClaims.grouped_member _ _ _ _ _ _ _ H Hkl Hfl) as (_ & Ha & _).
  apply GroupingClaims.passes_type_matches. unfold Grouping.admits in Ha.
  apply andb_true_iff in Ha. tauto.
Qed.

(** X5. The summary a returning [generate_project_summary_csv] hands back
    counts consistently: the patients are the groups, the slides are all
    records of all groups, and the slides are the tissue slides, the
    diagnostic slides and the records that are neither.  When the groups come
    from [group_by_patient] with slide type "tissue" every slide is a tissue
    slide and the diagnostic count is 0, and the other way round for
    "diagnostic". *)
Theorem summary_counts
    (rt : runtime) (project_id : string) (patient_slides : patient_groups)
    (w w' : world) (s : project_summary) :
  generate_project_summary_csv rt project_id patient_slides w = (Ok s, w') ->
  project s = project_id
  /\ total_patients s = length patient_slides
  /\ total_slides s = length (concat (map snd patient_slides))
  /\ total_slides s
     = (tissue_slides s + diagnostic_slides s
        + length (List.filter other_slide (concat (map snd patient_slides))))%nat
  /\ (forall files patient_ids,
        Grouping.group_by_patient files "tissue" patient_ids = Ok patient_slides ->
        tissue_slides s = total_slides s /\ diagnostic_slides s = O)
  /\ (forall files patient_ids,
        Grouping.group_by_patient files "diagnostic" patient_ids = Ok patient_slides ->
        diagnostic_slides s = total_slides s /\ tissue_slides s = O).
Proof.
  intros H. apply generate_project_summary_csv_Ok in H.
  destruct H as (m & rows & _ & -> & _). simpl.
  split; [reflexivity|]. split; [reflexivity|]. split; [reflexivity|].
  split; [apply count_strategy_split|]. split.
  - intros files patient_ids Hg.
    pose proof (grouped_strategy Grouping.Tissue _ _ _ Hg) as Hall.
    split; [apply count_strategy_all, Hall|].
    eapply count_strategy_none; [|exact Hall]. discriminate.
  - intros files patient_ids Hg.
    pose proof (grouped_strategy Grouping.Diagnostic _ _ _ Hg) as Hall.
    split; [apply count_strategy_all, Hall|].
    eapply count_strategy_none; [|exact Hall]. discriminate.
Qed.

Lemma project_report_content_witness :
  exists s w',
    generate_project_summary_csv OrchestratorSamples.runtime_a "TCGA-BRCA"
      OrchestratorSamples.two_formats OrchestratorSamples.base_world = (Ok s, w')
    /\ exists rows,
         length rows = 2%nat
         /\ fs w' !! "tcga_data/TCGA-BRCA_summary.csv"
            = Some (File (CsvDoc (summary_header :: summary_row s :: []
                                  :: patient_header :: rows))).
Proof.
  destruct (generate_project_summary_csv OrchestratorSamples.runtime_a "TCGA-BRCA"
              OrchestratorSamples.two_formats OrchestratorSamples.base_world)
    as [[s|e] w'] eqn:E.
  - exists s, w'. split; [reflexivity|].
    destruct (project_report_content _ _ _ _ _ _ E)
      as (items & rows & Hperm & _ & Hall & Hfs & _).
    exists rows. split; [|exact Hfs].
    apply Forall2_length in Hall. apply Permutation_length in Hperm.
    rewrite <- Hall, Hperm. reflexivity.
  - apply (f_equal fst) in E. vm_compute in E. discriminate.
Defined.

Lemma summary_counts_witness :
  exists s w',
    generate_project_summary_csv OrchestratorSamples.runtime_a "TCGA-BRCA"
      OrchestratorSamples.two_formats OrchestratorSamples.base_world = (Ok s, w')
    /\ total_patients s = 2%nat /\ total_slides s = 2%nat
    /\ tissue_slides s = 2%nat /\ diagnostic_slides s = O.
Proof.
  destruct (generate_project_summary_csv OrchestratorSamples.runtime_a "TCGA-BRCA"
              OrchestratorSamples.two_formats OrchestratorSamples.base_world)
    as [[s|e] w'] eqn:E.
  - exists s, w'. split; [reflexivity|].
    destruct (summary_counts _ _ _ _ _ _ E) as (_ & Hp & Hs & _ & Ht & _).
    destruct (Ht [Samples.tissue_P1; Samples.diagnostic_P1; Samples.tissue_P2] None)
      as [Hts Hd]; [vm_compute; reflexivity|].
    rewrite Hts, Hs, Hp. repeat split; try reflexivity. exact Hd.
  - apply (f_equal fst) in E. vm_compute in E. discriminate.
Defined.

End SummaryFacts.

Module PathFacts.
Import DownloadSpec.



Lemma starts_with_slash_plain b :
  plain_name b = true -> starts_with_slash b = false.
Proof.
  destruct b as [|c b]; simpl; [reflexivity|].
  intros H. apply andb_true_iff in H. destruct H as [Hc _].
  destruct (Ascii.eqb c "/"); [discriminate | reflexivity].
Qed.

Lemma ends_with_slash_app a b :
  b <> ""%string -> ends_with_slash (a ++ b)%string = ends_with_slash b.
Proof.
  intros Hb. induction a as [|c a IH]; [reflexivity|].
  change (String c a ++ b)%string with (String c (a ++ b)%string).
  destruct (a ++ b)%string as [|c' t] eqn:E.
  - exfalso. apply Hb. destruct a; [exact E | discriminate].
  - rewrite <- IH. reflexivity.
Qed.

Lemma ends_with_slash_proper b :
  proper_name b = true -> ends_with_slash b = false.
Proof.
  unfold proper_name. induction b as [|c b IH]; [discriminate|].
  intros H. apply andb_true_iff in H. destruct H as [_ H]. simpl in H.
  apply andb_true_iff in H. destruct H as [Hc Hb].
  destruct b as [|c' b].
  - simpl. destruct (Ascii.eqb c "/"); [discriminate | reflexivity].
  - change (ends_with_slash (String c (String c' b)))
      with (ends_with_slash (String c' b)).
    apply IH. rewrite Hb. reflexivity.
Qed.

Lemma proper_name_inv b :
  proper_name b = true -> b <> ""%string /\ plain_name b = true.
Proof.
  unfold proper_name. intros H. apply andb_true_iff in H. destruct H as [Hn Hp].
  split; [|exact Hp]. intros ->. discriminate.
Qed.

Lemma entry_name_proper b : entry_name b = true -> proper_name b = true.
Proof.
  unfold entry_name. intros H. apply andb_true_iff in H. destruct H as [H _].
  apply andb_true_iff in H. exact (proj1 H).
Qed.

Lemma append_neq a t : t <> ""%string -> (a ++ t)%string <> a.
Proof.
  intros Ht. induction a as [|c a IH]; simpl; [exact Ht|].
  intros H. injection H as H. exact (IH H).
Qed.

Lemma append_empty a b : (a ++ b)%string = ""%string -> b = ""%string.
Proof. destruct a; simpl; [auto | discriminate]. Qed.

(** [os.path.join] with a proper name: the result is no empty path, does
    not end with a slash, and is not the directory itself. *)
Lemma path_join_proper_shape a b :
  proper_name b = true ->
  path_join a b <> ""%string /\ ends_with_slash (path_join a b) = false
  /\ path_join a b <> "/"%string /\ path_join a b <> a.
Proof.
  intros Hb. pose proof (ends_with_slash_proper _ Hb) as He.
  destruct (proper_name_inv _ Hb) as [Hn Hp].
  unfold path_join. rewrite (starts_with_slash_plain _ Hp).
  assert (Hs : ("/" ++ b)%string <> ""%string) by discriminate.
  destruct ((a =? "") || ends_with_slash a).
  - split; [intros H; apply append_empty in H; contradiction|].
    split; [rewrite ends_with_slash_app by exact Hn; exact He|].
    split; [|apply append_neq; exact Hn].
    intros H. apply (f_equal ends_with_slash) in H.
    rewrite ends_with_slash_app in H by exact Hn. simpl in H. congruence.
  - split; [intros H; apply append_empty in H; discriminate|].
    assert (Hj : ends_with_slash (a ++ "/" ++ b)%string = false).
    { rewrite ends_with_slash_app by exact Hs.
      change ("/" ++ b)%string with (String "/" b).
      destruct b as [|c b]; [contradiction | exact He]. }
    split; [exact Hj|]. split; [|apply append_neq; exact Hs].
    intros H. rewrite H in Hj. discriminate.
Qed.


End PathFacts.

Module DownloadEngineFacts.
Import Download DownloadSpec OrchestratorSpec DownloadFacts PathFacts.
Local Open Scope world_scope.

Lemma set_fs_id w : set_fs (fs w) w = w.
Proof. destruct w; reflexivity. Qed.



Section Engine.
Variable md5 : content -> string.
Variables project_id file_id file_name identifier md5sum project_slides_dir : string.

Local Abbreviation patient_dir := (path_join project_slides_dir identifier).
Local Abbreviation output_path := (path_join patient_dir file_name).
Local Abbreviation attempt :=
  (download_attempt md5 project_id file_id file_name identifier md5sum
     project_slides_dir).

Hypothesis identifier_proper : proper_name identifier = true.
Hypothesis file_name_proper : proper_name file_name = true.









Lemma pause_frame n w :
  fs (pause n w) = fs w /\ net (pause n w) = net w
  /\ requests (pause n w) = requests w
  /\ slept (pause n w) = slept w ++ [wait_exponential 1 4 10 n].
Proof. repeat split. Qed.





End Engine.

(** *** [download_file] as the pipeline calls it

    The slide directory is the one [create_directories] makes for the
    project, and project id, identifier and file name are entry names. *)









(** *** What a call of [download_file] can touch *)

Lemma within_refl rq paths w : within rq paths 0 w w.
Proof.
  unfold within. simpl. rewrite app_nil_r. repeat split.
Qed.

Lemma within_trans rq paths a b w1 w2 w3 :
  within rq paths a w1 w2 -> within rq paths b w2 w3 ->
  within rq paths (a + b) w1 w3.
Proof.
  intros (Hr1 & Hn1 & Hf1) (Hr2 & Hn2 & Hf2). unfold within.
  rewrite Hr2, Hr1, Hn2, Hn1, repeat_app, <- app_assoc, skipn_skipn.
  rewrite (Nat.add_comm b a). repeat split.
  intros q Hq. rewrite Hf2, Hf1 by exact Hq. reflexivity.
Qed.

Lemma spends_weaken {A} rq paths a b (m : M A) :
  (a <= b)%nat -> spends rq paths a m -> spends rq paths b m.
Proof.
  intros Hab Hm w. destruct (Hm w) as (k & Hk & H). exists k. split; [lia | exact H].
Qed.

Lemma spends_ret {A} rq paths (a : A) : spends rq paths 0 (ret a).
Proof. intros w. exists O. split; [lia | apply within_refl]. Qed.

Lemma spends_raise {A} rq paths e : spends rq paths 0 (@raise A e).
Proof. intros w. exists O. split; [lia | apply within_refl]. Qed.

Lemma spends_bind {A B} rq paths a b (m : M A) (k : A -> M B) :
  spends rq paths a m -> (forall x, spends rq paths b (k x)) ->
  spends rq paths (a + b) (bind m k).
Proof.
  intros Hm Hk w. unfold bind. destruct (Hm w) as (i & Hi & H1).
  destruct (m w) as [[x|e] w1]; simpl in H1.
  - destruct (Hk x w1) as (j & Hj & H2). exists (i + j)%nat.
    split; [lia | exact (within_trans _ _ _ _ _ _ _ H1 H2)].
  - exists i. split; [lia | exact H1].
Qed.

Lemma spends_still {A} rq paths (m : M A) :
  (forall w, requests (snd (m w)) = requests w /\ net (snd (m w)) = net w
             /\ forall q, ~ In q paths -> fs (snd (m w)) !! q = fs w !! q) ->
  spends rq paths 0 m.
Proof.
  intros H w. destruct (H w) as (Hr & Hn & Hf). exists O. split; [lia|].
  unfold within. simpl. rewrite app_nil_r. auto.
Qed.

Lemma spends_for_each {A} rq paths (l : list A) body :
  (forall x, spends rq paths 0 (body x)) -> spends rq paths 0 (for_each l body).
Proof.
  intros Hb. induction l as [|x l IH]; simpl.
  - apply spends_ret.
  - apply (spends_bind rq paths 0 0); auto.
Qed.

Lemma spends_emit rq paths lv msg : spends rq paths 0 (emit lv msg).
Proof. apply spends_still. intros w. repeat split. Qed.

Lemma spends_mkdir rq paths p : In p paths -> spends rq paths 0 (mkdir p).
Proof.
  intros Hp. apply spends_still. intros w. rewrite mkdir_eq.
  destruct (fs w !! p) as [[|c]|]; simpl; auto.
  - destruct (is_dir (fs w) p); simpl; auto.
  - destruct (parent_fault (fs w) p); simpl; auto.
    repeat split. intros q Hq. apply lookup_insert_ne. congruence.
Qed.

Lemma spends_open_write rq paths p c :
  In p paths -> spends rq paths 0 (open_write p c).
Proof.
  intros Hp. apply spends_still. intros w. unfold open_write.
  destruct (fs w !! p) as [[|c']|]; simpl; auto.
  - repeat split. intros q Hq. apply lookup_insert_ne. congruence.
  - destruct (parent_fault (fs w) p); simpl; auto.
    repeat split. intros q Hq. apply lookup_insert_ne. congruence.
Qed.

Lemma spends_write_chunk rq paths p chunk :
  In p paths -> spends rq paths 0 (write_chunk p chunk).
Proof.
  intros Hp. apply spends_still. intros w. unfold write_chunk.
  destruct (fs w !! p) as [[|[d|d|d]]|]; simpl; repeat split;
    intros q Hq; apply lookup_insert_ne; congruence.
Qed.

Lemma spends_raise_for_status rq paths r : spends rq paths 0 (raise_for_status r).
Proof.
  unfold raise_for_status. destruct (_ && _); [apply spends_raise | apply spends_ret].
Qed.

Lemma spends_requests_get rq paths : spends rq paths 1 (requests_get rq).
Proof.
  intros w. exists 1%nat. split; [lia|]. unfold within, requests_get.
  destruct (net w) as [|[e|r] l]; simpl; repeat split.
Qed.

Lemma spends_requests_get_full rq paths :
  spends rq paths 1 (requests_get_full rq).
Proof.
  unfold requests_get_full. apply (spends_bind rq paths 1 0).
  - apply spends_requests_get.
  - intros r. destruct (cut r); [apply spends_raise | apply spends_ret].
Qed.

Lemma spends_already_downloaded rq paths md5 info warn a b c d p :
  spends rq paths 0 (already_downloaded md5 info warn a b c d p).
Proof.
  apply spends_still. intros w.
  pose proof (keeps_already_downloaded md5 requests info warn a b c d p
                (fun lv msg => keeps_requests_emit lv msg) w) as Hr.
  pose proof (keeps_already_downloaded md5 net info warn a b c d p
                (fun lv msg => keeps_net_emit lv msg) w) as Hn.
  pose proof (keeps_already_downloaded md5 fs info warn a b c d p
                (fun lv msg => keeps_fs_emit lv msg) w) as Hf.
  rewrite Hr, Hn, Hf. auto.
Qed.

Lemma pause_within rq paths n w : within rq paths 0 w (pause n w).
Proof. unfold within. simpl. rewrite app_nil_r. repeat split. Qed.

(** The retry loop issues at most one request per attempt when the attempt
    issues at most one. *)
Lemma retrying_within {A} rq paths (fn : M A) :
  spends rq paths 1 fn ->
  forall fuel n w r w' attempts,
    retrying fuel n fn w = (r, w', attempts) ->
    exists k, (k <= length attempts)%nat /\ within rq paths k w w'.
Proof.
  intros Hfn.
  induction fuel as [|fuel IH]; intros n w r w' attempts Hrun;
    destruct (Hfn w) as (i & Hi & Hw);
    match type of Hrun with retrying ?f _ _ _ = _ =>
      destruct (retrying_cases fn f n w)
      as [(a & w1 & Ha & H)|[(e & w1 & Ha & He & H)|[(e & w1 & Ha & He & _ & H)
          |(e & w1 & fuel' & Ha & He & Hn & Hf & H)]]] end;
    rewrite H in Hrun; clear H; rewrite Ha in Hw; simpl in Hw;
    try (inversion Hrun; subst; exists i; split; [simpl; lia | exact Hw]).
  - discriminate.
  - injection Hf as <-.
    destruct (retrying fuel (S n) fn (pause n w1)) as [[r1 w4] tr] eqn:E.
    inversion Hrun; subst. clear Hrun.
    destruct (IH _ _ _ _ _ E) as (j & Hj & Hw4).
    exists (i + (0 + j))%nat. split; [simpl; lia|].
    eapply within_trans; [exact Hw|].
    eapply within_trans; [apply pause_within | exact Hw4].
Qed.

Section Footprint.
Variable md5 : content -> string.
Variables project_id file_id file_name identifier md5sum project_slides_dir : string.

Local Abbreviation patient_dir := (path_join project_slides_dir identifier).
Local Abbreviation output_path := (path_join patient_dir file_name).

Lemma download_attempt_spends :
  spends (DataFetch file_id) [patient_dir; output_path] 1
    (download_attempt md5 project_id file_id file_name identifier md5sum
       project_slides_dir).
Proof.
  unfold download_attempt.
  apply (spends_bind _ _ 0 1); [apply spends_mkdir; simpl; auto|]. intros _.
  apply (spends_bind _ _ 0 1); [apply spends_already_downloaded|]. intros skip.
  destruct skip; [apply (spends_weaken _ _ 0 1); [lia | apply spends_ret]|].
  apply (spends_bind _ _ 0 1); [apply spends_emit|]. intros _.
  apply (spends_bind _ _ 1 0); [apply spends_requests_get|]. intros r.
  apply (spends_bind _ _ 0 0); [apply spends_raise_for_status|]. intros _.
  apply (spends_bind _ _ 0 0); [apply spends_open_write; simpl; auto|]. intros _.
  apply (spends_bind _ _ 0 0);
    [apply spends_for_each; intros x; apply spends_write_chunk; simpl; auto|].
  intros _.
  apply (spends_bind _ _ 0 0);
    [destruct (cut r); [apply spends_raise | apply spends_ret]|].
  intros _. apply spends_emit.
Qed.

Lemma download_file_plain_spends :
  spends (DataFetch file_id) [patient_dir; output_path] 1
    (download_file_plain md5 project_id file_id file_name identifier md5sum
       project_slides_dir).
Proof.
  unfold download_file_plain.
  apply (spends_bind _ _ 0 1); [apply spends_mkdir; simpl; auto|]. intros _.
  apply (spends_bind _ _ 0 1); [apply spends_already_downloaded|]. intros skip.
  destruct skip; [apply (spends_weaken _ _ 0 1); [lia | apply spends_ret]|].
  apply (spends_bind _ _ 1 0); [apply spends_requests_get_full|]. intros r.
  apply (spends_bind _ _ 0 0); [apply spends_raise_for_status|]. intros _.
  apply (spends_bind _ _ 0 0); [apply spends_open_write; simpl; auto|]. intros _.
  apply (spends_bind _ _ 0 0); [apply spends_write_chunk; simpl; auto|].
  intros _. apply spends_emit.
Qed.

(** With paths compared as written, a call changes the two paths it names
    at most. *)
Lemma footprint_as_written (w : world) :
  (let '(r, w', attempts) :=
     download_file_attempts md5 project_id file_id file_name identifier md5sum
       project_slides_dir w in
   exists k,
     (k <= length attempts)%nat /\ (k <= 3)%nat
     /\ requests w' = requests w ++ repeat (DataFetch file_id) k
     /\ net w' = skipn k (net w)
     /\ forall q, q <> patient_dir -> q <> output_path ->
                  fs w' !! q = fs w !! q)
  /\ (let '(r, w') :=
        download_file_plain md5 project_id file_id file_name identifier md5sum
          project_slides_dir w in
      exists k,
        (k <= 1)%nat
        /\ requests w' = requests w ++ repeat (DataFetch file_id) k
        /\ net w' = skipn k (net w)
        /\ forall q, q <> patient_dir -> q <> output_path ->
                     fs w' !! q = fs w !! q).
Proof.
  split.
  - unfold download_file_attempts.
    pose proof (retrying_length
                  (download_attempt md5 project_id file_id file_name identifier
                     md5sum project_slides_dir) 3 1 w (le_n 1)) as Hlen.
    destruct (retrying 3 1 _ w) as [[r w'] attempts] eqn:E. simpl in Hlen.
    destruct (retrying_within _ _ _ download_attempt_spends _ _ _ _ _ _ E)
      as (k & Hk & Hr & Hn & Hf).
    exists k. split; [exact Hk|]. split; [lia|]. split; [exact Hr|].
    split; [exact Hn|]. intros q H1 H2. apply Hf. simpl.
    intros [Hq|[Hq|[]]]; [apply H1 | apply H2]; symmetry; exact Hq.
  - destruct (download_file_plain_spends w) as (k & Hk & Hr & Hn & Hf).
    destruct (download_file_plain md5 project_id file_id file_name identifier
                md5sum project_slides_dir w) as [r w'].
    exists k. split; [exact Hk|]. split; [exact Hr|]. split; [exact Hn|].
    intros q H1 H2. apply Hf. simpl.
    intros [Hq|[Hq|[]]]; [apply H1 | apply H2]; symmetry; exact Hq.
Qed.

End Footprint.

(** X9. [download_file] as the pipeline calls it: the slide directory is
    [tcga_data/slides/<project_id>], and project id, identifier and file
    name are entry names (non-empty, without a slash, neither "." nor "..").
    Whatever the world, the call issues at most one request per attempt,
    hence at most three; every request is the fetch of its own [file_id],
    and each consumes one reply of the remote end.  In the file system the
    call can only change the patient directory and the target file: every
    other path holds what it held.  Under the same conditions the plain
    pipeline's [download_file] does the same with at most one request. *)
Theorem download_file_footprint
    (md5 : content -> string)
    (project_id file_id file_name identifier md5sum : string) (w : world) :
  let project_slides_dir := path_join SLIDES_DIR project_id in
  let patient_dir := path_join project_slides_dir identifier in
  let output_path := path_join patient_dir file_name in
  entry_name project_id = true -> entry_name identifier = true ->
  entry_name file_name = true ->
  (let '(r, w', attempts) :=
     download_file_attempts md5 project_id file_id file_name identifier md5sum
       project_slides_dir w in
   exists k,
     (k <= length attempts)%nat /\ (k <= 3)%nat
     /\ requests w' = requests w ++ repeat (DataFetch file_id) k
     /\ net w' = skipn k (net w)
     /\ forall q, q <> patient_dir -> q <> output_path ->
                  fs w' !! q = fs w !! q)
  /\ (let '(r, w') :=
        download_file_plain md5 project_id file_id file_name identifier md5sum
          project_slides_dir w in
      exists k,
        (k <= 1)%nat
        /\ requests w' = requests w ++ repeat (DataFetch file_id) k
        /\ net w' = skipn k (net w)
        /\ forall q, q <> patient_dir -> q <> output_path ->
                     fs w' !! q = fs w !! q).
Proof.
  intros project_slides_dir patient_dir output_path _ _ _.
  exact (footprint_as_written md5 project_id file_id file_name identifier md5sum
           project_slides_dir w).
Qed.

Lemma download_file_footprint_witness :
  let '(r, w', attempts) :=
    download_file_attempts DownloadSamples.sample_md5 "TCGA-BRCA" "f-001"
      "P1-TS1.svs" "P1" "raw-4" DownloadSamples.slides_dir
      DownloadSamples.flaky_world in
  fs w' !! "tcga_data/slides/TCGA-BRCA" = Some Dir
  /\ exists k, (k <= 3)%nat /\ requests w' = repeat (DataFetch "f-001") k.
Proof.
  pose proof (download_file_footprint DownloadSamples.sample_md5 "TCGA-BRCA"
                "f-001" "P1-TS1.svs" "P1" "raw-4" DownloadSamples.flaky_world
                eq_refl eq_refl eq_refl) as [H _].
  cbv zeta in H.
  change (path_join SLIDES_DIR "TCGA-BRCA") with DownloadSamples.slides_dir in H.
  destruct (download_file_attempts DownloadSamples.sample_md5 "TCGA-BRCA" "f-001"
              "P1-TS1.svs" "P1" "raw-4" DownloadSamples.slides_dir
              DownloadSamples.flaky_world) as [[r w'] attempts].
  destruct H as (k & _ & Hk & Hr & _ & Hf).
  split.
  - rewrite Hf; [reflexivity | | ]; intros E; vm_compute in E; discriminate.
  - exists k. split; [exact Hk | exact Hr].
Defined.

End DownloadEngineFacts.

Module DirectoryFacts.
Import Orchestrator OrchestratorSpec DownloadSpec DownloadFacts PathFacts
  DownloadEngineFacts.
Local Open Scope world_scope.

Lemma grows_refl w : grows w w.
Proof. unfold grows. repeat split; auto. congruence. Qed.

Lemma grows_trans w1 w2 w3 : grows w1 w2 -> grows w2 w3 -> grows w1 w3.
Proof.
  intros (Hn1 & Hr1 & Hl1 & Hs1 & Hk1 & Hd1) (Hn2 & Hr2 & Hl2 & Hs2 & Hk2 & Hd2).
  unfold grows. repeat split; try congruence.
  - intros q n H. apply Hk2, Hk1, H.
  - intros q n H H3. destruct (fs w2 !! q) as [n'|] eqn:E.
    + pose proof (Hd1 q n' H E). subst n'.
      pose proof (Hk2 q Dir E). congruence.
    + exact (Hd2 q n E H3).
Qed.

Lemma grows_insert_dir p w :
  fs w !! p = None -> grows w (set_fs (<[p := Dir]> (fs w)) w).
Proof.
  intros Hp. unfold grows. simpl. repeat split; auto.
  - intros q n H. rewrite lookup_insert_ne; [exact H | congruence].
  - intros q n H H'. destruct (string_dec p q) as [->|Hne].
    + rewrite lookup_insert_eq in H'. congruence.
    + rewrite lookup_insert_ne in H' by exact Hne. congruence.
Qed.

Lemma grows_is_dir w w' p : grows w w' -> is_dir (fs w) p = true -> is_dir (fs w') p = true.
Proof.
  intros (_ & _ & _ & _ & Hk & _). unfold is_dir.
  destruct (p =? ""); [reflexivity|]. destruct (p =? "/"); [reflexivity|]. simpl.
  destruct (fs w !! p) as [[|c]|] eqn:E; try discriminate.
  rewrite (Hk _ _ E). reflexivity.
Qed.


Lemma mkdir_grows p w : grows w (snd (mkdir p w)).
Proof.
  rewrite mkdir_eq. destruct (fs w !! p) as [[|c]|] eqn:E; simpl.
  - apply grows_refl.
  - destruct (is_dir (fs w) p); apply grows_refl.
  - destruct (parent_fault (fs w) p); simpl;
      [apply grows_refl | apply grows_insert_dir, E].
Qed.

(** [Path(p).mkdir(parents=True, exist_ok=True)] by cases on what the path
    and its parent are. *)
Lemma mkdir_chain_eq p ancestors w :
  mkdir_chain (p :: ancestors) w =
  match fs w !! p with
  | Some Dir => (Ok tt, w)
  | Some (File _) =>
      if is_dir (fs w) p then (Ok tt, w) else (Raise (FileExistsError p), w)
  | None =>
      match parent_fault (fs w) p with
      | None => (Ok tt, set_fs (<[p := Dir]> (fs w)) w)
      | Some (FileNotFoundError q) =>
          match ancestors with
          | [] => (Raise (FileNotFoundError q), w)
          | _ :: _ => (mkdir_chain ancestors ;; mkdir p) w
          end
      | Some e => (Raise e, w)
      end
  end.
Proof.
  simpl. unfold os_mkdir.
  destruct (fs w !! p) as [[|c]|] eqn:E.
  - unfold is_dir. rewrite E. rewrite orb_true_r. reflexivity.
  - reflexivity.
  - destruct (parent_fault (fs w) p) as [e|] eqn:Hf; [|reflexivity].
    pose proof (parent_fault_not_dir _ _ _ Hf E) as Hnd.
    unfold parent_fault in Hf. destruct (is_dir (fs w) (parent p)); [discriminate|].
    destruct (fs w !! parent p) as [[|c]|]; inversion Hf; subst;
      try rewrite Hnd; try reflexivity.
Qed.

Lemma mkdir_chain_grows chain : forall w, grows w (snd (mkdir_chain chain w)).
Proof.
  induction chain as [|p ancestors IH]; intros w; [apply grows_refl|].
  rewrite mkdir_chain_eq. destruct (fs w !! p) as [[|c]|] eqn:E; simpl.
  - apply grows_refl.
  - destruct (is_dir (fs w) p); apply grows_refl.
  - destruct (parent_fault (fs w) p) as [e|]; [|apply grows_insert_dir, E].
    destruct e; try apply grows_refl.
    destruct ancestors as [|q ancestors]; [apply grows_refl|].
    unfold bind. specialize (IH w).
    destruct (mkdir_chain (q :: ancestors) w) as [[[]|e] w1]; simpl in *;
      [|exact IH].
    eapply grows_trans; [exact IH | apply mkdir_grows].
Qed.

Lemma mkdir_Ok_is_dir p w w1 :
  mkdir p w = (Ok tt, w1) -> is_dir (fs w1) p = true.
Proof.
  rewrite mkdir_eq. destruct (fs w !! p) as [[|c]|] eqn:E.
  - intros H. inversion H. subst. unfold is_dir. rewrite E, orb_true_r. reflexivity.
  - destruct (is_dir (fs w) p) eqn:Hd; [|discriminate].
    intros H. inversion H. subst. exact Hd.
  - destruct (parent_fault (fs w) p); [discriminate|].
    intros H. inversion H. unfold is_dir. simpl.
    rewrite lookup_insert_eq, orb_true_r. reflexivity.
Qed.

(** When the chain returns, its first path is a directory. *)
Lemma mkdir_chain_Ok p ancestors w w' :
  mkdir_chain (p :: ancestors) w = (Ok tt, w') -> is_dir (fs w') p = true.
Proof.
  rewrite mkdir_chain_eq. destruct (fs w !! p) as [[|c]|] eqn:E.
  - intros H. inversion H. subst. unfold is_dir. rewrite E, orb_true_r. reflexivity.
  - destruct (is_dir (fs w) p) eqn:Hd; [|discriminate].
    intros H. inversion H. subst. exact Hd.
  - destruct (parent_fault (fs w) p) as [e|].
    + destruct e; try discriminate.
      destruct ancestors as [|q ancestors]; [discriminate|].
      intros H. apply bind_Ok_inv in H. destruct H as ([] & w1 & _ & H).
      apply (mkdir_Ok_is_dir _ _ _ H).
    + intros H. inversion H. unfold is_dir. simpl.
      rewrite lookup_insert_eq, orb_true_r. reflexivity.
Qed.

Lemma mkdir_chain_existing p ancestors w :
  fs w !! p = Some Dir -> mkdir_chain (p :: ancestors) w = (Ok tt, w).
Proof. intros H. rewrite mkdir_chain_eq, H. reflexivity. Qed.

(** The last element of the lineage of a path is the path. *)
Lemma append_nil_r s : (s ++ "")%string = s.
Proof.
  induction s as [|c s IH]; [reflexivity|].
  change (String c (s ++ "")%string = String c s). rewrite IH. reflexivity.
Qed.

Lemma append_assoc a b c : ((a ++ b) ++ c)%string = (a ++ (b ++ c))%string.
Proof.
  induction a as [|x a IH]; [reflexivity|].
  change (String x ((a ++ b) ++ c)%string = String x (a ++ (b ++ c))%string).
  rewrite IH. reflexivity.
Qed.

Lemma lineage_from_last s : forall pre,
  exists l, lineage_from pre s = l ++ [(pre ++ s)%string].
Proof.
  induction s as [|c s IH]; intros pre; simpl.
  - exists []. rewrite append_nil_r. reflexivity.
  - pose proof (fun t => append_assoc pre t s) as Happ.
    destruct (Ascii.eqb c "/" && negb (pre =? "")) eqn:E.
    + apply andb_true_iff in E. destruct E as [Ec _].
      apply Ascii.eqb_eq in Ec. subst c.
      destruct (IH (pre ++ "/")%string) as (l & Hl). exists (pre :: l).
      rewrite Hl, Happ. reflexivity.
    + destruct (IH (pre ++ String c "")%string) as (l & Hl). exists l.
      rewrite Hl, Happ. reflexivity.
Qed.

Lemma mkdir_parents_chain p :
  exists ancestors, rev (lineage p) = p :: ancestors.
Proof.
  unfold lineage. destruct (lineage_from_last p "") as (l & Hl).
  exists (rev l). rewrite Hl, rev_app_distr. reflexivity.
Qed.

Lemma mkdir_parents_grows p w : grows w (snd (mkdir_parents p w)).
Proof. apply mkdir_chain_grows. Qed.

Lemma mkdir_parents_Ok p w w' :
  mkdir_parents p w = (Ok tt, w') -> is_dir (fs w') p = true.
Proof.
  unfold mkdir_parents. destruct (mkdir_parents_chain p) as (anc & ->).
  apply mkdir_chain_Ok.
Qed.

Lemma mkdir_parents_existing p w :
  fs w !! p = Some Dir -> mkdir_parents p w = (Ok tt, w).
Proof.
  unfold mkdir_parents. destruct (mkdir_parents_chain p) as (anc & ->).
  apply mkdir_chain_existing.
Qed.

(** X10. [create_directories] only ever adds directories: whatever it
    returns or raises, every entry of the file system is still what it was,
    every new entry is a directory, and network, log and clock are untouched.
    When it returns, the first component is the metadata directory of the
    project and is a directory; the second is the slide directory, which is
    a directory too, unless the download type is "none", when it is [None].
    When the directories exist already the call changes nothing. *)
Theorem create_directories_effect (project_id download_type : string) (w : world) :
  let project_metadata_dir := path_join METADATA_DIR project_id in
  let project_slides_dir := path_join SLIDES_DIR project_id in
  let '(r, w') := create_directories project_id download_type w in
  grows w w'
  /\ (forall dirs, r = Ok dirs ->
        fst dirs = project_metadata_dir
        /\ is_dir (fs w') project_metadata_dir = true
        /\ (if download_type =? "none" then snd dirs = None
            else snd dirs = Some project_slides_dir
                 /\ is_dir (fs w') project_slides_dir = true))
  /\ (fs w !! project_metadata_dir = Some Dir ->
      download_type = "none"%string \/ fs w !! project_slides_dir = Some Dir ->
      w' = w /\ exists dirs, r = Ok dirs).
Proof.
  cbv zeta. unfold create_directories, bind.
  pose proof (mkdir_parents_grows (path_join METADATA_DIR project_id) w) as Hg1.
  pose proof (mkdir_parents_Ok (path_join METADATA_DIR project_id) w) as Hd1.
  pose proof (mkdir_parents_existing (path_join METADATA_DIR project_id) w) as Hx1.
  destruct (mkdir_parents (path_join METADATA_DIR project_id) w) as [[[]|e] w1];
    simpl in Hg1.
  - specialize (Hd1 w1 eq_refl).
    destruct (download_type =? "none") eqn:Ht; simpl.
    + split; [exact Hg1|]. split.
      * intros dirs H. inversion H. subst dirs. simpl. auto.
      * intros Hm _. specialize (Hx1 Hm). inversion Hx1. split; eauto.
    + pose proof (mkdir_parents_grows (path_join SLIDES_DIR project_id) w1) as Hg2.
      pose proof (mkdir_parents_Ok (path_join SLIDES_DIR project_id) w1) as Hd2.
      pose proof (mkdir_parents_existing (path_join SLIDES_DIR project_id) w1) as Hx2.
      destruct (mkdir_parents (path_join SLIDES_DIR project_id) w1) as [[[]|e] w2];
        simpl in Hg2.
      * split; [eapply grows_trans; eassumption|]. split.
        -- intros dirs H. inversion H. subst dirs. simpl.
           split; [reflexivity|].
           split; [eapply grows_is_dir; eassumption|].
           split; [reflexivity | apply Hd2; reflexivity].
        -- intros Hm [Hn|Hs].
           { subst download_type. discriminate. }
           specialize (Hx1 Hm). inversion Hx1. subst w1.
           specialize (Hx2 Hs). inversion Hx2. split; eauto.
      * split; [eapply grows_trans; eassumption|]. split; [discriminate|].
        intros Hm [Hn|Hs].
        { subst download_type. discriminate. }
        specialize (Hx1 Hm). inversion Hx1. subst w1.
        specialize (Hx2 Hs). discriminate.
  - split; [exact Hg1|]. split; [discriminate|].
    intros Hm _. specialize (Hx1 Hm). discriminate.
Qed.

(** *** When the directories can be made *)





Lemma path_join_plain_eq a b :
  a <> ""%string -> ends_with_slash a = false -> plain_name b = true ->
  path_join a b = (a ++ "/" ++ b)%string.
Proof.
  intros Ha He Hb. unfold path_join.
  rewrite (starts_with_slash_plain _ Hb), He.
  destruct (a =? "") eqn:E; [apply String.eqb_eq in E; contradiction|].
  reflexivity.
Qed.





Lemma create_directories_effect_witness :
  let w := mk_world (<["tcga_data/metadata/TCGA-BRCA"%string := Dir]> ∅) [] [] [] [] in
  create_directories "TCGA-BRCA" "none" w
  = (Ok ("tcga_data/metadata/TCGA-BRCA"%string, None), w).
Proof.
  cbv zeta.
  pose proof (create_directories_effect "TCGA-BRCA" "none"
                (mk_world (<["tcga_data/metadata/TCGA-BRCA"%string := Dir]> ∅)
                   [] [] [] [])) as H.
  cbv zeta in H.
  destruct (create_directories "TCGA-BRCA" "none" _) as [r w'].
  destruct H as (_ & Hok & Hsame).
  destruct Hsame as (-> & dirs & ->); [reflexivity | left; reflexivity |].
  destruct (Hok dirs eq_refl) as (Hm & _ & Hs). simpl in Hs.
  destruct dirs as [m s]. simpl in *. subst. reflexivity.
Defined.

End DirectoryFacts.

Module PersisterFacts.
Import Orchestrator OrchestratorSpec DownloadSpec DownloadFacts PathFacts.
Local Open Scope world_scope.

Lemma plain_name_app a b :
  plain_name (a ++ b)%string = plain_name a && plain_name b.
Proof.
  induction a as [|c a IH]; [reflexivity|].
  change (negb (Ascii.eqb c "/") && plain_name (a ++ b)%string
          = negb (Ascii.eqb c "/") && plain_name a && plain_name b).
  rewrite IH, andb_assoc. reflexivity.
Qed.

Lemma parent_fault_exn f p e :
  parent_fault f p = Some e -> is_request_exception e = false.
Proof.
  unfold parent_fault. destruct (is_dir f (parent p)); [discriminate|].
  destruct (f !! parent p) as [[|c]|]; intros H; inversion H; reflexivity.
Qed.




End PersisterFacts.

Module ArgumentFacts.
Import Summary Orchestrator OrchestratorSpec DownloadSpec DownloadFacts
  OrchestratorFacts.
Local Open Scope world_scope.

Lemma split_comma_nonempty s : split_comma s <> [].
Proof.
  destruct s as [|c s]; simpl; [discriminate|].
  destruct (Ascii.eqb c ","); [discriminate|].
  destruct (split_comma s); discriminate.
Qed.

(** X13. [select_projects] (lines 204-210) changes nothing in the world.
    With [projects] equal to "all" in any letter case it returns the projects
    of the catalog.  Otherwise it returns the comma-separated names, each
    stripped, in the order given and with repetitions kept, exactly when
    every one of them is a project of the catalog; when one is not it raises
    a [ValueError].  The list of names is never empty: an empty [projects]
    asks for the project with the empty name. *)
Theorem select_projects_spec
    (projects : string) (all_projects : list string) (w : world) :
  let requested := map str_strip (split_comma projects) in
  let '(r, w') := select_projects projects all_projects w in
  w' = w
  /\ requested <> []
  /\ (str_lower projects = "all"%string -> r = Ok all_projects)
  /\ (str_lower projects <> "all"%string ->
      match r with
      | Ok project_list =>
          project_list = requested
          /\ forall p, In p project_list -> In p all_projects
      | Raise e =>
          (exists msg, e = ValueError msg)
          /\ exists p, In p requested /\ ~ In p all_projects
      end).
Proof.
  cbv zeta. unfold select_projects.
  assert (Hne : map str_strip (split_comma projects) <> []).
  { pose proof (split_comma_nonempty projects) as H.
    destruct (split_comma projects); [contradiction | discriminate]. }
  destruct (str_lower projects =? "all") eqn:E.
  - apply String.eqb_eq in E. simpl. repeat split; auto. contradiction.
  - assert (E' : str_lower projects <> "all"%string)
      by (intros H; rewrite H in E; discriminate).
    destruct (List.filter _ _) as [|p invalid] eqn:Hf; simpl.
    + repeat split; auto; try contradiction.
      intros p Hp. apply GroupingFacts.str_in_In.
      destruct (Grouping.str_in p all_projects) eqn:Hin; [reflexivity|].
      assert (Hbad : In p []); [|contradiction].
      rewrite <- Hf. apply List.filter_In. rewrite Hin. auto.
    + split; [reflexivity|]. split; [exact Hne|].
      split; [intros H; contradiction|].
      intros _. split; [eauto|]. exists p.
      assert (Hp : In p (p :: invalid)) by (left; reflexivity).
      rewrite <- Hf in Hp. apply List.filter_In in Hp. destruct Hp as [Hp Hb].
      split; [exact Hp|]. intros Hin. apply GroupingFacts.str_in_In in Hin.
      rewrite Hin in Hb. discriminate.
Qed.

Lemma select_projects_spec_witness :
  fst (select_projects " TCGA-LUAD,TCGA-BRCA" ["TCGA-BRCA"; "TCGA-LUAD"]
         OrchestratorSamples.base_world)
  = Ok ["TCGA-LUAD"; "TCGA-BRCA"]
  /\ exists msg,
       fst (select_projects "TCGA-LUAD,tcga-brca" ["TCGA-BRCA"; "TCGA-LUAD"]
              OrchestratorSamples.base_world)
       = Raise (ValueError msg).
Proof.
  split.
  - pose proof (select_projects_spec " TCGA-LUAD,TCGA-BRCA"
                  ["TCGA-BRCA"; "TCGA-LUAD"] OrchestratorSamples.base_world) as H.
    cbv zeta in H.
    destruct (select_projects " TCGA-LUAD,TCGA-BRCA" _ _) as [[l|e] w'];
      destruct H as (_ & _ & _ & H);
      specialize (H ltac:(vm_compute; discriminate)).
    + destruct H as [-> _]. reflexivity.
    + destruct H as (_ & p & Hp & Hnp). exfalso. apply Hnp.
      vm_compute in Hp. vm_compute. tauto.
  - pose proof (select_projects_spec "TCGA-LUAD,tcga-brca"
                  ["TCGA-BRCA"; "TCGA-LUAD"] OrchestratorSamples.base_world) as H.
    cbv zeta in H.
    destruct (select_projects "TCGA-LUAD,tcga-brca" _ _) as [[l|e] w'];
      destruct H as (_ & _ & _ & H);
      specialize (H ltac:(vm_compute; discriminate)).
    + destruct H as [-> Hall]. exfalso.
      specialize (Hall "tcga-brca"%string ltac:(vm_compute; tauto)).
      vm_compute in Hall. intuition discriminate.
    + destruct H as ((msg & ->) & _). exists msg. reflexivity.
Defined.

(** A name the catalog does not list is refused. *)
Lemma select_projects_unknown projects all_projects p w :
  str_lower projects <> "all"%string ->
  In p (map str_strip (split_comma projects)) -> ~ In p all_projects ->
  exists msg,
    select_projects projects all_projects w = (Raise (ValueError msg), w).
Proof.
  intros Hl Hp Hnp. unfold select_projects.
  destruct (str_lower projects =? "all") eqn:E;
    [apply String.eqb_eq in E; contradiction|].
  destruct (List.filter _ _) as [|q invalid] eqn:Hf; [|eauto].
  exfalso. assert (Hin : In p []); [|contradiction].
  rewrite <- Hf. apply List.filter_In. split; [exact Hp|].
  destruct (Grouping.str_in p all_projects) eqn:Hs; [|reflexivity].
  apply GroupingFacts.str_in_In in Hs. contradiction.
Qed.

(** X14. Invalid arguments end [download_tcga_slides] before any directory
    is made or any manifest fetched.  A download type outside the four
    admitted ones raises the [ValueError] at once, the world untouched: no
    request, no log record.  With an admitted type, a failure of the catalog
    query is the outcome of the run; and when the catalog answers and
    [projects] names a project the catalog does not list, the run raises a
    [ValueError] after exactly that one request, the file system untouched
    and the patient-id argument not yet looked at. *)
Theorem invalid_arguments_abort
    (rt : runtime) (download_type projects : string)
    (patient_ids : option string) (w : world) :
  let admitted :=
    Grouping.str_in download_type ["tissue"; "diagnostic"; "both"; "none"] in
  let '(r, w') := download_tcga_slides rt download_type projects patient_ids w in
  (admitted = false ->
   r = Raise (ValueError "download_type must be 'tissue', 'diagnostic', 'both', or 'none'")
   /\ w' = w)
  /\ (admitted = true ->
      forall e w1, get_all_projects w = (Raise e, w1) ->
        r = Raise e /\ w' = w1 /\ fs w' = fs w
        /\ requests w' = requests w ++ [ProjectsQuery])
  /\ (admitted = true ->
      forall all_projects w1 p,
        get_all_projects w = (Ok all_projects, w1) ->
        str_lower projects <> "all"%string ->
        In p (map str_strip (split_comma projects)) -> ~ In p all_projects ->
        (exists msg, r = Raise (ValueError msg))
        /\ w' = w1 /\ fs w' = fs w
        /\ requests w' = requests w ++ [ProjectsQuery]).
Proof.
  cbv zeta. unfold download_tcga_slides.
  destruct (Grouping.str_in download_type _) eqn:Ha.
  - change (negb true) with false. cbv iota. unfold bind at 1.
    pose proof (get_all_projects_frame w) as Hfr.
    destruct (get_all_projects w) as [[all_projects|e] w1].
    + unfold bind at 1.
      pose proof (fun p => select_projects_unknown projects all_projects p w1) as Hs.
      destruct (select_projects projects all_projects w1) as [[l|e] w2].
      * match goal with |- let '(r, w') := ?x in _ => destruct x as [r w'] end.
        split; [discriminate|]. split; [intros _ e w0 H; discriminate|].
        intros _ all' w0 p H Hl Hp Hnp. inversion H. subst all' w0. clear H.
        destruct (Hs p Hl Hp Hnp) as (msg & Hmsg). discriminate.
      * split; [discriminate|]. split; [intros _ e' w0 H; discriminate|].
        intros _ all' w0 p H Hl Hp Hnp. inversion H. subst all' w0. clear H.
        destruct (Hs p Hl Hp Hnp) as (msg & Hmsg). inversion Hmsg. subst.
        destruct Hfr as [Hf Hr]. eauto.
    + split; [discriminate|]. split.
      * intros _ e' w2 H. inversion H. subst. destruct Hfr. auto.
      * intros _ all' w2 p H. discriminate.
  - change (negb false) with true. cbv iota.
    split; [auto|]. split; discriminate.
Qed.

Lemma invalid_arguments_abort_witness :
  download_tcga_slides OrchestratorSamples.runtime_a "all" "TCGA-BRCA" None
    OrchestratorSamples.table_world
  = (Raise (ValueError "download_type must be 'tissue', 'diagnostic', 'both', or 'none'"),
     OrchestratorSamples.table_world)
  /\ exists msg w',
       download_tcga_slides OrchestratorSamples.runtime_a "both"
         "TCGA-BRCA, TCGA-XXXX" None OrchestratorSamples.table_world
       = (Raise (ValueError msg), w')
       /\ fs w' = OrchestratorSamples.table_fs
       /\ requests w' = [ProjectsQuery].
Proof.
  split.
  - pose proof (invalid_arguments_abort OrchestratorSamples.runtime_a "all"
                  "TCGA-BRCA" None OrchestratorSamples.table_world) as H.
    cbv zeta in H.
    destruct (download_tcga_slides OrchestratorSamples.runtime_a "all" "TCGA-BRCA"
                None OrchestratorSamples.table_world) as [r w'].
    destruct H as [H _]. destruct (H eq_refl) as [-> ->]. reflexivity.
  - pose proof (invalid_arguments_abort OrchestratorSamples.runtime_a "both"
                  "TCGA-BRCA, TCGA-XXXX" None OrchestratorSamples.table_world) as H.
    cbv zeta in H.
    destruct (download_tcga_slides OrchestratorSamples.runtime_a "both"
                "TCGA-BRCA, TCGA-XXXX" None OrchestratorSamples.table_world)
      as [r w'].
    destruct H as (_ & _ & H).
    destruct (H eq_refl ["TCGA-BRCA"; "TCGA-LUAD"]%string
                (snd (get_all_projects OrchestratorSamples.table_world))
                "TCGA-XXXX"%string)
      as ((msg & ->) & _ & Hf & Hr).
    + vm_compute; reflexivity.
    + vm_compute. discriminate.
    + vm_compute. auto.
    + simpl. intros [E|[E|[]]]; discriminate.
    + exists msg, w'. auto.
Defined.

Lemma load_patient_ids_none w :
  load_patient_ids None w
  = (Ok None, logged [(INFO, "No patient IDs specified, processing all patients"%string)] w).
Proof. reflexivity. Qed.

Lemma load_patient_ids_empty w :
  load_patient_ids (Some ""%string) w
  = (Ok None, logged [(INFO, "No patient IDs specified, processing all patients"%string)] w).
Proof. reflexivity. Qed.

Lemma load_patient_ids_inline p w :
  p <> ""%string -> ends_with ".csv" p = false ->
  load_patient_ids (Some p) w
  = (Ok (Some (map str_strip (split_comma p))),
     logged [(INFO, ("Loaded " ++ str_nat (length (map str_strip (split_comma p)))
                     ++ " patient IDs from command-line input")%string)] w).
Proof.
  intros Hp Hcsv. unfold load_patient_ids, Grouping.truthy_str.
  destruct (p =? "") eqn:E; [apply String.eqb_eq in E; contradiction|].
  rewrite Hcsv. reflexivity.
Qed.

Lemma load_patient_ids_table p header rows i w :
  p <> ""%string -> ends_with ".csv" p = true ->
  fs w !! p = Some (File (CsvDoc (header :: rows))) ->
  column_index "Patient ID" header = Some i ->
  load_patient_ids (Some p) w
  = (Ok (Some (column_values i rows)),
     logged [(INFO, ("Loaded " ++ str_nat (length (column_values i rows))
                     ++ " patient IDs from CSV file: " ++ p)%string)] w).
Proof.
  intros Hp Hcsv Hf Hi. unfold load_patient_ids, Grouping.truthy_str.
  destruct (p =? "") eqn:E; [apply String.eqb_eq in E; contradiction|].
  rewrite Hcsv. change (negb false) with true. cbv iota.
  unfold try_except, read_csv, bind, read_file. rewrite Hf. simpl.
  rewrite Hi. reflexivity.
Qed.

Lemma load_patient_ids_frame patient_ids w :
  let '(r, w') := load_patient_ids patient_ids w in
  fs w' = fs w /\ net w' = net w /\ requests w' = requests w
  /\ (forall e, r = Raise e -> w' = w /\ exists msg, e = ValueError msg).
Proof.
  unfold load_patient_ids. destruct patient_ids as [p|];
    [|simpl; repeat split; auto; discriminate].
  destruct (Grouping.truthy_str p); [|simpl; repeat split; auto; discriminate].
  destruct (ends_with ".csv" p); [|simpl; repeat split; auto; discriminate].
  unfold try_except, bind, read_csv, bind, read_file.
  destruct (fs w !! p) as [[|[d|d|[|header rows]]]|]; simpl;
    try destruct (column_index "Patient ID" _); simpl;
    (split; [reflexivity|]; split; [reflexivity|]; split; [reflexivity|];
     intros e H; inversion H; eauto).
Qed.

Lemma column_index_In name columns :
  In name columns -> exists i, column_index name columns = Some i.
Proof.
  induction columns as [|c columns IH]; [contradiction|].
  intros [->|Hin]; simpl.
  - rewrite String.eqb_refl. eauto.
  - destruct (c =? name)%string; [eauto|].
    destruct (IH Hin) as (i & ->). eauto.
Qed.

(** X15. The patient-id argument (lines 213-228) is resolved without a
    request and without a change to the file system, and whatever goes wrong
    comes out as a [ValueError], the world untouched.  No argument, or the
    empty one, gives no allow-list.  An argument that does not end in ".csv"
    is a comma-separated list: it gives the stripped pieces, never fails and
    never gives an empty list.  A table that has a "Patient ID" column and
    no row, only the header, gives the empty allow-list, and
    [group_by_patient] then groups as if no list had been given. *)
Theorem load_patient_ids_spec (patient_ids : option string) (w : world) :
  let '(r, w') := load_patient_ids patient_ids w in
  fs w' = fs w /\ net w' = net w /\ requests w' = requests w
  /\ (forall e, r = Raise e -> w' = w /\ exists msg, e = ValueError msg)
  /\ (patient_ids = None \/ patient_ids = Some ""%string -> r = Ok None)
  /\ (forall p, patient_ids = Some p -> p <> ""%string ->
        ends_with ".csv" p = false ->
        r = Ok (Some (map str_strip (split_comma p)))
        /\ map str_strip (split_comma p) <> [])
  /\ (forall p header,
        patient_ids = Some p -> p <> ""%string -> ends_with ".csv" p = true ->
        fs w !! p = Some (File (CsvDoc [header])) ->
        In "Patient ID"%string header ->
        r = Ok (Some [])
        /\ forall files download_type,
             Grouping.group_by_patient files download_type (Some [])
             = Grouping.group_by_patient files download_type None).
Proof.
  pose proof (load_patient_ids_frame patient_ids w) as Hfr.
  destruct (load_patient_ids patient_ids w) as [r w'] eqn:E.
  destruct Hfr as (Hf & Hn & Hr & He).
  split; [exact Hf|]. split; [exact Hn|]. split; [exact Hr|]. split; [exact He|].
  split; [|split].
  - intros [ -> | -> ]; [rewrite load_patient_ids_none in E
                    | rewrite load_patient_ids_empty in E];
      inversion E; reflexivity.
  - intros p -> Hp Hcsv. rewrite (load_patient_ids_inline _ _ Hp Hcsv) in E.
    inversion E. split; [reflexivity|].
    pose proof (split_comma_nonempty p) as H.
    destruct (split_comma p); [contradiction | discriminate].
  - intros p header -> Hp Hcsv Hfile Hin.
    destruct (column_index_In _ _ Hin) as (i & Hi).
    rewrite (load_patient_ids_table _ _ _ _ _ Hp Hcsv Hfile Hi) in E.
    inversion E. split; [reflexivity|].
    intros files download_type. unfold Grouping.group_by_patient.
    apply GroupingClaims.group_loop_empty_ids.
Qed.

Lemma load_patient_ids_spec_witness :
  let w := mk_world (<["ids.csv"%string := File (CsvDoc [["Patient ID"%string]])]> ∅)
             [] [] [] [] in
  fst (load_patient_ids (Some "ids.csv"%string) w) = Ok (Some [])
  /\ Grouping.group_by_patient [Samples.tissue_P1; Samples.tissue_P2] "both" (Some [])
     = Grouping.group_by_patient [Samples.tissue_P1; Samples.tissue_P2] "both" None.
Proof.
  cbv zeta.
  pose proof (load_patient_ids_spec (Some "ids.csv"%string)
                (mk_world (<["ids.csv"%string := File (CsvDoc [["Patient ID"%string]])]> ∅)
                   [] [] [] [])) as H.
  destruct (load_patient_ids _ _) as [r w'].
  destruct H as (_ & _ & _ & _ & _ & _ & H).
  destruct (H "ids.csv"%string ["Patient ID"%string] eq_refl)
    as [-> Hg]; [discriminate | reflexivity | reflexivity | left; reflexivity |].
  split; [reflexivity | apply Hg].
Defined.

(** X16. [get_all_projects] issues exactly one request, the project query,
    whatever happens, consumes one reply and leaves the file system alone.
    It returns the project ids of the hits when the reply is an unbroken
    response with a good status and a JSON body of project hits, logging how
    many it found.  In every other case one ERROR record is logged, which
    begins with "Failed to fetch TCGA projects: ", and the error is raised
    again as it is, not wrapped. *)
Theorem get_all_projects_spec (w : world) :
  let '(r, w') := get_all_projects w in
  fs w' = fs w /\ requests w' = requests w ++ [ProjectsQuery]
  /\ net w' = tl (net w) /\ slept w' = slept w
  /\ match r with
     | Ok projects =>
         (exists resp doc,
            head (net w) = Some (Answer resp) /\ cut resp = None
            /\ bad_status resp = false /\ json_body resp = Some doc
            /\ project_ids doc = Ok projects)
         /\ log w' = log w
                     ++ [(INFO, "Fetching all TCGA projects with slide images from GDC API"%string);
                         (INFO, ("Found " ++ str_nat (length projects)
                                 ++ " TCGA projects with slide images: "
                                 ++ String.concat ", " projects)%string)]
     | Raise e =>
         (exists text,
            log w' = log w
                     ++ [(INFO, "Fetching all TCGA projects with slide images from GDC API"%string);
                         (ERROR, ("Failed to fetch TCGA projects: " ++ text)%string)])
         /\ match head (net w) with
            | None => e = ConnectionError
            | Some (Refused e') => e = e'
            | Some (Answer resp) =>
                match cut resp with
                | Some e' => e = e'
                | None =>
                    if bad_status resp then e = HTTPError (status_code resp)
                    else match json_body resp with
                         | None => e = JSONDecodeError
                         | Some doc => project_ids doc = Raise e
                         end
                end
            end
     end.
Proof.
  unfold get_all_projects, try_except, bind, Download.requests_get_full, bind,
    requests_get, raise_for_status, response_json, lift, emit, raise, ret,
    bad_status.
  simpl.
  destruct (net w) as [|[e|r] rest]; simpl;
    try (rewrite <- !app_assoc; repeat split; try reflexivity;
         eexists; reflexivity).
  destruct (cut r) eqn:Hc; simpl;
    try (rewrite <- !app_assoc; repeat split; try reflexivity;
         eexists; reflexivity).
  destruct (_ && _) eqn:Hb; simpl;
    try (rewrite <- !app_assoc; repeat split; try reflexivity;
         eexists; reflexivity).
  destruct (json_body r) as [doc|] eqn:Hj; simpl;
    try (rewrite <- !app_assoc; repeat split; try reflexivity;
         eexists; reflexivity).
  destruct (project_ids doc) eqn:Hp; simpl;
    rewrite <- !app_assoc; repeat split; try reflexivity;
    try (eexists; reflexivity).
  exists r, doc. auto.
Qed.

(** X25. [get_manifest] issues exactly one request, the manifest query of
    its project, consumes one reply, logs one INFO record and leaves the file
    system alone.  It returns the decoded body when the reply is an unbroken
    response with a good status and a JSON body; otherwise it raises the
    error of the connection, the error that broke the stream, [HTTPError]
    with the status, or [JSONDecodeError], and logs nothing about it: that
    is left to the caller. *)
Theorem get_manifest_spec (project_id : string) (w : world) :
  let '(r, w') := get_manifest project_id w in
  fs w' = fs w /\ requests w' = requests w ++ [ManifestQuery project_id]
  /\ net w' = tl (net w) /\ slept w' = slept w
  /\ log w' = log w ++ [(INFO, ("Fetching manifest for " ++ project_id)%string)]
  /\ r = match head (net w) with
         | None => Raise ConnectionError
         | Some (Refused e) => Raise e
         | Some (Answer resp) =>
             match cut resp with
             | Some e => Raise e
             | None =>
                 if bad_status resp then Raise (HTTPError (status_code resp))
                 else match json_body resp with
                      | None => Raise JSONDecodeError
                      | Some doc => Ok doc
                      end
             end
         end.
Proof.
  unfold get_manifest, bind, Download.requests_get_full, bind, requests_get,
    raise_for_status, response_json, emit, raise, ret, bad_status.
  simpl.
  destruct (net w) as [|[e|r] rest]; simpl; auto 10.
  destruct (cut r); simpl; auto 10.
  destruct (_ && _); simpl; auto 10.
  destruct (json_body r) as [doc|]; simpl; auto 10.
Qed.

End ArgumentFacts.

Module RequestFacts.
Import Summary Orchestrator OrchestratorSpec Download DownloadSpec DownloadFacts
  DownloadEngineFacts DirectoryFacts OrchestratorFacts ArgumentFacts.
Local Open Scope world_scope.

(** *** The downloads of one patient *)

Lemma download_file_requests md5 project_id file_id file_name identifier md5sum
    project_slides_dir w :
  exists k,
    (k <= 3)%nat
    /\ requests (snd (download_file md5 project_id file_id file_name identifier
                        md5sum project_slides_dir w))
       = requests w ++ repeat (DataFetch file_id) k.
Proof.
  unfold download_file, download_file_attempts.
  pose proof (retrying_length
                (download_attempt md5 project_id file_id file_name identifier
                   md5sum project_slides_dir) 3 1 w (le_n 1)) as Hlen.
  destruct (retrying 3 1 _ w) as [[r w'] attempts] eqn:E. simpl in Hlen.
  destruct (retrying_within _ _ _
              (download_attempt_spends md5 project_id file_id file_name
                 identifier md5sum project_slides_dir) _ _ _ _ _ _ E)
    as (k & Hk & Hr & _).
  exists k. split; [lia | exact Hr].
Qed.



(** *** The requests of a run *)

Lemma asks_keeps {A} P (m : M A) : keeps requests m -> asks P m.
Proof.
  intros H w. exists []. rewrite app_nil_r. split; [apply H | constructor].
Qed.

Lemma asks_bind {A B} P (m : M A) (k : A -> M B) :
  asks P m -> (forall a, asks P (k a)) -> asks P (bind m k).
Proof.
  intros Hm Hk w. unfold bind. destruct (Hm w) as (x1 & H1 & P1).
  destruct (m w) as [[a|e] w1]; simpl in H1.
  - destruct (Hk a w1) as (x2 & H2 & P2). exists (x1 ++ x2).
    rewrite H2, H1, <- app_assoc. split; [reflexivity|].
    apply Forall_app. auto.
  - exists x1. auto.
Qed.

Lemma asks_try_except {A} P (m : M A) (h : exn -> M A) :
  asks P m -> (forall e, asks P (h e)) -> asks P (try_except m h).
Proof.
  intros Hm Hh w. unfold try_except. destruct (Hm w) as (x1 & H1 & P1).
  destruct (m w) as [[a|e] w1]; simpl in H1.
  - exists x1. auto.
  - destruct (Hh e w1) as (x2 & H2 & P2). exists (x1 ++ x2).
    rewrite H2, H1, <- app_assoc. split; [reflexivity|].
    apply Forall_app. auto.
Qed.

Lemma asks_for_each {A} P (l : list A) body :
  (forall x, asks P (body x)) -> asks P (for_each l body).
Proof.
  intros Hb. induction l as [|x l IH]; simpl.
  - apply asks_keeps, keeps_ret.
  - apply asks_bind; auto.
Qed.

Lemma asks_requests_get_full P rq : P rq -> asks P (requests_get_full rq).
Proof.
  intros HP w. exists [rq]. split; [|repeat constructor; exact HP].
  unfold requests_get_full, bind, requests_get.
  destruct (net w) as [|[e|r] rest]; simpl; try reflexivity.
  destruct (cut r); reflexivity.
Qed.

Lemma keeps_requests_lift {A} (r : result A) : keeps requests (Summary.lift r).
Proof. destruct r; [apply keeps_ret | apply keeps_raise]. Qed.

Lemma keeps_requests_writerow p row : keeps requests (writerow p row).
Proof.
  intros w. unfold writerow. destruct (fs w !! p) as [[|[d|d|d]]|]; reflexivity.
Qed.

Lemma keeps_requests_put_content p c : keeps requests (put_content p c).
Proof. intros w. reflexivity. Qed.

Lemma keeps_requests_mkdir_parents p : keeps requests (mkdir_parents p).
Proof. intros w. destruct (mkdir_parents_grows p w) as (_ & H & _). exact H. Qed.

Lemma keeps_requests_create_directories project_id download_type :
  keeps requests (create_directories project_id download_type).
Proof.
  unfold create_directories.
  apply keeps_bind; [apply keeps_requests_mkdir_parents|]. intros _.
  destruct (negb _); [|apply keeps_ret].
  apply keeps_bind; [apply keeps_requests_mkdir_parents|]. intros _.
  apply keeps_ret.
Qed.

Lemma keeps_requests_save_metadata project_id identifier slides dir :
  keeps requests (save_metadata project_id identifier slides dir).
Proof.
  unfold save_metadata.
  apply keeps_bind; [apply keeps_open_write; reflexivity|]. intros _.
  apply keeps_bind; [apply keeps_requests_put_content|]. intros _.
  apply keeps_requests_emit.
Qed.

Lemma keeps_requests_project_summary rt project_id patient_slides :
  keeps requests (generate_project_summary_csv rt project_id patient_slides).
Proof.
  unfold generate_project_summary_csv.
  apply keeps_bind; [apply keeps_requests_lift|]. intros m.
  apply keeps_bind; [apply keeps_open_write; reflexivity|]. intros _.
  do 4 (apply keeps_bind; [apply keeps_requests_writerow|]; intros _).
  apply keeps_bind.
  { apply keeps_for_each. intros item.
    apply keeps_bind; [apply keeps_requests_lift|]. intros row.
    apply keeps_requests_writerow. }
  intros _.
  do 9 (apply keeps_bind; [apply keeps_requests_emit|]; intros _).
  apply keeps_ret.
Qed.

Lemma keeps_requests_all_projects_summary project_summaries :
  keeps requests (generate_all_projects_summary_csv project_summaries).
Proof.
  unfold generate_all_projects_summary_csv.
  apply keeps_bind; [apply keeps_open_write; reflexivity|]. intros _.
  apply keeps_bind; [apply keeps_requests_writerow|]. intros _.
  apply keeps_bind;
    [apply keeps_for_each; intros x; apply keeps_requests_writerow|].
  intros _. apply keeps_requests_emit.
Qed.

Lemma asks_get_manifest P project_id :
  P (ManifestQuery project_id) -> asks P (get_manifest project_id).
Proof.
  intros HP. unfold get_manifest.
  apply asks_bind; [apply asks_keeps, keeps_requests_emit|]. intros _.
  apply asks_bind; [apply asks_requests_get_full, HP|]. intros r.
  apply asks_bind; [apply asks_keeps, keeps_raise_for_status|]. intros _.
  apply asks_keeps. unfold response_json.
  destruct (json_body r); [apply keeps_ret | apply keeps_raise].
Qed.

Lemma asks_get_all_projects P : P ProjectsQuery -> asks P get_all_projects.
Proof.
  intros HP w. exists [ProjectsQuery].
  pose proof (get_all_projects_frame w) as H.
  destruct (get_all_projects w) as [r w1]. simpl.
  split; [apply H | repeat constructor; exact HP].
Qed.

(** The [try] block of one project in metadata-only mode. *)
Lemma asks_process_project_none rt patient_id_list project_id dir slides_dir :
  asks no_fetch
    (process_project rt "none" patient_id_list project_id dir slides_dir).
Proof.
  unfold process_project.
  apply asks_bind; [apply asks_get_manifest; exact I|]. intros manifest.
  apply asks_bind; [apply asks_keeps, keeps_requests_lift|]. intros files.
  apply asks_bind; [apply asks_keeps, keeps_requests_lift|]. intros patient_slides.
  apply asks_bind.
  { apply asks_keeps. destruct patient_slides;
      [apply keeps_requests_emit | apply keeps_ret]. }
  intros _. apply asks_bind.
  { apply asks_for_each. intros item. apply asks_keeps.
    apply keeps_bind; [apply keeps_requests_save_metadata|]. intros _.
    change (negb ("none" =? "none")) with false. apply keeps_ret. }
  intros _. apply asks_keeps, keeps_requests_project_summary.
Qed.

Lemma asks_project_loop_none rt patient_id_list project_list :
  forall acc,
    asks no_fetch (project_loop rt "none" patient_id_list project_list acc).
Proof.
  induction project_list as [|project_id rest IH]; intros acc; simpl.
  - apply asks_keeps, keeps_ret.
  - apply asks_bind; [apply asks_keeps, keeps_requests_emit|]. intros _.
    apply asks_bind; [apply asks_keeps, keeps_requests_create_directories|].
    intros dirs. apply asks_bind; [|intros acc'; apply IH].
    apply asks_try_except.
    + apply asks_bind; [apply asks_process_project_none|]. intros s.
      apply asks_keeps, keeps_ret.
    + intros e. apply asks_bind; [apply asks_keeps, keeps_requests_emit|].
      intros _. apply asks_keeps, keeps_ret.
Qed.

Lemma requests_bind_exact {A B} (m : M A) (k : A -> M B) l :
  (forall w, requests (snd (m w)) = requests w ++ l) ->
  (forall a, keeps requests (k a)) ->
  forall w, requests (snd (bind m k w)) = requests w ++ l.
Proof.
  intros Hm Hk w. unfold bind. specialize (Hm w).
  destruct (m w) as [[a|e] w1]; simpl in Hm; [|exact Hm].
  rewrite Hk. exact Hm.
Qed.

Lemma get_manifest_requests project_id w :
  requests (snd (get_manifest project_id w))
  = requests w ++ [ManifestQuery project_id].
Proof.
  unfold get_manifest, bind, requests_get_full, bind, requests_get,
    raise_for_status, response_json, emit, raise, ret.
  simpl.
  destruct (net w) as [|[e|r] rest]; simpl; auto.
  destruct (cut r); simpl; auto.
  destruct (_ && _); simpl; auto.
  destruct (json_body r) as [doc|]; simpl; auto.
Qed.

(** X18. In metadata-only mode (download type "none") a run never fetches
    a slide: whatever the arguments, the catalog and the file system, every
    request of [download_tcga_slides] is the project query or a manifest
    query.  The [try] block of one project issues its manifest query and
    nothing else. *)
Theorem metadata_only_never_fetches
    (rt : runtime) (projects : string) (patient_ids : option string) (w : world) :
  (exists extra,
     requests (snd (download_tcga_slides rt "none" projects patient_ids w))
     = requests w ++ extra
     /\ Forall no_fetch extra)
  /\ (forall patient_id_list project_id dir slides_dir w0,
        requests (snd (process_project rt "none" patient_id_list project_id dir
                         slides_dir w0))
        = requests w0 ++ [ManifestQuery project_id]).
Proof.
  split.
  - revert w. change (asks no_fetch (download_tcga_slides rt "none" projects patient_ids)).
    unfold download_tcga_slides. change (negb _) with false. cbv iota.
    apply asks_bind; [apply asks_get_all_projects; exact I|]. intros all_projects.
    apply asks_bind.
    { apply asks_keeps. intros w. rewrite select_projects_frame. reflexivity. }
    intros project_list. apply asks_bind.
    { apply asks_keeps. intros w.
      pose proof (load_patient_ids_frame patient_ids w) as H.
      destruct (load_patient_ids patient_ids w). simpl. apply H. }
    intros patient_id_list. unfold process_projects.
    apply asks_bind; [apply asks_project_loop_none|]. intros project_summaries.
    apply asks_keeps, keeps_requests_all_projects_summary.
  - intros patient_id_list project_id dir slides_dir w0.
    unfold process_project. apply requests_bind_exact.
    + apply get_manifest_requests.
    + intros manifest.
      apply keeps_bind; [apply keeps_requests_lift|]. intros files.
      apply keeps_bind; [apply keeps_requests_lift|]. intros patient_slides.
      apply keeps_bind.
      { destruct patient_slides; [apply keeps_requests_emit | apply keeps_ret]. }
      intros _. apply keeps_bind.
      { apply keeps_for_each. intros item.
        apply keeps_bind; [apply keeps_requests_save_metadata|]. intros _.
        change (negb ("none" =? "none")) with false. apply keeps_ret. }
      intros _. apply keeps_requests_project_summary.
Qed.

End RequestFacts.

Module PlainFacts.
Import Summary Orchestrator OrchestratorSpec Download DownloadSpec DownloadFacts
  DownloadEngineFacts DirectoryFacts OrchestratorFacts ArgumentFacts RequestFacts.
Local Open Scope world_scope.

Section Run.
Variable rt : runtime.
Variable download_type : string.

Lemma plain_project_loop_app done rest :
  forall acc w,
    Plain.project_loop rt download_type (done ++ rest) acc w
    = (let* acc' := Plain.project_loop rt download_type done acc in
       Plain.project_loop rt download_type rest acc') w.
Proof.
  induction done as [|project_id done IH]; intros acc w; [reflexivity|].
  simpl. unfold bind.
  destruct (Plain.process_project rt download_type project_id w) as [[s|e] w1];
    [|reflexivity].
  rewrite IH. reflexivity.
Qed.

(** X19. The plain pipeline checks its arguments before anything else: a
    download type outside the four admitted ones, or a project name that is
    not in its fixed list [ALL_PROJECTS], raises a [ValueError] with the
    world exactly as it was: no request, no directory, no printed line. *)
Theorem plain_arguments_checked_first (projects : string) (w : world) :
  let admitted :=
    Grouping.str_in download_type ["tissue"; "diagnostic"; "both"; "none"] in
  let '(r, w') := Plain.download_tcga_slides rt download_type projects w in
  (admitted = false ->
   r = Raise (ValueError "download_type must be 'tissue', 'diagnostic', 'both', or 'none'")
   /\ w' = w)
  /\ (admitted = true ->
      forall p,
        str_lower projects <> "all"%string ->
        In p (map str_strip (split_comma projects)) ->
        ~ In p Plain.ALL_PROJECTS ->
        (exists msg, r = Raise (ValueError msg)) /\ w' = w).
Proof.
  cbv zeta. unfold Plain.download_tcga_slides.
  destruct (Grouping.str_in download_type _).
  - change (negb true) with false. cbv iota. unfold bind at 1.
    pose proof (fun p => select_projects_unknown projects Plain.ALL_PROJECTS p w)
      as Hs.
    destruct (select_projects projects Plain.ALL_PROJECTS w) as [[l|e] w1].
    + match goal with |- let '(r, w') := ?x in _ => destruct x as [r w'] end.
      split; [discriminate|]. intros _ p Hl Hp Hnp.
      destruct (Hs p Hl Hp Hnp) as (msg & Hmsg). discriminate.
    + split; [discriminate|]. intros _ p Hl Hp Hnp.
      destruct (Hs p Hl Hp Hnp) as (msg & Hmsg). inversion Hmsg. eauto.
  - change (negb false) with true. cbv iota. split; [auto | discriminate].
Qed.

(** X20. The plain pipeline has no [try]: the first project whose
    processing raises ends the run with that exception, in the world that
    project left.  The projects after it are not visited and the
    cross-project report is not written, whatever summaries the projects
    before it produced. *)
Theorem plain_run_stops_at_first_failure
    (projects : string) (done rest : list string) (project_id : string)
    (project_summaries : list project_summary) (w w1 w2 : world) (e : exn) :
  Grouping.str_in download_type ["tissue"; "diagnostic"; "both"; "none"] = true ->
  select_projects projects Plain.ALL_PROJECTS w
  = (Ok (done ++ project_id :: rest), w) ->
  Plain.project_loop rt download_type done [] w = (Ok project_summaries, w1) ->
  Plain.process_project rt download_type project_id w1 = (Raise e, w2) ->
  Plain.download_tcga_slides rt download_type projects w = (Raise e, w2).
Proof.
  intros Ha Hsel Hdone Hfail.
  assert (Hloop : Plain.project_loop rt download_type
                    (done ++ project_id :: rest) [] w = (Raise e, w2)).
  { rewrite plain_project_loop_app. unfold bind at 1. rewrite Hdone.
    simpl. unfold bind at 1. rewrite Hfail. reflexivity. }
  unfold Plain.download_tcga_slides.
  rewrite Ha. change (negb true) with false. cbv iota.
  unfold bind at 1. rewrite Hsel. unfold bind at 1. rewrite Hloop. reflexivity.
Qed.

End Run.

Lemma plain_arguments_checked_first_witness :
  exists msg,
    Plain.download_tcga_slides OrchestratorSamples.runtime_a "both"
      "TCGA-BRCA,TCGA-XXXX" OrchestratorSamples.one_failing_world
    = (Raise (ValueError msg), OrchestratorSamples.one_failing_world).
Proof.
  pose proof (plain_arguments_checked_first OrchestratorSamples.runtime_a "both"
                "TCGA-BRCA,TCGA-XXXX" OrchestratorSamples.one_failing_world) as H.
  cbv zeta in H.
  destruct (Plain.download_tcga_slides _ _ _ _) as [r w'].
  destruct H as [_ H].
  destruct (H eq_refl "TCGA-XXXX"%string) as [(msg & ->) ->].
  - vm_compute. discriminate.
  - vm_compute. auto.
  - vm_compute. intuition discriminate.
  - exists msg. reflexivity.
Defined.

Lemma plain_run_stops_at_first_failure_witness :
  exists w',
    Plain.download_tcga_slides OrchestratorSamples.runtime_a "none"
      "TCGA-BRCA,TCGA-LUAD" OrchestratorSamples.one_failing_world
    = (Raise (HTTPError 503), w')
    /\ requests w' = [ManifestQuery "TCGA-BRCA"]
    /\ fs w' !! all_projects_csv = None.
Proof.
  pose (w := OrchestratorSamples.one_failing_world).
  pose (w2 := snd (Plain.process_project OrchestratorSamples.runtime_a "none"
                     "TCGA-BRCA" w)).
  exists w2. split; [|split; vm_compute; reflexivity].
  apply (plain_run_stops_at_first_failure OrchestratorSamples.runtime_a "none"
           "TCGA-BRCA,TCGA-LUAD" [] ["TCGA-LUAD"%string] "TCGA-BRCA" [] w w w2
           (HTTPError 503)).
  - reflexivity.
  - vm_compute; reflexivity.
  - reflexivity.
  - vm_compute; reflexivity.
Defined.

(** *** The two files write the same reports *)

Lemma agree_bind {A B} (m1 m2 : M A) (k1 k2 : A -> M B) :
  agree m1 m2 -> (forall a, agree (k1 a) (k2 a)) -> agree (bind m1 k1) (bind m2 k2).
Proof.
  intros Hm Hk w1 w2 Hw. unfold bind. destruct (Hm w1 w2 Hw) as [Hr Hs].
  destruct (m1 w1) as [[a|e] w1'], (m2 w2) as [[a'|e'] w2']; simpl in *;
    try discriminate.
  - inversion Hr. subst a'. apply Hk, Hs.
  - inversion Hr. subst e'. auto.
Qed.

Lemma agree_ret {A} (a : A) : agree (ret a) (ret a).
Proof. intros w1 w2 Hw. auto. Qed.

Lemma agree_emit lv1 msg1 lv2 msg2 : agree (emit lv1 msg1) (emit lv2 msg2).
Proof. intros w1 w2 Hw. split; [reflexivity | exact Hw]. Qed.

Lemma agree_lift {A} (r : result A) : agree (lift r) (lift r).
Proof. intros w1 w2 Hw. destruct r; auto. Qed.

Lemma agree_for_each {A} (l : list A) body1 body2 :
  (forall x, agree (body1 x) (body2 x)) -> agree (for_each l body1) (for_each l body2).
Proof.
  intros Hb. induction l as [|x l IH]; simpl; [apply agree_ret|].
  apply agree_bind; auto.
Qed.

Lemma agree_open_write p c : agree (open_write p c) (open_write p c).
Proof.
  intros [f1 n1 r1 l1 s1] [f2 n2 r2 l2 s2] (Hf & Hn & Hr & Hs).
  simpl in *. subst. unfold open_write, same_but_log. simpl.
  destruct (f2 !! p) as [[|c']|]; simpl; auto.
  destruct (parent_fault f2 p); simpl; auto.
Qed.

Lemma agree_writerow p row : agree (writerow p row) (writerow p row).
Proof.
  intros [f1 n1 r1 l1 s1] [f2 n2 r2 l2 s2] (Hf & Hn & Hr & Hs).
  simpl in *. subst. unfold writerow, same_but_log. simpl.
  destruct (f2 !! p) as [[|[d|d|d]]|]; simpl; auto.
Qed.

Lemma agree_put_content p c : agree (put_content p c) (put_content p c).
Proof.
  intros [f1 n1 r1 l1 s1] [f2 n2 r2 l2 s2] (Hf & Hn & Hr & Hs).
  simpl in *. subst. unfold put_content, same_but_log. simpl. auto.
Qed.

Lemma agree_requests_get_full rq :
  agree (requests_get_full rq) (requests_get_full rq).
Proof.
  intros [f1 n1 r1 l1 s1] [f2 n2 r2 l2 s2] (Hf & Hn & Hr & Hs).
  simpl in *. subst.
  unfold requests_get_full, bind, requests_get, same_but_log. simpl.
  destruct n2 as [|[e|r] rest]; simpl; auto.
  destruct (cut r); simpl; auto.
Qed.

(** X21. The reporting and persisting steps of the two files do the same
    work.  From worlds that differ in their logs at most, the functions of
    the two pipelines that write a patient's metadata, fetch a manifest and
    write the project report and the cross-project report return the same
    value or raise the same exception, and leave worlds that still differ in
    their logs at most: same files with the same content, same requests.
    Only what is logged or printed differs. *)
Theorem reporters_agree
    (rt : runtime) (project_id identifier dir : string)
    (slides : list file_record) (patient_slides : patient_groups)
    (project_summaries : list project_summary) :
  agree (save_metadata project_id identifier slides dir)
        (Plain.save_metadata project_id identifier slides dir)
  /\ agree (get_manifest project_id) (Plain.get_manifest project_id)
  /\ agree (generate_project_summary_csv rt project_id patient_slides)
           (Plain.generate_project_summary_csv rt project_id patient_slides)
  /\ agree (generate_all_projects_summary_csv project_summaries)
           (Plain.generate_all_projects_summary_csv project_summaries).
Proof.
  split; [|split; [|split]].
  - unfold save_metadata, Plain.save_metadata.
    apply agree_bind; [apply agree_open_write|]. intros _.
    apply agree_bind; [apply agree_put_content|]. intros _.
    apply agree_emit.
  - unfold get_manifest, Plain.get_manifest.
    intros w1 w2 Hw. unfold bind at 1.
    change (emit INFO ("Fetching manifest for " ++ project_id) w1)
      with (Ok tt, logged [(INFO, ("Fetching manifest for " ++ project_id)%string)] w1).
    cbv beta iota.
    apply (agree_bind (requests_get_full (ManifestQuery project_id))
             (requests_get_full (ManifestQuery project_id))).
    + apply agree_requests_get_full.
    + intros r. apply agree_bind.
      * intros v1 v2 Hv. unfold raise_for_status.
        destruct (_ && _); simpl; auto.
      * intros _ v1 v2 Hv. unfold response_json.
        destruct (json_body r); simpl; auto.
    + exact Hw.
  - unfold generate_project_summary_csv, Plain.generate_project_summary_csv.
    apply agree_bind; [apply agree_lift|]. intros m.
    apply agree_bind; [apply agree_open_write|]. intros _.
    do 4 (apply agree_bind; [apply agree_writerow|]; intros _).
    apply agree_bind.
    { apply agree_for_each. intros item.
      apply agree_bind; [apply agree_lift|]. intros row. apply agree_writerow. }
    intros _.
    do 9 (apply agree_bind; [apply agree_emit|]; intros _).
    apply agree_ret.
  - unfold generate_all_projects_summary_csv, Plain.generate_all_projects_summary_csv.
    apply agree_bind; [apply agree_open_write|]. intros _.
    apply agree_bind; [apply agree_writerow|]. intros _.
    apply agree_bind; [apply agree_for_each; intros x; apply agree_writerow|].
    intros _. apply agree_emit.
Qed.

End PlainFacts.

Module ReportFacts.
Import Summary SummarySpec Orchestrator OrchestratorSpec DownloadSpec DownloadFacts
  PathFacts PersisterFacts SummaryFacts.
Local Open Scope world_scope.

(** *** When the project report is written *)









(** *** The cross-project report *)

Lemma writerows_run {A} p (row_of : A -> list string) l :
  forall w rows,
    fs w !! p = Some (File (CsvDoc rows)) ->
    for_each l (fun x => writerow p (row_of x)) w
    = (Ok tt, set_fs (<[p := File (CsvDoc (rows ++ map row_of l))]> (fs w)) w).
Proof.
  induction l as [|x l IH]; intros w rows Hp; simpl.
  - rewrite app_nil_r, insert_id by exact Hp.
    rewrite DownloadEngineFacts.set_fs_id. reflexivity.
  - unfold bind, writerow at 1. rewrite Hp.
    rewrite (IH _ (rows ++ [row_of x])) by (simpl; apply lookup_insert_eq).
    simpl. rewrite insert_insert_eq, <- app_assoc. reflexivity.
Qed.

(** X26. [generate_all_projects_summary_csv] issues no request and touches
    no path but [tcga_data/all_tcga_projects_summary.csv].  When it returns,
    the file holds the header and one row per summary, in the order of the
    list, in place of whatever it held, and one INFO record is logged.  When
    it raises, the world is unchanged and the exception is no
    [RequestException].  It returns whenever [tcga_data] is a directory and
    the report path is not one; an empty list of summaries gives a report
    with the header alone. *)
Theorem all_projects_report (project_summaries : list project_summary) (w : world) :
  let '(r, w') := generate_all_projects_summary_csv project_summaries w in
  requests w' = requests w /\ net w' = net w /\ slept w' = slept w
  /\ (forall q, q <> all_projects_csv -> fs w' !! q = fs w !! q)
  /\ match r with
     | Ok _ =>
         fs w' !! all_projects_csv
         = Some (File (CsvDoc (summary_header :: map summary_row project_summaries)))
         /\ log w' = log w
                     ++ [(INFO, ("Generated all projects summary CSV: "
                                 ++ all_projects_csv)%string)]
     | Raise e => w' = w /\ is_request_exception e = false
     end
  /\ (fs w !! BASE_DIR = Some Dir -> fs w !! all_projects_csv <> Some Dir ->
      r = Ok tt).
Proof.
  unfold generate_all_projects_summary_csv. unfold bind at 1.
  assert (Hrest : forall f,
            (writerow all_projects_csv summary_header ;;
             for_each project_summaries
               (fun summary => writerow all_projects_csv (summary_row summary)) ;;
             emit INFO ("Generated all projects summary CSV: " ++ all_projects_csv))
              (set_fs (<[all_projects_csv := File (CsvDoc [])]> f) w)
            = (Ok tt,
               logged [(INFO, ("Generated all projects summary CSV: "
                               ++ all_projects_csv)%string)]
                 (set_fs (<[all_projects_csv :=
                              File (CsvDoc (summary_header
                                            :: map summary_row project_summaries))]> f)
                    w))).
  { intros f. unfold bind at 1, writerow at 1. simpl fs.
    rewrite lookup_insert_eq. cbv beta iota. unfold bind at 1.
    rewrite (writerows_run all_projects_csv summary_row project_summaries _
               [summary_header]) by (simpl; apply lookup_insert_eq).
    cbv beta iota. simpl. rewrite !insert_insert_eq. reflexivity. }
  unfold open_write.
  destruct (fs w !! all_projects_csv) as [[|c]|] eqn:E.
  - repeat split; auto. intros _ H. contradiction.
  - rewrite Hrest. simpl. repeat split; auto.
    + intros q Hq. apply lookup_insert_ne. congruence.
    + apply lookup_insert_eq.
  - destruct (parent_fault (fs w) all_projects_csv) as [e|] eqn:Hf.
    + repeat split; auto.
      * apply (parent_fault_exn _ _ _ Hf).
      * intros Hd _. exfalso. unfold parent_fault in Hf.
        change (parent all_projects_csv) with BASE_DIR in Hf.
        unfold is_dir in Hf. rewrite Hd, !orb_true_r in Hf. discriminate.
    + rewrite Hrest. simpl. repeat split; auto.
      * intros q Hq. apply lookup_insert_ne. congruence.
      * apply lookup_insert_eq.
Qed.

Lemma all_projects_report_witness :
  let '(r, w') :=
    generate_all_projects_summary_csv [] OrchestratorSamples.base_world in
  r = Ok tt
  /\ fs w' !! all_projects_csv = Some (File (CsvDoc [summary_header])).
Proof.
  pose proof (all_projects_report [] OrchestratorSamples.base_world) as H.
  destruct (generate_all_projects_summary_csv [] OrchestratorSamples.base_world)
    as [r w'].
  destruct H as (_ & _ & _ & _ & Hr & Hok).
  assert (E : r = Ok tt).
  { apply Hok; [reflexivity|]. intros H. vm_compute in H. discriminate. }
  subst r. split; [reflexivity | apply Hr].
Defined.

End ReportFacts.

Module PipelineFacts.
Import Summary SummarySpec Orchestrator OrchestratorSpec Download DownloadSpec
  DownloadFacts PathFacts DownloadEngineFacts DirectoryFacts PersisterFacts
  SummaryFacts RequestFacts.
Local Open Scope world_scope.

(** *** Paths of the pipeline that cannot coincide *)

Lemma append_cancel_l a t u : (a ++ t)%string = (a ++ u)%string -> t = u.
Proof.
  induction a as [|c a IH]; [auto|]. intros H.
  change (String c (a ++ t)%string = String c (a ++ u)%string) in H.
  injection H as H. exact (IH H).
Qed.

Lemma append_cancel_r s : forall a b, (a ++ s)%string = (b ++ s)%string -> a = b.
Proof.
  assert (Hlen : forall x y, String.length (x ++ y)%string
                             = (String.length x + String.length y)%nat).
  { intros x y. induction x as [|c x IH]; [reflexivity|].
    change (S (String.length (x ++ y)%string)
            = S (String.length x + String.length y)). rewrite IH. reflexivity. }
  induction a as [|c a IH]; intros b H.
  - destruct b as [|c b]; [reflexivity|].
    apply (f_equal String.length) in H. rewrite !Hlen in H. simpl in H. lia.
  - destruct b as [|c' b].
    + apply (f_equal String.length) in H. rewrite !Hlen in H. simpl in H. lia.
    + change (String c (a ++ s)%string = String c' (b ++ s)%string) in H.
      injection H as Hc H. rewrite Hc, (IH b H). reflexivity.
Qed.

Section Paths.
Variable project_id : string.
Hypothesis project_id_proper : proper_name project_id = true.

Local Abbreviation metadata_dir := (path_join METADATA_DIR project_id).
Local Abbreviation slides_dir := (path_join SLIDES_DIR project_id).
Local Abbreviation metadata_path k := (path_join metadata_dir (k ++ ".json")).

Lemma metadata_path_eq k :
  plain_name k = true ->
  metadata_path k
  = ("tcga_data/metadata" ++ ("/" ++ project_id ++ "/" ++ k ++ ".json"))%string.
Proof.
  intros Hk.
  destruct (proper_name_inv _ project_id_proper) as [_ Hp].
  destruct (path_join_proper_shape METADATA_DIR project_id project_id_proper)
    as (Hne & Hes & _).
  rewrite (path_join_plain_eq _ _ Hne Hes)
    by (rewrite plain_name_app, Hk; reflexivity).
  rewrite (path_join_plain_eq METADATA_DIR project_id) by
    (try discriminate; try reflexivity; exact Hp).
  change METADATA_DIR with "tcga_data/metadata"%string.
  rewrite !append_assoc. reflexivity.
Qed.

Lemma metadata_path_inj k k' :
  plain_name k = true -> plain_name k' = true ->
  metadata_path k = metadata_path k' -> k = k'.
Proof.
  intros Hk Hk' H. rewrite (metadata_path_eq k Hk), (metadata_path_eq k' Hk') in H.
  do 4 (apply append_cancel_l in H). apply append_cancel_r in H. exact H.
Qed.

Lemma slides_path_eq k :
  proper_name k = true ->
  path_join slides_dir k
  = ("tcga_data/slides" ++ ("/" ++ project_id ++ "/" ++ k))%string
  /\ forall name, proper_name name = true ->
       path_join (path_join slides_dir k) name
       = ("tcga_data/slides" ++ ("/" ++ project_id ++ "/" ++ k ++ "/" ++ name))%string.
Proof.
  intros Hk.
  destruct (proper_name_inv _ project_id_proper) as [_ Hp].
  destruct (proper_name_inv _ Hk) as [_ Hkp].
  destruct (path_join_proper_shape SLIDES_DIR project_id project_id_proper)
    as (Hne & Hes & _).
  destruct (path_join_proper_shape slides_dir k Hk) as (Hne' & Hes' & _).
  assert (E : path_join slides_dir k
              = ("tcga_data/slides" ++ ("/" ++ project_id ++ "/" ++ k))%string).
  { rewrite (path_join_plain_eq _ _ Hne Hes Hkp).
    rewrite (path_join_plain_eq SLIDES_DIR project_id) by
      (try discriminate; try reflexivity; exact Hp).
    change SLIDES_DIR with "tcga_data/slides"%string.
    rewrite !append_assoc. reflexivity. }
  split; [exact E|]. intros name Hn.
  destruct (proper_name_inv _ Hn) as [_ Hnp].
  rewrite (path_join_plain_eq _ _ Hne' Hes' Hnp), E, !append_assoc. reflexivity.
Qed.

(** No metadata file is a patient directory or a slide. *)
Lemma metadata_apart_from_slides k k' :
  plain_name k = true -> proper_name k' = true ->
  metadata_path k <> path_join slides_dir k'
  /\ forall name, proper_name name = true ->
       metadata_path k <> path_join (path_join slides_dir k') name.
Proof.
  intros Hk Hk'. destruct (slides_path_eq k' Hk') as [E1 E2].
  rewrite (metadata_path_eq k Hk). split.
  - rewrite E1.
    intros H. apply (f_equal (String.get 10)) in H. vm_compute in H. discriminate.
  - intros name Hn. rewrite (E2 name Hn).
    intros H. apply (f_equal (String.get 10)) in H. vm_compute in H. discriminate.
Qed.

(** No metadata file is the project report. *)
Lemma metadata_apart_from_report k :
  plain_name k = true ->
  metadata_path k <> path_join BASE_DIR (project_id ++ "_summary.csv").
Proof.
  intros Hk. destruct (proper_name_inv _ project_id_proper) as [_ Hp].
  rewrite (metadata_path_eq k Hk).
  rewrite (path_join_plain_eq BASE_DIR) by
    (try discriminate; try reflexivity; rewrite plain_name_app, Hp; reflexivity).
  intros H.
  change ("tcga_data/metadata" ++ ("/" ++ project_id ++ "/" ++ k ++ ".json"))%string
    with ("tcga_data/" ++ ("metadata/" ++ project_id ++ "/" ++ k ++ ".json"))%string in H.
  change (BASE_DIR ++ "/" ++ project_id ++ "_summary.csv")%string
    with ("tcga_data/" ++ (project_id ++ "_summary.csv"))%string in H.
  apply append_cancel_l in H. apply (f_equal plain_name) in H.
  rewrite (plain_name_app project_id), Hp in H. vm_compute in H. discriminate.
Qed.

End Paths.

(** *** What one project leaves in the metadata directory *)

Lemma keeps_for_each_In {A C} (proj : world -> C) (l : list A) body :
  (forall x, In x l -> keeps proj (body x)) -> keeps proj (for_each l body).
Proof.
  induction l as [|x l IH]; intros Hb; simpl; [apply keeps_ret|].
  apply keeps_bind; [apply Hb; left; reflexivity|].
  intros _. apply IH. intros y Hy. apply Hb. right. exact Hy.
Qed.

Lemma keeps_try_except {A C} (proj : world -> C) (m : M A) h :
  keeps proj m -> (forall e, keeps proj (h e)) -> keeps proj (try_except m h).
Proof.
  intros Hm Hh w. unfold try_except. specialize (Hm w).
  destruct (m w) as [[a|e] w1]; simpl in *; [exact Hm|].
  rewrite Hh. exact Hm.
Qed.

Lemma keeps_subscript {C} (proj : world -> C) {B} key value (k : string -> M B) :
  (forall v, value = Some v -> keeps proj (k v)) ->
  keeps proj (bind (subscript key value) k).
Proof.
  intros Hk. destruct value as [v|]; intros w; [apply (Hk v eq_refl) | reflexivity].
Qed.

Lemma download_file_keeps_path md5 project_id file_id file_name identifier md5sum
    dir q :
  q <> path_join dir identifier ->
  q <> path_join (path_join dir identifier) file_name ->
  keeps (fun w => fs w !! q)
    (download_file md5 project_id file_id file_name identifier md5sum dir).
Proof.
  intros H1 H2 w. unfold download_file, download_file_attempts.
  destruct (retrying 3 1 _ w) as [[r w'] attempts] eqn:E.
  destruct (retrying_within _ _ _
              (download_attempt_spends md5 project_id file_id file_name
                 identifier md5sum dir) _ _ _ _ _ _ E)
    as (k & _ & _ & _ & Hf).
  simpl. apply Hf. simpl. intros [Hq|[Hq|[]]]; [apply H1 | apply H2];
    symmetry; exact Hq.
Qed.

Section Persist.
Variable rt : runtime.
Variables download_type project_id : string.
Hypothesis project_id_proper : proper_name project_id = true.
Variable project_slides_dir : option string.
Hypothesis slides_dir_made :
  project_slides_dir = None
  \/ project_slides_dir = Some (path_join SLIDES_DIR project_id).

Local Abbreviation metadata_dir := (path_join METADATA_DIR project_id).
Local Abbreviation metadata_path k := (path_join metadata_dir (k ++ ".json")).

Lemma download_slides_keeps_metadata k k' slides :
  plain_name k = true -> proper_name k' = true ->
  Forall (fun file => forall name,
            file_name file = Some name -> proper_name name = true) slides ->
  keeps (fun w => fs w !! metadata_path k)
    (download_slides rt download_type project_id k' project_slides_dir slides).
Proof.
  intros Hk Hk' Hnames. unfold download_slides.
  apply keeps_for_each_In. intros file Hin.
  rewrite Forall_forall in Hnames.
  specialize (Hnames file (proj2 (list_elem_of_In _ _) Hin)).
  cbv zeta. destruct (_ || _); [apply keeps_ret|].
  apply keeps_subscript. intros id _.
  apply keeps_subscript. intros name Hname.
  apply keeps_subscript. intros sum _.
  apply keeps_try_except; [|intros e w; reflexivity].
  destruct slides_dir_made as [-> | ->]; [intros w; reflexivity|].
  destruct (metadata_apart_from_slides project_id project_id_proper k k' Hk Hk')
    as [H1 H2].
  apply download_file_keeps_path; [exact H1 | apply H2, Hnames, Hname].
Qed.

Lemma save_metadata_keeps_other k k' slides :
  plain_name k = true -> plain_name k' = true -> k <> k' ->
  keeps (fun w => fs w !! metadata_path k)
    (save_metadata project_id k' slides metadata_dir).
Proof.
  intros Hk Hk' Hne w.
  assert (Hp : metadata_path k' <> metadata_path k).
  { intros H. apply Hne. symmetry.
    apply (metadata_path_inj project_id project_id_proper _ _ Hk' Hk H). }
  unfold save_metadata, bind, open_write.
  destruct (fs w !! metadata_path k') as [[|c]|]; simpl; auto.
  - rewrite !lookup_insert_ne by exact Hp. reflexivity.
  - destruct (parent_fault (fs w) (metadata_path k')); simpl; auto.
    rewrite !lookup_insert_ne by exact Hp. reflexivity.
Qed.

Lemma save_metadata_sets k slides w w1 :
  save_metadata project_id k slides metadata_dir w = (Ok tt, w1) ->
  fs w1 !! metadata_path k = Some (File (JsonDoc slides)).
Proof.
  unfold save_metadata, bind, open_write.
  destruct (fs w !! metadata_path k) as [[|c]|]; simpl.
  - discriminate.
  - intros H. inversion H. simpl. apply lookup_insert_eq.
  - destruct (parent_fault (fs w) (metadata_path k)); simpl; [discriminate|].
    intros H. inversion H. simpl. apply lookup_insert_eq.
Qed.

(** The loop of lines 242-256 leaves every patient's records in the
    patient's file. *)
Lemma patients_persisted (items : patient_groups) :
  forall w w',
    NoDup (map fst items) ->
    Forall (fun item => proper_name (fst item) = true) items ->
    Forall (fun item =>
              Forall (fun file => forall name,
                        file_name file = Some name -> proper_name name = true)
                (snd item)) items ->
    for_each items
      (fun item =>
         save_metadata project_id (fst item) (snd item) metadata_dir ;;
         if negb (download_type =? "none")
         then download_slides rt download_type project_id (fst item)
                project_slides_dir (snd item)
         else ret tt) w = (Ok tt, w') ->
    forall k slides, In (k, slides) items ->
      fs w' !! metadata_path k = Some (File (JsonDoc slides)).
Proof.
  induction items as [|[k0 slides0] items IH];
    intros w w' Hnd Hkeys Hnames Hrun k slides Hin; [contradiction|].
  apply NoDup_cons in Hnd. destruct Hnd as [Hnot Hnd].
  pose proof (Forall_inv Hkeys) as Hk0. pose proof (Forall_inv_tail Hkeys) as Hkeys'.
  pose proof (Forall_inv Hnames) as Hn0.
  pose proof (Forall_inv_tail Hnames) as Hnames'.
  simpl in Hk0, Hn0, Hrun.
  apply bind_Ok_inv in Hrun. destruct Hrun as ([] & w1 & Hbody & Hrest).
  destruct Hin as [E|Hin]; [|exact (IH w1 w' Hnd Hkeys' Hnames' Hrest k slides Hin)].
  inversion E. subst k0 slides0. clear E.
  destruct (proper_name_inv _ Hk0) as [_ Hkp].
  apply bind_Ok_inv in Hbody. destruct Hbody as ([] & w0 & Hsave & Hdl).
  apply save_metadata_sets in Hsave.
  assert (H1 : fs w1 !! metadata_path k = Some (File (JsonDoc slides))).
  { rewrite <- Hsave. destruct (negb (download_type =? "none")).
    - pose proof (download_slides_keeps_metadata k k slides Hkp Hk0 Hn0 w0) as Hd.
      rewrite Hdl in Hd. exact Hd.
    - inversion Hdl. reflexivity. }
  rewrite <- H1.
  match type of Hrest with
  | for_each _ ?body _ = _ =>
      assert (Hkeep : keeps (fun w => fs w !! metadata_path k) (for_each items body))
  end.
  { apply keeps_for_each_In. intros [k' slides'] Hin'. simpl.
    rewrite Forall_forall in Hkeys', Hnames'.
    pose proof (Hkeys' _ (proj2 (list_elem_of_In _ _) Hin')) as Hk'.
    pose proof (Hnames' _ (proj2 (list_elem_of_In _ _) Hin')) as Hn'.
    simpl in Hk', Hn'. destruct (proper_name_inv _ Hk') as [_ Hkp'].
    assert (Hne : k <> k').
    { intros ->. apply Hnot. apply list_elem_of_In.
      apply in_map_iff. exists (k', slides'). auto. }
    apply keeps_bind; [apply save_metadata_keeps_other; assumption|]. intros _.
    destruct (negb (download_type =? "none")); [|apply keeps_ret].
    apply download_slides_keeps_metadata; assumption. }
  specialize (Hkeep w1). rewrite Hrest in Hkeep. exact Hkeep.
Qed.

Lemma get_manifest_Ok w doc w1 :
  get_manifest project_id w = (Ok doc, w1) ->
  exists resp, head (net w) = Some (Answer resp) /\ json_body resp = Some doc.
Proof.
  unfold get_manifest, bind, requests_get_full, bind, requests_get,
    raise_for_status, response_json, emit, raise, ret.
  simpl.
  destruct (net w) as [|[e|r] rest]; simpl; try (intros H; discriminate H).
  destruct (cut r); simpl; try (intros H; discriminate H).
  destruct (_ && _); simpl; try (intros H; discriminate H).
  destruct (json_body r) as [doc'|] eqn:Hj; simpl; try (intros H; discriminate H).
  intros H. inversion H. subst. exists r. auto.
Qed.

(** What a returning [try] block of a project has fetched, grouped and
    left in the metadata directory. *)
Lemma process_project_persists
    (patient_id_list : option (list string)) (w w' : world) (s : project_summary) :
  process_project rt download_type patient_id_list project_id metadata_dir
    project_slides_dir w = (Ok s, w') ->
  exists resp doc files patient_slides,
    head (net w) = Some (Answer resp) /\ json_body resp = Some doc
    /\ manifest_hits doc = Ok files
    /\ Grouping.group_by_patient files
         (if negb (download_type =? "none") then download_type else "both")
         patient_id_list = Ok patient_slides
    /\ total_patients s = length patient_slides
    /\ (Forall (fun item => proper_name (fst item) = true) patient_slides ->
        Forall (fun file => forall name,
                  file_name file = Some name -> proper_name name = true) files ->
        forall k slides, In (k, slides) patient_slides ->
          read_file (metadata_path k) w' = (Ok (JsonDoc slides), w')).
Proof.
  intros H. unfold process_project in H.
  apply bind_Ok_inv in H. destruct H as (doc & w1 & Hget & H).
  apply get_manifest_Ok in Hget. destruct Hget as (resp & Hresp & Hdoc).
  apply bind_Ok_inv in H. destruct H as (files & w2 & Hfiles & H).
  destruct (manifest_hits doc) as [files'|e] eqn:Hhits; [|discriminate].
  inversion Hfiles. subst files' w2. clear Hfiles.
  apply bind_Ok_inv in H. destruct H as (g & w3 & Hg & H).
  destruct (Grouping.group_by_patient files _ patient_id_list) as [g'|e] eqn:Hgroup;
    [|discriminate].
  inversion Hg. subst g' w3. clear Hg.
  apply bind_Ok_inv in H. destruct H as ([] & w4 & _ & H).
  apply bind_Ok_inv in H. destruct H as ([] & w5 & Hloop & Hreport).
  apply generate_project_summary_csv_Ok in Hreport.
  destruct Hreport as (m & rows & _ & Hs & _ & _ & _ & _ & Hq).
  exists resp, doc, files, g.
  split; [exact Hresp|]. split; [exact Hdoc|]. split; [exact Hhits|].
  split; [exact Hgroup|]. split; [rewrite Hs; reflexivity|].
  intros Hkeys Hnames k slides Hin.
  pose proof (GroupingClaims.group_by_patient_grouped _ _ _ _ Hgroup) as Hgr.
  assert (Hslides : Forall (fun item =>
                      Forall (fun file => forall name,
                                file_name file = Some name ->
                                proper_name name = true) (snd item)) g).
  { apply Forall_forall. intros [k' l] Hin'. apply list_elem_of_In in Hin'.
    simpl. apply Forall_forall. intros f Hf. apply list_elem_of_In in Hf.
    destruct (GroupingClaims.grouped_member _ _ _ _ _ _ _ Hgr Hin' Hf) as (Hff & _).
    rewrite Forall_forall in Hnames. apply Hnames, list_elem_of_In, Hff. }
  pose proof (patients_persisted g w4 w5 (proj1 Hgr) Hkeys Hslides Hloop k slides Hin)
    as Hfile.
  assert (Hkp : plain_name k = true).
  { rewrite Forall_forall in Hkeys.
    apply (proper_name_inv _ (Hkeys _ (proj2 (list_elem_of_In _ _) Hin))). }
  unfold read_file.
  rewrite (Hq _ (metadata_apart_from_report project_id project_id_proper k Hkp)).
  rewrite Hfile. reflexivity.
Qed.

End Persist.

Lemma Forall_entry_names {A} (f : A -> string) (l : list A) :
  Forall (fun x => entry_name (f x) = true) l ->
  Forall (fun x => proper_name (f x) = true) l.
Proof.
  intros H. eapply Forall_impl; [exact H|].
  intros x Hx. apply entry_name_proper, Hx.
Qed.

(** X23. One project, from the catalog to the disk, with the directories
    [create_directories] returns for it: the metadata directory
    [tcga_data/metadata/<project_id>] and, unless the download type is
    "none", the slide directory [tcga_data/slides/<project_id>]; the project
    id is an entry name (non-empty, without a slash, neither "." nor "..").
    When the [try] block of the project returns, the reply to its manifest
    query was a response with a JSON body of hits, [group_by_patient]
    returned on those hits, and the summary counts the groups.  If moreover
    the patient identifiers of the groups and the file names of the manifest
    are entry names, then for every group the file [<identifier>.json] of
    the project's metadata directory holds exactly the records of the group,
    in catalog order: neither the later patients, nor the downloads, nor
    the project report overwrite it. *)
Theorem metadata_persisted
    (rt : runtime) (download_type project_id : string)
    (patient_id_list : option (list string)) (w w' : world) (s : project_summary) :
  let metadata_dir := path_join METADATA_DIR project_id in
  let project_slides_dir :=
    if negb (download_type =? "none")%string
    then Some (path_join SLIDES_DIR project_id) else None in
  entry_name project_id = true ->
  process_project rt download_type patient_id_list project_id metadata_dir
    project_slides_dir w = (Ok s, w') ->
  exists resp doc files patient_slides,
    head (net w) = Some (Answer resp) /\ json_body resp = Some doc
    /\ manifest_hits doc = Ok files
    /\ Grouping.group_by_patient files
         (if negb (download_type =? "none")%string then download_type else "both"%string)
         patient_id_list = Ok patient_slides
    /\ total_patients s = length patient_slides
    /\ (Forall (fun item => entry_name (fst item) = true) patient_slides ->
        Forall (fun file => forall name,
                  file_name file = Some name -> entry_name name = true) files ->
        forall k slides, In (k, slides) patient_slides ->
          read_file (path_join metadata_dir (k ++ ".json")) w'
          = (Ok (JsonDoc slides), w')).
Proof.
  intros metadata_dir project_slides_dir Hp Hrun.
  assert (Hdir : project_slides_dir = None
                 \/ project_slides_dir = Some (path_join SLIDES_DIR project_id)).
  { unfold project_slides_dir. destruct (negb _); auto. }
  destruct (process_project_persists rt download_type project_id
              (entry_name_proper _ Hp) project_slides_dir Hdir
              patient_id_list w w' s Hrun)
    as (resp & doc & files & g & Hresp & Hdoc & Hfiles & Hg & Hs & Hall).
  exists resp, doc, files, g.
  split; [exact Hresp|]. split; [exact Hdoc|]. split; [exact Hfiles|].
  split; [exact Hg|]. split; [exact Hs|].
  intros Hkeys Hnames. apply Hall.
  - apply (Forall_entry_names fst), Hkeys.
  - eapply Forall_impl; [exact Hnames|].
    intros file Hfile name Hname. apply entry_name_proper, (Hfile name Hname).
Qed.

Lemma metadata_persisted_witness :
  let w := snd (create_directories "TCGA-BRCA" "none"
                  (mk_world OrchestratorSamples.base_fs
                     [OrchestratorSamples.manifest_reply] [] [] [])) in
  exists s w',
    process_project OrchestratorSamples.runtime_a "none" None "TCGA-BRCA"
      "tcga_data/metadata/TCGA-BRCA" None w = (Ok s, w')
    /\ fs w' !! "tcga_data/metadata/TCGA-BRCA/P1.json"
       = Some (File (JsonDoc [Samples.tissue_P1; Samples.diagnostic_P1]))
    /\ total_patients s = 2%nat.
Proof.
  cbv zeta.
  set (w := snd (create_directories "TCGA-BRCA" "none"
                   (mk_world OrchestratorSamples.base_fs
                      [OrchestratorSamples.manifest_reply] [] [] []))).
  destruct (process_project OrchestratorSamples.runtime_a "none" None "TCGA-BRCA"
              "tcga_data/metadata/TCGA-BRCA" None w) as [[s|e] w'] eqn:E.
  - exists s, w'. split; [reflexivity|].
    destruct (metadata_persisted OrchestratorSamples.runtime_a "none" "TCGA-BRCA"
                None w w' s eq_refl E)
      as (resp & doc & files & g & Hresp & Hdoc & Hfiles & Hg & Hs & Hall).
    vm_compute in Hresp. inversion Hresp. subst resp. clear Hresp.
    vm_compute in Hdoc. inversion Hdoc. subst doc. clear Hdoc.
    vm_compute in Hfiles. inversion Hfiles. subst files. clear Hfiles.
    vm_compute in Hg. inversion Hg. subst g. clear Hg.
    split; [|exact Hs].
    specialize (Hall ltac:(repeat constructor)).
    assert (Hn : Forall (fun file => forall name,
                           file_name file = Some name -> entry_name name = true)
                   [Samples.tissue_P1; Samples.diagnostic_P1; Samples.tissue_P2]).
    { repeat constructor; intros name H; inversion H; reflexivity. }
    specialize (Hall Hn "P1"%string [Samples.tissue_P1; Samples.diagnostic_P1]
                  (or_introl eq_refl)).
    unfold read_file in Hall.
    change (path_join (path_join METADATA_DIR "TCGA-BRCA") ("P1" ++ ".json"))
      with "tcga_data/metadata/TCGA-BRCA/P1.json"%string in Hall.
    destruct (fs w' !! "tcga_data/metadata/TCGA-BRCA/P1.json"%string)
      as [[|c]|]; inversion Hall. reflexivity.
  - apply (f_equal fst) in E. vm_compute in E. discriminate.
Defined.

(** *** Which slides a project fetches *)

Lemma asks_weaken {A} (P Q : request -> Prop) (m : M A) :
  (forall rq, P rq -> Q rq) -> asks P m -> asks Q m.
Proof.
  intros HPQ Hm w. destruct (Hm w) as (extra & Hr & HP).
  exists extra. split; [exact Hr|]. eapply Forall_impl; [exact HP | exact HPQ].
Qed.

Lemma asks_for_each_In {A} P (l : list A) body :
  (forall x, In x l -> asks P (body x)) -> asks P (for_each l body).
Proof.
  induction l as [|x l IH]; intros Hb; simpl.
  - apply asks_keeps, keeps_ret.
  - apply asks_bind; [apply Hb; left; reflexivity|].
    intros _. apply IH. intros y Hy. apply Hb. right. exact Hy.
Qed.

Lemma asks_subscript {B} P key value (k : string -> M B) :
  (forall v, value = Some v -> asks P (k v)) ->
  asks P (bind (subscript key value) k).
Proof.
  intros Hk. destruct value as [v|].
  - intros w. apply (Hk v eq_refl).
  - intros w. exists []. simpl. rewrite app_nil_r. split; [reflexivity | constructor].
Qed.

Lemma asks_download_file md5 project_id file_id file_name identifier md5sum dir :
  asks (eq (DataFetch file_id))
    (download_file md5 project_id file_id file_name identifier md5sum dir).
Proof.
  intros w.
  destruct (download_file_requests md5 project_id file_id file_name identifier
              md5sum dir w) as (k & _ & Hr).
  exists (repeat (DataFetch file_id) k). split; [exact Hr|].
  apply Forall_forall. intros rq Hin. apply list_elem_of_In in Hin.
  apply repeat_spec in Hin. congruence.
Qed.

Lemma asks_download_slides rt download_type project_id identifier dir slides :
  asks (fetch_of slides)
    (download_slides rt download_type project_id identifier dir slides).
Proof.
  unfold download_slides. apply asks_for_each_In. intros file Hin.
  cbv zeta. destruct (_ || _); [apply asks_keeps, keeps_ret|].
  apply asks_subscript. intros id Hid.
  apply asks_subscript. intros name _.
  apply asks_subscript. intros sum _.
  apply asks_try_except.
  - destruct dir as [dir|]; [|apply asks_keeps, keeps_raise].
    eapply asks_weaken; [|apply asks_download_file].
    intros rq <-. exists file, id. auto.
  - intros e. apply asks_keeps, keeps_requests_emit.
Qed.

(** X24. Only admitted slides are fetched.  Whatever becomes of the [try]
    block of a project, its first request is the manifest query of the
    project and every other request is the fetch of a record of that
    manifest which [group_by_patient] admits: a record whose experimental
    strategy passes the slide-type filter and, when an allow-list is given
    and not empty, whose patient is on the list. *)
Theorem only_admitted_slides_fetched
    (rt : runtime) (download_type : string)
    (patient_id_list : option (list string)) (project_id dir : string)
    (slides_dir : option string) (w : world) :
  let slide_type :=
    if negb (download_type =? "none") then download_type else "both"%string in
  let w' := snd (process_project rt download_type patient_id_list project_id dir
                   slides_dir w) in
  exists fetches,
    requests w' = requests w ++ ManifestQuery project_id :: fetches
    /\ forall rq, In rq fetches ->
         exists resp doc files file id,
           head (net w) = Some (Answer resp) /\ json_body resp = Some doc
           /\ manifest_hits doc = Ok files
           /\ In file files
           /\ Grouping.admits slide_type patient_id_list file = true
           /\ file_id file = Some id /\ rq = DataFetch id.
Proof.
  cbv zeta. unfold process_project. unfold bind at 1.
  pose proof (get_manifest_requests project_id w) as Hreq.
  destruct (get_manifest project_id w) as [[doc|e] w1] eqn:Hget; simpl in Hreq.
  2:{ exists []. split; [exact Hreq | intros rq []]. }
  apply get_manifest_Ok in Hget. destruct Hget as (resp & Hresp & Hdoc).
  unfold bind at 1.
  destruct (manifest_hits doc) as [files|e] eqn:Hhits; simpl.
  2:{ exists []. split; [exact Hreq | intros rq []]. }
  unfold bind at 1.
  destruct (Grouping.group_by_patient files _ patient_id_list) as [g|e] eqn:Hgroup;
    simpl.
  2:{ exists []. split; [exact Hreq | intros rq []]. }
  pose proof (GroupingClaims.group_by_patient_grouped _ _ _ _ Hgroup) as Hgr.
  match goal with
  | |- context [snd (?m w1)] =>
      assert (Hasks : asks (fun rq => exists file id,
                              In file files
                              /\ Grouping.admits
                                   (if negb (download_type =? "none")
                                    then download_type else "both")
                                   patient_id_list file = true
                              /\ file_id file = Some id /\ rq = DataFetch id) m)
  end.
  { apply asks_bind.
    { apply asks_keeps. destruct g; [apply keeps_requests_emit | apply keeps_ret]. }
    intros _. apply asks_bind; [|intros _; apply asks_keeps,
                                   keeps_requests_project_summary].
    apply asks_for_each_In. intros [k slides] Hin. simpl.
    apply asks_bind; [apply asks_keeps, keeps_requests_save_metadata|]. intros _.
    destruct (negb (download_type =? "none")) eqn:Hnone;
      [|apply asks_keeps, keeps_ret].
    eapply asks_weaken; [|apply asks_download_slides].
    intros rq (file & id & Hf & Hid & ->).
    destruct (GroupingClaims.grouped_member _ _ _ _ _ _ _ Hgr Hin Hf)
      as (Hff & Ha & _).
    exists file, id. auto. }
  destruct (Hasks w1) as (fetches & Hr & HP).
  exists fetches. split; [rewrite Hr, Hreq, <- app_assoc; reflexivity|].
  intros rq Hin. rewrite Forall_forall in HP.
  destruct (HP rq (proj2 (list_elem_of_In _ _) Hin))
    as (file & id & Hf & Ha & Hid & ->).
  exists resp, doc, files, file, id. auto 10.
Qed.

End PipelineFacts.
